(** * bittrex_autotrader.py: a shallow embedding and its properties

    The script is Python 2.  Its values are dynamically typed, so the
    embedding carries a small universe of Python values ([pyval]); its
    effects (HTTP exchanges, the clock, standard error, standard output,
    sleeping, uncaught exceptions and [sys.exit]) are threaded through a
    state-and-error monad over an explicit program state.

    Numbers: a Python float is an IEEE 754 binary64 number.  It is embedded
    as the Standard Library's [spec_float], with the library's operations at
    precision 53, which round to nearest, ties to even, and know the signed
    zeros, the infinities and NaN.  [round(x, 8)] is Python 2.7's: the
    multiple of 10^-8 nearest to the exact value of [x], ties away from zero,
    read back as a float.  The order in which numpy adds up an array is not
    fixed by the script; it is left to the runtime, which says only that the
    sum is some bracketing of binary64 additions over the elements.

    Outside the model: transport failures of [requests.get] and bodies that
    are not a JSON envelope [{success, message, result}]. *)

From Stdlib Require Import ZArith QArith Qround List String Ascii Bool Lia.
From Stdlib Require Import DecimalString Permutation Lqa SpecFloat.
From Stdlib Require DecimalPos DecimalZ.
Import ListNotations.

Local Open Scope string_scope.
Local Open Scope Z_scope.

#[local] Set Warnings "-register-all".

(** ** Python values *)

(** A float: a binary64 number.  [S754_finite s m e] is (-1)^s * m * 2^e,
    [S754_zero s] a signed zero, [S754_infinity s] an infinity, [S754_nan]
    NaN. *)
Definition pyfloat : Type := spec_float.

(** The values the script handles: configuration strings, decoded JSON and
    the numbers computed from them.  A dict keeps its items as an association
    list with distinct string keys. *)
Inductive pyval : Type :=
| PNone
| PBool (b : bool)
| PInt (z : Z)
| PFloat (f : pyfloat)
| PStr (s : string)
| PList (l : list pyval)
| PDict (d : list (string * pyval)).

(** A pure computation that may raise; [Err] carries the name of the Python
    exception class. *)
Inductive exc (A : Type) : Type :=
| Val (a : A)
| Err (exn : string).
Arguments Val {A} a.
Arguments Err {A} exn.

Definition exc_bind {A B} (m : exc A) (f : A -> exc B) : exc B :=
  match m with
  | Val a => f a
  | Err e => Err e
  end.

(** ** Float arithmetic: binary64 *)

Definition prec : Z := 53.
Definition emax : Z := 1024.

Definition NaN : pyfloat := S754_nan.

Definition fadd (a b : pyfloat) : pyfloat := SFadd prec emax a b.

Definition fsub (a b : pyfloat) : pyfloat := SFsub prec emax a b.

Definition fmul (a b : pyfloat) : pyfloat := SFmul prec emax a b.

(** The quotient of two floats where nothing raises (numpy's division). *)
Definition fquot (a b : pyfloat) : pyfloat := SFdiv prec emax a b.

Definition is_zero (x : pyfloat) : bool :=
  match x with
  | S754_zero _ => true
  | _ => false
  end.

Definition is_nan (x : pyfloat) : bool :=
  match x with
  | S754_nan => true
  | _ => false
  end.

(** [a / b] on Python floats: a zero divisor, of either sign, raises. *)
Definition fdiv (a b : pyfloat) : exc pyfloat :=
  if is_zero b then Err "ZeroDivisionError" else Val (fquot a b).

(** [a < b] and [a <= b] on floats: every comparison with NaN is false, and
    the two zeros are equal. *)
Definition flt (a b : pyfloat) : bool := SFltb a b.

Definition fle (a b : pyfloat) : bool := SFleb a b.

(** The integer [z] as an operand of a division: mantissa [|z|] and
    exponent 0, whatever the size of [z]. *)
Definition int_operand (z : Z) : spec_float :=
  match z with
  | Z0 => S754_zero false
  | Zpos p => S754_finite false p 0
  | Zneg p => S754_finite true p 0
  end.

(** The float nearest to the rational [q], ties to even, an infinity beyond
    the range of binary64: what Python makes of a decimal literal, of a
    number in a JSON document and of the digits handed to [float] or to
    [strtod].  The library's division carries the quotient of the two
    integers to more than 53 bits with the position of the remainder, and
    rounds once. *)
Definition F64 (q : Q) : pyfloat :=
  fquot (int_operand (Qnum q)) (int_operand (Zpos (Qden q))).

(** The exact value of a finite float (0 for the other ones). *)
Definition value (x : pyfloat) : Q :=
  match x with
  | S754_finite s m e =>
      let v := (inject_Z (Zpos m) * (2 # 1) ^ e)%Q in
      if s then (- v)%Q else v
  | _ => 0%Q
  end.

(** [x < z] for a float and an int, which Python compares by their exact
    values. *)
Definition flt_int (x : pyfloat) (z : Z) : bool :=
  match x with
  | S754_nan => false
  | S754_infinity s => s
  | _ => negb (Qle_bool (inject_Z z) (value x))
  end.

(** Nearest integer, ties away from zero. *)
Definition round_half_away (q : Q) : Z :=
  if Qle_bool 0 q then Qfloor (q + (1 # 2))
  else - Qfloor (- q + (1 # 2)).

(** The multiple of 10^-8 nearest to [q], ties away from zero. *)
Definition round8Q (q : Q) : Q :=
  round_half_away (q * (100000000 # 1)) # 100000000.

(** [round(x, 8)] of Python 2.7.  A zero, an infinity and NaN come back as
    they are.  A finite [x] is written out in decimal, correctly rounded to
    8 places from its exact value with ties away from zero, and the digits
    are read back with [strtod]; when they are all 0 the sign of [x] stays
    on the zero. *)
Definition round8 (x : pyfloat) : pyfloat :=
  match x with
  | S754_finite s _ _ =>
      match round_half_away (value x * (100000000 # 1)) with
      | Z0 => S754_zero s
      | r => F64 (r # 100000000)
      end
  | _ => x
  end.

(** [int(x)] on a finite float: truncation toward zero. *)
Definition py_int (q : Q) : Z := Z.quot (Qnum q) (Zpos (Qden q)).

(** [str(n)] on an int. *)
Definition str_int (z : Z) : string := NilZero.string_of_int (Z.to_int z).

(** ** What the Python runtime and its libraries supply

    [hmac_sha512_hexdigest secret message] is
    [hmac.new(secret, message, hashlib.sha512).hexdigest()];
    [py_repr] is the text [str()] gives for a float, a list or a dict;
    [float_of_string] is [float(s)] on a string ([None]: ValueError);
    [iteritems_order] is the order in which a Python 2 dict yields its items,
    which depends on the hashes of the keys: some rearrangement of them;
    [numpy_sum] is numpy's sum of a float64 array, [numpy.add.reduce]: the
    additions are binary64 additions, but their order and bracketing are
    numpy's own (a running sum, sums in pairs, several partial sums at once,
    each of which may start from 0.0), so all that is known of the result is
    that it is the value of some tree of additions over the elements;
    [numpy_dot] is the inner product behind [numpy.correlate], left to the
    linear-algebra library numpy is built on. *)

(** A way of adding up: the leaves are the elements and, possibly, a
    starting value 0.0. *)
Inductive sum_tree : Type :=
| ST_zero
| ST_leaf (x : pyfloat)
| ST_add (l r : sum_tree).

Fixpoint st_leaves (t : sum_tree) : list pyfloat :=
  match t with
  | ST_zero => []
  | ST_leaf x => [x]
  | ST_add l r => (st_leaves l ++ st_leaves r)%list
  end.

Fixpoint st_value (t : sum_tree) : pyfloat :=
  match t with
  | ST_zero => S754_zero false
  | ST_leaf x => x
  | ST_add l r => fadd (st_value l) (st_value r)
  end.

Class PyRuntime : Type := {
  hmac_sha512_hexdigest : string -> string -> string;
  py_repr : pyval -> string;
  float_of_string : string -> option pyfloat;
  iteritems_order : list (string * pyval) -> list (string * pyval);
  iteritems_perm : forall d, Permutation (iteritems_order d) d;
  numpy_sum : list pyfloat -> pyfloat;
  numpy_sum_tree :
    forall a, exists t, Permutation (st_leaves t) a /\
                        numpy_sum a = st_value t;
  numpy_dot : list pyfloat -> list pyfloat -> pyfloat
}.

(** ** Builtins on values *)

Fixpoint dict_get {V : Type} (k : string) (d : list (string * V)) : option V :=
  match d with
  | [] => None
  | (k', v) :: d' => if String.eqb k k' then Some v else dict_get k d'
  end.

(** [d[k] = v]: overwrite the item in place, or add a new one. *)
Fixpoint dict_set {V : Type} (k : string) (v : V) (d : list (string * V))
  : list (string * V) :=
  match d with
  | [] => [(k, v)]
  | (k', v') :: d' =>
      if String.eqb k k' then (k, v) :: d' else (k', v') :: dict_set k v d'
  end.

(** [v[key]] with a string key. *)
Definition py_getitem (v : pyval) (key : string) : exc pyval :=
  match v with
  | PDict d =>
      match dict_get key d with
      | Some x => Val x
      | None => Err "KeyError"
      end
  | _ => Err "TypeError"
  end.

(** [l[i]] on a list: a negative index counts from the end. *)
Definition py_list_index {A : Type} (l : list A) (i : Z) : exc A :=
  let n := Z.of_nat (List.length l) in
  let j := if i <? 0 then i + n else i in
  if (j <? 0) || (n <=? j) then Err "IndexError"
  else match nth_error l (Z.to_nat j) with
       | Some x => Val x
       | None => Err "IndexError"
       end.

(** Truth value of an object in a condition. *)
Definition py_truthy (v : pyval) : bool :=
  match v with
  | PNone => false
  | PBool b => b
  | PInt z => negb (z =? 0)
  | PFloat f => negb (is_zero f)
  | PStr s => negb (String.eqb s "")
  | PList l => match l with [] => false | _ => true end
  | PDict d => match d with [] => false | _ => true end
  end.

(** [v == s] where [s] is a string. *)
Definition py_eq_str (v : pyval) (s : string) : bool :=
  match v with
  | PStr t => String.eqb t s
  | _ => false
  end.

(** [x < v] where [x] is a float.  Python 2 orders objects of different
    types: [None] is below everything, and a number is below every object
    that is not a number. *)
Definition py_float_lt (x : pyfloat) (v : pyval) : bool :=
  match v with
  | PNone => false
  | PBool b => flt_int x (if b then 1 else 0)
  | PInt z => flt_int x z
  | PFloat y => flt x y
  | PStr _ | PList _ | PDict _ => true
  end.

Section Runtime.

Context {RT : PyRuntime}.

(** [float(v)].  An int becomes the nearest float; one beyond the range of
    binary64 raises OverflowError. *)
Definition py_float (v : pyval) : exc pyfloat :=
  match v with
  | PFloat f => Val f
  | PInt z =>
      match F64 (inject_Z z) with
      | S754_infinity _ => Err "OverflowError"
      | f => Val f
      end
  | PBool b => Val (F64 (if b then 1 else 0)%Q)
  | PStr s =>
      match float_of_string s with
      | Some f => Val f
      | None => Err "ValueError"
      end
  | PNone | PList _ | PDict _ => Err "TypeError"
  end.

(** [str(v)]. *)
Definition py_str (v : pyval) : string :=
  match v with
  | PStr s => s
  | PNone => "None"
  | PBool true => "True"
  | PBool false => "False"
  | PInt z => str_int z
  | PFloat _ | PList _ | PDict _ => py_repr v
  end.

(** [d.iteritems()]. *)
Definition iteritems (d : list (string * pyval)) : list (string * pyval) :=
  iteritems_order d.

End Runtime.

(** [sep.join(l)]. *)
Fixpoint join (sep : string) (l : list string) : string :=
  match l with
  | [] => ""
  | [x] => x
  | x :: l' => x ++ sep ++ join sep l'
  end.

(** [s.split(sep)] for a one-character separator. *)
Fixpoint split_on (sep : ascii) (s : string) : list string :=
  match s with
  | EmptyString => [""]
  | String c s' =>
      if Ascii.eqb c sep then "" :: split_on sep s'
      else match split_on sep s' with
           | [] => [String c ""]
           | w :: ws => String c w :: ws
           end
  end.

(** [s.startswith(p)]. *)
Fixpoint starts_with (p s : string) : bool :=
  match p with
  | EmptyString => true
  | String a p' =>
      match s with
      | EmptyString => false
      | String b s' => Ascii.eqb a b && starts_with p' s'
      end
  end.

(** [s.replace(old, new)] for a non-empty [old]: left to right, without
    overlaps; [skip] counts the characters of a match still to drop. *)
Fixpoint replace_go (old new : string) (skip : nat) (s : string) : string :=
  match s with
  | EmptyString => EmptyString
  | String c s' =>
      match skip with
      | S k => replace_go old new k s'
      | O =>
          if starts_with old s
          then new ++ replace_go old new (String.length old - 1) s'
          else String c (replace_go old new O s')
      end
  end.

Definition str_replace (old new s : string) : string := replace_go old new O s.

(** ** The world outside and the program state *)

(** The JSON envelope of a response. *)
Record envelope : Type := {
  success : bool;
  message : string;
  result : pyval
}.

(** The environment of a run: the envelope answered to the n-th HTTP request
    of the process, and the reading of [time.time()] taken while the n-th
    request is prepared. *)
Record env : Type := {
  exchange : nat -> envelope;
  clock : nat -> Q
}.

(** What the process does that can be seen from outside.  A printed table is
    kept as its data: the column titles and, per row, the label and the value
    that [format(v, '.8f')] renders. *)
Inductive event : Type :=
| EvRequest (url : string) (headers : list (string * string))
| EvStderr (text : string)
| EvSleep (seconds : Z)
| EvPrint (cols : list string) (rows : list (string * pyfloat)).

(** The mutable part of the process: the attributes [orders] and [active] of
    the trader, the number of HTTP exchanges made so far, and the events so
    far, oldest first. *)
Record state : Type := {
  orders : list pyval;
  active : Z;
  calls : nat;
  log : list event
}.

(** How a computation ends: with a value, by [sys.exit(code)], or by an
    exception that nothing catches (the script has no [try]). *)
Inductive outcome (A : Type) : Type :=
| Ok (a : A) (s : state)
| Exit (code : Z) (s : state)
| Raise (exn : string) (s : state).
Arguments Ok {A} a s.
Arguments Exit {A} code s.
Arguments Raise {A} exn s.

Definition M (A : Type) : Type := state -> outcome A.

Definition ret {A} (a : A) : M A := fun s => Ok a s.

Definition bind {A B} (m : M A) (f : A -> M B) : M B :=
  fun s =>
    match m s with
    | Ok a s' => f a s'
    | Exit c s' => Exit c s'
    | Raise e s' => Raise e s'
    end.

Notation "x <- m ;; k" := (bind m (fun x => k))
  (at level 61, m at next level, right associativity).
Notation "m ;;; k" := (bind m (fun _ => k))
  (at level 61, right associativity).

Definition raise {A} (exn : string) : M A := fun s => Raise exn s.

Definition lift {A} (m : exc A) : M A :=
  match m with
  | Val a => ret a
  | Err e => raise e
  end.

(** [sys.exit(code)]. *)
Definition sys_exit {A} (code : Z) : M A := fun s => Exit code s.

(** The state after one more event. *)
Definition log_add (e : event) (s : state) : state :=
  {| orders := orders s; active := active s;
     calls := calls s; log := log s ++ [e] |}.

(** The state after one more HTTP exchange. *)
Definition sent (url : string) (headers : list (string * string))
    (s : state) : state :=
  {| orders := orders s; active := active s;
     calls := S (calls s); log := log s ++ [EvRequest url headers] |}.

(** The same, for a request given as an event. *)
Definition exchanged (req : event) (s : state) : state :=
  {| orders := orders s; active := active s;
     calls := S (calls s); log := log s ++ [req] |}.

Definition emit (e : event) : M unit := fun s => Ok tt (log_add e s).

(** [time.time()]. *)
Definition time_time (E : env) : M Q := fun s => Ok (clock E (calls s)) s.

(** [requests.get(url, headers=headers).json()]. *)
Definition requests_get (E : env) (url : string)
    (headers : list (string * string)) : M envelope :=
  fun s => Ok (exchange E (calls s)) (sent url headers s).

Definition final {A} (r : outcome A) : state :=
  match r with
  | Ok _ s => s
  | Exit _ s => s
  | Raise _ s => s
  end.

(** ** BittrexApiRequest *)

Definition BASE_URL : string := "https://bittrex.com/api/v1.1/".

Record BittrexApiRequest : Type := {
  apikey : string;
  secret : string
}.

(** The [params] argument of [get]: a dict, or, when the caller passes none,
    the default of the signature [params=dict], which is the type object
    [dict] itself. *)
Inductive params_arg : Type :=
| DictType
| DictObj (d : list (string * pyval)).

Section Api.

Context {RT : PyRuntime}.
Variable E : env.

Definition _sign (secret message : string) : string :=
  hmac_sha512_hexdigest secret message.

(** The query string and the URL of [get], lines 641-649. *)
Definition query_str (items : list (string * pyval)) : list string :=
  map (fun nv => fst nv ++ "=" ++ py_str (snd nv)) items.

Definition make_url (method : string) (items : list (string * pyval))
  : string :=
  (BASE_URL ++ method) ++ ("?" ++ join "&" (query_str items)).

Definition get (self : BittrexApiRequest) (method : string)
    (params : params_arg) (headers : option (list (string * string)))
    (signed : bool) : M pyval :=
  params <-
    (if signed then
       match params with
       | DictType => raise "TypeError"
       | DictObj d =>
           let d := dict_set "apikey" (PStr (apikey self)) d in
           now <- time_time E ;;
           ret (DictObj (dict_set "nonce" (PStr (str_int (py_int now))) d))
       end
     else ret params) ;;
  items <-
    match params with
    | DictType => raise "TypeError"
    | DictObj d => ret (iteritems d)
    end ;;
  let url := make_url method items in
  let headers := match headers with None => [] | Some h => h end in
  let headers :=
    if signed then dict_set "apisign" (_sign (secret self) url) headers
    else headers in
  res <- requests_get E url headers ;;
  if negb (success res) then
    emit (EvStderr ("Bittex response: " ++ message res)) ;;;
    sys_exit 1
  else ret (result res).

Definition public_markets self : M pyval :=
  get self "public/getmarkets" DictType None false.

Definition public_currencies self : M pyval :=
  get self "public/getcurrencies" DictType None false.

Definition public_ticker self (market : pyval) : M pyval :=
  get self "public/getticker" (DictObj [("market", market)]) None false.

Definition public_market_summaries self : M pyval :=
  get self "public/getmarketsummaries" DictType None false.

Definition public_market_summary self (market : pyval) : M pyval :=
  get self "public/getmarketsummary" (DictObj [("market", market)]) None false.

Definition public_market_history self (market : pyval) : M pyval :=
  get self "public/getmarkethistory" (DictObj [("market", market)]) None false.

Definition public_order_book self (market book_type : pyval) : M pyval :=
  get self "public/getorderbook"
      (DictObj [("market", market); ("type", book_type)]) None false.

Definition market_buy_limit self (market quantity rate : pyval) : M pyval :=
  get self "market/buylimit"
      (DictObj [("market", market); ("quantity", quantity); ("rate", rate)])
      None true.

Definition market_sell_limit self (market quantity rate : pyval) : M pyval :=
  get self "market/selllimit"
      (DictObj [("market", market); ("quantity", quantity); ("rate", rate)])
      None true.

Definition market_cancel self (uuid : pyval) : M pyval :=
  get self "market/cancel" (DictObj [("uuid", uuid)]) None true.

Definition market_open_orders self (market : pyval) : M pyval :=
  get self "market/getopenorders" (DictObj [("market", market)]) None true.

Definition account_balances self : M pyval :=
  get self "account/getbalances" DictType None true.

Definition account_balance self (currency : pyval) : M pyval :=
  get self "account/getbalance" (DictObj [("currency", currency)]) None true.

Definition account_deposit_address self (currency : pyval) : M pyval :=
  get self "account/getdepositaddress" (DictObj [("currency", currency)])
      None true.

Definition account_withdraw self (currency quantity address paymentid : pyval)
  : M pyval :=
  get self "account/getwithdraw"
      (DictObj [("currency", currency); ("quantity", quantity);
                ("address", address); ("paymentid", paymentid)])
      None true.

Definition account_order self (uuid : pyval) : M pyval :=
  get self "account/getorder" (DictObj [("uuid", uuid)]) None true.

Definition account_order_history self (market : pyval) : M pyval :=
  get self "account/getorderhistory" (DictObj [("market", market)]) None true.

Definition account_deposit_history self (currency : pyval) : M pyval :=
  get self "account/getdeposithistory" (DictObj [("currency", currency)])
      None true.

Definition account_withdrawl_history self (currency : pyval) : M pyval :=
  get self "account/getwithdrawlhistory" (DictObj [("currency", currency)])
      None true.

End Api.

(** ** numpy arrays of float64 *)

(** An array: its shape and its elements, in the order of its indices (the
    last index running fastest). *)
Record ndarray : Type := {
  shape : list nat;
  data : list pyfloat
}.

(** [numpy.maximum] on two elements, as [numpy.maximum.reduce] applies it
    to the running maximum [a] and the next element [b]: [a] stays unless
    [b] is larger, and NaN, once met, stays. *)
Definition fmax (a b : pyfloat) : pyfloat :=
  if fle b a || is_nan a then a else b.

(** [a.mean()]: numpy's sum of all the elements, divided by their number;
    NaN (with a warning only) on an array without elements. *)
Definition ndarray_mean {RT : PyRuntime} (a : ndarray) : pyfloat :=
  match data a with
  | [] => NaN
  | _ :: _ =>
      fquot (numpy_sum (data a))
            (F64 (inject_Z (Z.of_nat (List.length (data a)))))
  end.

(** [a.max()] over all the elements: an array without elements has no
    maximum, numpy raises ValueError (zero-size array to reduction operation
    maximum which has no identity). *)
Definition ndarray_max (a : ndarray) : exc pyfloat :=
  match data a with
  | [] => Err "ValueError"
  | x :: xs => Val (fold_left fmax xs x)
  end.

(** ** BittrexAutoTrader *)

(** The [settings] dict handed to the constructor. *)
Record Settings : Type := {
  cfg_apikey : string;
  cfg_secret : string;
  cfg_market : string;
  cfg_shares : pyval;
  cfg_spread : string
}.

(** [main], lines 45-63: the options come from [argparse] (no [type=]) or
    from [ConfigParser.items]; either way every value is a string. *)
Definition main_settings (apikey secret market shares spread : string)
  : Settings :=
  {| cfg_apikey := apikey; cfg_secret := secret; cfg_market := market;
     cfg_shares := PStr shares; cfg_spread := spread |}.

(** The attributes of the trader that never change after [__init__]; the
    two that do, [orders] and [active], live in [state]. *)
Record BittrexAutoTrader : Type := {
  apiReq : BittrexApiRequest;
  market : string;
  shares : pyval;
  spread : list string
}.

(** [__init__], lines 98-103, up to the call of [init]. *)
Definition new_trader (settings : Settings) : BittrexAutoTrader :=
  {| apiReq := {| apikey := cfg_apikey settings;
                  secret := cfg_secret settings |};
     market := cfg_market settings;
     shares := cfg_shares settings;
     spread := split_on "/" (cfg_spread settings) |}.

Definition start : state :=
  {| orders := []; active := 0; calls := 0; log := [] |}.

(** [_list_of_dict_filter_by]: the items of [data] whose [key] equals
    [value].  [enumerate(data)] needs an iterable, [data[i]] an index the
    object accepts, and [.get] a dict. *)
Fixpoint filter_items (l : list pyval) (key value : string)
  : exc (list pyval) :=
  match l with
  | [] => Val []
  | item :: l' =>
      match item with
      | PDict d =>
          let keep :=
            match dict_get key d with
            | Some v => py_eq_str v value
            | None => false
            end in
          exc_bind (filter_items l' key value)
                   (fun r => Val (if keep then item :: r else r))
      | _ => Err "AttributeError"
      end
  end.

Definition _list_of_dict_filter_by (data : pyval) (key value : string)
  : exc (list pyval) :=
  match data with
  | PList l => filter_items l key value
  | PDict [] => Val []
  | PDict (_ :: _) => Err "KeyError"
  | PStr "" => Val []
  | PStr _ => Err "AttributeError"
  | PNone | PBool _ | PInt _ | PFloat _ => Err "TypeError"
  end.

(** [_list_of_dict_to_csv]: one row per item, one cell per name of [keys];
    [DictWriter] fills a missing key with the empty string.  The CSV text is
    kept as its rows of cells; writing the text and reading it back is not
    modelled. *)
Fixpoint _list_of_dict_to_csv (data : list pyval) (keys : list string)
  : exc (list (list pyval)) :=
  match data with
  | [] => Val []
  | item :: data' =>
      match item with
      | PDict d =>
          let filtered_item :=
            filter (fun kv => existsb (String.eqb (fst kv)) keys) d in
          let row :=
            map (fun k => match dict_get k filtered_item with
                          | Some v => v
                          | None => PStr ""
                          end) keys in
          exc_bind (_list_of_dict_to_csv data' keys)
                   (fun rows => Val (row :: rows))
      | _ => Err "AttributeError"
      end
  end.

Section Trader.

Context {RT : PyRuntime}.
Variable E : env.

(** What [numpy.loadtxt] makes of one cell of a row.  The writer puts a
    float down with [repr], which [float] reads back as the same float, an
    int with [str], and [None] as an empty field; any other text goes
    through [float], and what [float] refuses is a ValueError.  Only the
    cells are modelled: the text of the file between the writer and
    [loadtxt], with its delimiters, quotes and line ends, is not. *)
Definition loadtxt_cell (v : pyval) : exc pyfloat :=
  match v with
  | PFloat f => Val f
  | PInt z => Val (F64 (inject_Z z))
  | PStr s =>
      match float_of_string s with
      | Some f => Val f
      | None => Err "ValueError"
      end
  | PNone | PBool _ | PList _ | PDict _ => Err "ValueError"
  end.

Fixpoint loadtxt_cells (cells : list pyval) : exc (list pyfloat) :=
  match cells with
  | [] => Val []
  | c :: cells' =>
      exc_bind (loadtxt_cell c)
               (fun f => exc_bind (loadtxt_cells cells')
                                  (fun fs => Val (f :: fs)))
  end.

Fixpoint loadtxt_rows (rows : list (list pyval))
  : exc (list (list pyfloat)) :=
  match rows with
  | [] => Val []
  | r :: rows' =>
      exc_bind (loadtxt_cells r)
               (fun fs => exc_bind (loadtxt_rows rows')
                                   (fun fss => Val (fs :: fss)))
  end.

(** Column [j] of a table, and the table turned over. *)
Definition column (rows : list (list pyfloat)) (j : nat) : list pyfloat :=
  map (fun r => nth j r NaN) rows.

Definition transpose (k : nat) (rows : list (list pyfloat))
  : list (list pyfloat) :=
  map (column rows) (seq 0 k).

(** The array [numpy.loadtxt(..., unpack=True)] returns for [n] rows of [k]
    numbers each.  Axes of length 1 are squeezed out, so one row of one
    number is an array of no dimension and one row or one column is
    one-dimensional; [unpack=True] then turns the table over, which matters
    for a table of several rows and columns: it comes back with one row per
    column of the file.  A file without data gives an empty one-dimensional
    array (and a warning). *)
Definition loadtxt_array (k : nat) (rows : list (list pyfloat)) : ndarray :=
  match k, rows with
  | O, _ | _, [] => {| shape := [O]; data := [] |}
  | S O, [r] => {| shape := []; data := r |}
  | _, [r] => {| shape := [k]; data := r |}
  | S O, _ => {| shape := [List.length rows]; data := List.concat rows |}
  | _, _ => {| shape := [k; List.length rows];
               data := List.concat (transpose k rows) |}
  end.

(** [_numpy_loadtxt]: the rows of [_list_of_dict_to_csv], each cell read as
    a number, as the array of [loadtxt]. *)
Definition _numpy_loadtxt (data : list pyval) (keys : list string)
  : exc ndarray :=
  exc_bind (_list_of_dict_to_csv data keys)
           (fun rows =>
              exc_bind (loadtxt_rows rows)
                       (fun table =>
                          Val (loadtxt_array (List.length keys) table))).

(** [_wait]: sleeps for [seconds] (the spinner is not modelled). *)
Definition _wait (seconds : Z) : M unit := emit (EvSleep seconds).

Definition get_orders : M (list pyval) := fun s => Ok (orders s) s.

Definition get_active : M Z := fun s => Ok (active s) s.

(** [self.orders.append(o)]. *)
Definition orders_append (o : pyval) : M unit :=
  fun s => Ok tt {| orders := orders s ++ [o]; active := active s;
                    calls := calls s; log := log s |}.

(** [self.active += 1]. *)
Definition active_incr : M unit :=
  fun s => Ok tt {| orders := orders s; active := active s + 1;
                    calls := calls s; log := log s |}.

(** Lines 138-148: the mean and the maximum of the prices of the trades of
    one side, each rounded to 8 places. *)
Definition market_totals (self : BittrexAutoTrader) (trade_type : string)
  : M (pyfloat * pyfloat) :=
  market_history <- public_market_history E (apiReq self)
                                          (PStr (market self)) ;;
  filtered <- lift (_list_of_dict_filter_by market_history
                                            "OrderType" trade_type) ;;
  price_history <- lift (_numpy_loadtxt filtered ["Price"]) ;;
  let market_avg := round8 (ndarray_mean price_history) in
  price_max <- lift (ndarray_max price_history) ;;
  let market_max := round8 price_max in
  ret (market_avg, market_max).

(** Lines 153-156: the units of the order. *)
Definition calc_units (self : BittrexAutoTrader) (ticker : pyval)
  : exc pyval :=
  exc_bind (py_getitem ticker "Last") (fun last =>
  exc_bind (py_float last) (fun last =>
  exc_bind (fdiv (F64 (5 # 10000)) last) (fun total_units =>
  Val (if py_float_lt total_units (shares self)
       then shares self
       else PFloat total_units)))).

(** Lines 168-171: the price of a BUY. *)
Definition calc_bid (self : BittrexAutoTrader) (ticker : pyval)
  : exc (pyfloat * pyfloat) :=
  exc_bind (py_getitem ticker "Bid") (fun bid =>
  exc_bind (py_float bid) (fun ticker_bid =>
  exc_bind (py_list_index (spread self) 1) (fun markdown =>
  exc_bind (py_float (PStr markdown)) (fun markdown =>
  Val (ticker_bid,
       round8 (fsub ticker_bid (fmul ticker_bid markdown))))))).

(** Lines 182-185: the price of a SELL. *)
Definition calc_ask (self : BittrexAutoTrader) (ticker : pyval)
  : exc (pyfloat * pyfloat) :=
  exc_bind (py_getitem ticker "Ask") (fun ask =>
  exc_bind (py_float ask) (fun ticker_ask =>
  exc_bind (py_list_index (spread self) 0) (fun markup =>
  exc_bind (py_float (PStr markup)) (fun markup =>
  Val (ticker_ask,
       round8 (fadd ticker_ask (fmul ticker_ask markup))))))).

Definition submit_order (self : BittrexAutoTrader) (trade_type : string)
  : M unit :=
  totals <- market_totals self trade_type ;;
  let market_avg := fst totals in
  let market_max := snd totals in
  ticker <- public_ticker E (apiReq self) (PStr (market self)) ;;
  total_units <- lift (calc_units self ticker) ;;
  let currency := str_replace "BTC-" "" (market self) in
  let cols := [trade_type; currency] in
  rows_uuid <-
    (if String.eqb trade_type "BUY" then
       bid <- lift (calc_bid self ticker) ;;
       let ticker_bid := fst bid in
       let trader_bid := snd bid in
       let rows := [("Avg", market_avg); ("Max", market_max);
                    ("Ask", ticker_bid); ("Bid", trader_bid)] in
       res <- market_buy_limit E (apiReq self) (PStr (market self))
                               total_units (PFloat trader_bid) ;;
       uuid <- lift (py_getitem res "uuid") ;;
       ret (rows, uuid)
     else
       ask <- lift (calc_ask self ticker) ;;
       let ticker_ask := fst ask in
       let trader_ask := snd ask in
       let rows := [("Avg", market_avg); ("Max", market_max);
                    ("Bid", ticker_ask); ("Ask", trader_ask)] in
       res <- market_sell_limit E (apiReq self) (PStr (market self))
                                total_units (PFloat trader_ask) ;;
       uuid <- lift (py_getitem res "uuid") ;;
       ret (rows, uuid)) ;;
  order <- account_order E (apiReq self) (snd rows_uuid) ;;
  orders_append order ;;;
  active_incr ;;;
  emit (EvPrint cols (fst rows_uuid)).

(** The side the loop passes next, line 125. *)
Definition flip_trade (last_trade : option string) : string :=
  match last_trade with
  | Some t => if String.eqb t "SELL" then "BUY" else "SELL"
  | None => "SELL"
  end.

(** Lines 115-122: with a non-empty ledger, fetch the order at
    [active - 1]; when it is open, wait 30 seconds and [continue] (the
    result is [true]). *)
Definition check_open (self : BittrexAutoTrader) : M bool :=
  os <- get_orders ;;
  match os with
  | [] => ret false
  | _ :: _ =>
      a <- get_active ;;
      last <- lift (py_list_index os (a - 1)) ;;
      uuid <- lift (py_getitem last "OrderUuid") ;;
      order <- account_order E (apiReq self) uuid ;;
      is_open <- lift (py_getitem order "IsOpen") ;;
      if py_truthy is_open then _wait 30 ;;; ret true
      else ret false
  end.

(** One pass through the body of [while True] in [init]; the value is the
    local [last_trade] afterwards. *)
Definition init_iter (self : BittrexAutoTrader) (last_trade : option string)
  : M (option string) :=
  waiting <- check_open self ;;
  if (waiting : bool) then ret last_trade
  else
    let last_trade := flip_trade last_trade in
    submit_order self last_trade ;;;
    ret (Some last_trade).

(** [init]: [last_trade = None], then the loop.  The loop has no exit of
    its own; [init_loop n] is its first [n] passes, and an [Ok] outcome means
    that the process is still running after them. *)
Fixpoint init_loop (n : nat) (self : BittrexAutoTrader)
    (last_trade : option string) : M (option string) :=
  match n with
  | O => ret last_trade
  | S n' =>
      last_trade <- init_iter self last_trade ;;
      init_loop n' self last_trade
  end.

(** [init], observed after [n] passes of its loop. *)
Definition init (n : nat) (self : BittrexAutoTrader) : M (option string) :=
  init_loop n self None.

(** [BittrexAutoTrader(settings)], observed after [n] passes of the loop. *)
Definition run (n : nat) (settings : Settings) : outcome (option string) :=
  init n (new_trader settings) start.

End Trader.

(** ** Observations on a run *)

Section Observations.

Context {RT : PyRuntime}.

(** The request of an operation that is not signed. *)
Definition public_request (method : string) (d : list (string * pyval))
  : event :=
  EvRequest (make_url method (iteritems d)) [].

(** The items of a signed request prepared at time [now]. *)
Definition signed_items (self : BittrexApiRequest)
    (d : list (string * pyval)) (now : Q) : list (string * pyval) :=
  iteritems (dict_set "nonce" (PStr (str_int (py_int now)))
                      (dict_set "apikey" (PStr (apikey self)) d)).

Definition signed_url (self : BittrexApiRequest) (method : string)
    (d : list (string * pyval)) (now : Q) : string :=
  make_url method (signed_items self d now).

Definition signed_request (self : BittrexApiRequest) (method : string)
    (d : list (string * pyval)) (now : Q) : event :=
  EvRequest (signed_url self method d now)
            [("apisign", _sign (secret self) (signed_url self method d now))].

Definition request_of (self : BittrexApiRequest) (method : string)
    (d : list (string * pyval)) (signed : bool) (now : Q) : event :=
  if signed then signed_request self method d now
  else public_request method d.

(** The price of an order of either side, and what its table shows. *)
Definition calc_price (self : BittrexAutoTrader) (trade_type : string)
    (ticker : pyval) : exc (pyfloat * pyfloat) :=
  if String.eqb trade_type "BUY" then calc_bid self ticker
  else calc_ask self ticker.

End Observations.

Definition order_method (trade_type : string) : string :=
  if String.eqb trade_type "BUY" then "market/buylimit"
  else "market/selllimit".

Definition table_rows (trade_type : string)
    (market_avg market_max ticker_price trader_price : pyfloat)
  : list (string * pyfloat) :=
  if String.eqb trade_type "BUY" then
    [("Avg", market_avg); ("Max", market_max);
     ("Ask", ticker_price); ("Bid", trader_price)]
  else
    [("Avg", market_avg); ("Max", market_max);
     ("Bid", ticker_price); ("Ask", trader_price)].

(** The events of one complete [submit_order], after the first request. *)
Definition submit_events {RT : PyRuntime} (E : env) (self : BittrexAutoTrader) (t : string)
    (n : nat) (avg mx : pyfloat) (units : pyval) (ref price : pyfloat)
    (uuid : pyval) : list event :=
  [public_request "public/getmarkethistory" [("market", PStr (market self))];
   public_request "public/getticker" [("market", PStr (market self))];
   signed_request (apiReq self) (order_method t)
                  [("market", PStr (market self)); ("quantity", units);
                   ("rate", PFloat price)]
                  (clock E (S (S n)));
   signed_request (apiReq self) "account/getorder" [("uuid", uuid)]
                  (clock E (S (S (S n))));
   EvPrint [t; str_replace "BTC-" "" (market self)]
           (table_rows t avg mx ref price)].

(** The n-th request is answered with success and payload [v]. *)
Definition answers (E : env) (n : nat) (v : pyval) : Prop :=
  success (exchange E n) = true /\ result (exchange E n) = v.

(** The side of the order that an event places, if it places one: a request
    to the buy-limit or to the sell-limit endpoint. *)
Definition order_side (e : event) : option string :=
  match e with
  | EvRequest url _ =>
      if starts_with (BASE_URL ++ "market/buylimit?") url then Some "BUY"
      else if starts_with (BASE_URL ++ "market/selllimit?") url
           then Some "SELL"
           else None
  | _ => None
  end.

(** The sides of the orders placed in a log, oldest first. *)
Fixpoint submitted (l : list event) : list string :=
  match l with
  | [] => []
  | e :: l' =>
      match order_side e with
      | Some t => t :: submitted l'
      | None => submitted l'
      end
  end.

(** The side submitted by the loop: what it passes to [submit_order] decides
    the endpoint through the test [trade_type == 'BUY']. *)
Definition side_of (trade_type : string) : string :=
  if String.eqb trade_type "BUY" then "BUY" else "SELL".

(** BUY and SELL in turn, [n] of them, from [first] on. *)
Fixpoint alternating (first : string) (n : nat) : list string :=
  match n with
  | O => []
  | S n' => first :: alternating (flip_trade (Some first)) n'
  end.

Definition alternates_from (first : string) (l : list string) : Prop :=
  l = alternating first (List.length l).

(** The side at position [n] of that sequence. *)
Fixpoint nth_side (first : string) (n : nat) : string :=
  match n with
  | O => first
  | S n' => nth_side (flip_trade (Some first)) n'
  end.

(** The durations of the sleeps in a log. *)
Fixpoint sleeps (l : list event) : list Z :=
  match l with
  | [] => []
  | EvSleep n :: l' => n :: sleeps l'
  | _ :: l' => sleeps l'
  end.

(** ** The operations of the client, as a type *)

Inductive operation : Type :=
| PublicMarkets
| PublicCurrencies
| PublicTicker (market : pyval)
| PublicMarketSummaries
| PublicMarketSummary (market : pyval)
| PublicMarketHistory (market : pyval)
| PublicOrderBook (market book_type : pyval)
| MarketBuyLimit (market quantity rate : pyval)
| MarketSellLimit (market quantity rate : pyval)
| MarketCancel (uuid : pyval)
| MarketOpenOrders (market : pyval)
| AccountBalances
| AccountBalance (currency : pyval)
| AccountDepositAddress (currency : pyval)
| AccountWithdraw (currency quantity address paymentid : pyval)
| AccountOrder (uuid : pyval)
| AccountOrderHistory (market : pyval)
| AccountDepositHistory (currency : pyval)
| AccountWithdrawlHistory (currency : pyval).

Definition call {RT : PyRuntime} (E : env) (self : BittrexApiRequest)
    (op : operation) : M pyval :=
  match op with
  | PublicMarkets => public_markets E self
  | PublicCurrencies => public_currencies E self
  | PublicTicker m => public_ticker E self m
  | PublicMarketSummaries => public_market_summaries E self
  | PublicMarketSummary m => public_market_summary E self m
  | PublicMarketHistory m => public_market_history E self m
  | PublicOrderBook m t => public_order_book E self m t
  | MarketBuyLimit m q r => market_buy_limit E self m q r
  | MarketSellLimit m q r => market_sell_limit E self m q r
  | MarketCancel u => market_cancel E self u
  | MarketOpenOrders m => market_open_orders E self m
  | AccountBalances => account_balances E self
  | AccountBalance c => account_balance E self c
  | AccountDepositAddress c => account_deposit_address E self c
  | AccountWithdraw c q a p => account_withdraw E self c q a p
  | AccountOrder u => account_order E self u
  | AccountOrderHistory m => account_order_history E self m
  | AccountDepositHistory c => account_deposit_history E self c
  | AccountWithdrawlHistory c => account_withdrawl_history E self c
  end.

(** Whether the operation passes [signed=True]. *)
Definition authenticated (op : operation) : bool :=
  match op with
  | PublicMarkets | PublicCurrencies | PublicTicker _
  | PublicMarketSummaries | PublicMarketSummary _ | PublicMarketHistory _
  | PublicOrderBook _ _ => false
  | _ => true
  end.

(** The method path of the operation. *)
Definition method_path (op : operation) : string :=
  match op with
  | PublicMarkets => "public/getmarkets"
  | PublicCurrencies => "public/getcurrencies"
  | PublicTicker _ => "public/getticker"
  | PublicMarketSummaries => "public/getmarketsummaries"
  | PublicMarketSummary _ => "public/getmarketsummary"
  | PublicMarketHistory _ => "public/getmarkethistory"
  | PublicOrderBook _ _ => "public/getorderbook"
  | MarketBuyLimit _ _ _ => "market/buylimit"
  | MarketSellLimit _ _ _ => "market/selllimit"
  | MarketCancel _ => "market/cancel"
  | MarketOpenOrders _ => "market/getopenorders"
  | AccountBalances => "account/getbalances"
  | AccountBalance _ => "account/getbalance"
  | AccountDepositAddress _ => "account/getdepositaddress"
  | AccountWithdraw _ _ _ _ => "account/getwithdraw"
  | AccountOrder _ => "account/getorder"
  | AccountOrderHistory _ => "account/getorderhistory"
  | AccountDepositHistory _ => "account/getdeposithistory"
  | AccountWithdrawlHistory _ => "account/getwithdrawlhistory"
  end.

(** The dict of named parameters the operation passes to [get]; [None] when
    it passes none and leaves [params] to its default. *)
Definition named_params (op : operation) : option (list (string * pyval)) :=
  match op with
  | PublicMarkets | PublicCurrencies | PublicMarketSummaries
  | AccountBalances => None
  | PublicTicker m | PublicMarketSummary m | PublicMarketHistory m
  | MarketOpenOrders m | AccountOrderHistory m => Some [("market", m)]
  | PublicOrderBook m t => Some [("market", m); ("type", t)]
  | MarketBuyLimit m q r | MarketSellLimit m q r =>
      Some [("market", m); ("quantity", q); ("rate", r)]
  | MarketCancel u | AccountOrder u => Some [("uuid", u)]
  | AccountBalance c | AccountDepositAddress c | AccountDepositHistory c
  | AccountWithdrawlHistory c => Some [("currency", c)]
  | AccountWithdraw c q a p =>
      Some [("currency", c); ("quantity", q); ("address", a);
            ("paymentid", p)]
  end.

(** ** MarketStatistics as the specification words it

    A trade record with its price and side; [compute] filters the history to
    the requested side, takes the prices, and returns their arithmetic mean
    and their maximum, each rounded to 8 places.  The specification's
    arithmetic is that of the numbers themselves: [spec_compute] works on
    the exact values of the prices. *)

Record TradeRecord : Type := {
  price : pyfloat;
  side : string
}.

Definition Qsum (l : list Q) : Q := fold_right Qplus 0%Q l.

Definition Qmean (l : list Q) : Q := (Qsum l / inject_Z (Z.of_nat (List.length l)))%Q.

Fixpoint Qmaximum (x : Q) (l : list Q) : Q :=
  match l with
  | [] => x
  | y :: l' => Qmaximum (if Qle_bool x y then y else x) l'
  end.

(** The prices of the trades of side [s], in the order of the history. *)
Definition side_prices (history : list TradeRecord) (s : string)
  : list pyfloat :=
  map price (filter (fun r => String.eqb (side r) s) history).

Definition spec_compute (history : list TradeRecord) (s : string)
  : option (Q * Q) :=
  match map value (side_prices history s) with
  | [] => None
  | p :: ps => Some (round8Q (Qmean (p :: ps)), round8Q (Qmaximum p ps))
  end.

(** What [round] returns to 8 places: the float nearest to a whole number
    of units of 10^-8, or a zero with a minus sign. *)
Definition decimal8 (f : pyfloat) : Prop :=
  (exists n : Z, f = F64 (n # 100000000)) \/ f = S754_zero true.

(** A decoded trade of the exchange that carries the record [r]; it may have
    any other fields. *)
Definition is_trade (v : pyval) (r : TradeRecord) : Prop :=
  exists d, v = PDict d /\
            dict_get "Price" d = Some (PFloat (price r)) /\
            dict_get "OrderType" d = Some (PStr (side r)).

(** ** A runtime for closed evaluation

    [float] reads plain decimal literals, a dict yields its items in the
    order they were set, and the digest is a tagged copy of its arguments.
    The theorems below hold for every runtime; this one serves to run the
    model on concrete inputs. *)

Definition digit_of (c : ascii) : option Z :=
  let n := nat_of_ascii c in
  if (48 <=? n)%nat && (n <=? 57)%nat then Some (Z.of_nat (n - 48)) else None.

Fixpoint parse_decimal (s : string) (seen_dot : bool) (num : Z)
    (den : positive) (digits : nat) : option Q :=
  match s with
  | EmptyString =>
      match digits with
      | O => None
      | S _ => Some (num # den)
      end
  | String c s' =>
      if Ascii.eqb c "." then
        if seen_dot then None else parse_decimal s' true num den digits
      else
        match digit_of c with
        | Some d =>
            parse_decimal s' seen_dot (10 * num + d)
                          (if seen_dot then (10 * den)%positive else den)
                          (S digits)
        | None => None
        end
  end.

Definition decimal_float (s : string) : option pyfloat :=
  match s with
  | String "-" s' =>
      option_map (fun q => SFopp (F64 q)) (parse_decimal s' false 0 1 O)
  | _ => option_map F64 (parse_decimal s false 0 1 O)
  end.

Definition tagged_repr (v : pyval) : string :=
  match v with
  | PFloat (S754_finite s m e) =>
      (if s then "-" else "") ++ str_int (Zpos m) ++ "*2^" ++ str_int e
  | PFloat (S754_zero s) => if s then "-0.0" else "0.0"
  | PFloat (S754_infinity s) => if s then "-inf" else "inf"
  | PFloat S754_nan => "nan"
  | _ => "<object>"
  end.

(** A running sum from 0.0, as a tree, and the proof that its leaves are
    the elements. *)
Fixpoint running_tree (t : sum_tree) (a : list pyfloat) : sum_tree :=
  match a with
  | [] => t
  | x :: a' => running_tree (ST_add t (ST_leaf x)) a'
  end.

Fixpoint running_tree_leaves (t : sum_tree) (a : list pyfloat)
  : st_leaves (running_tree t a) = (st_leaves t ++ a)%list :=
  match a with
  | [] => eq_sym (app_nil_r (st_leaves t))
  | x :: a' =>
      eq_trans (running_tree_leaves (ST_add t (ST_leaf x)) a')
               (eq_sym (app_assoc (st_leaves t) [x] a'))
  end.

Definition running_sum (a : list pyfloat) : pyfloat :=
  st_value (running_tree ST_zero a).

Definition running_sum_tree (a : list pyfloat)
  : exists t, Permutation (st_leaves t) a /\ running_sum a = st_value t :=
  ex_intro _ (running_tree ST_zero a)
           (conj (eq_ind_r (fun l => Permutation l a) (Permutation_refl a)
                           (running_tree_leaves ST_zero a))
                 eq_refl).

#[local] Instance TestRuntime : PyRuntime := {|
  hmac_sha512_hexdigest := fun secret message =>
    "hmac(" ++ secret ++ "," ++ message ++ ")";
  py_repr := tagged_repr;
  float_of_string := decimal_float;
  iteritems_order := fun d => d;
  iteritems_perm := fun d => Permutation_refl d;
  numpy_sum := running_sum;
  numpy_sum_tree := running_sum_tree;
  numpy_dot := fun a v =>
    fold_left fadd (map (fun p => fmul (fst p) (snd p)) (combine a v))
              (S754_zero false)
|}.

(** The exchange answers the four requests of a submission from state [s]:
    a history whose trades of side [t] give the statistics [avg] and [mx], a
    ticker from which the units can be computed, the identifier of the new
    order, and its record [o]. *)
Definition goes_through {RT : PyRuntime} (E : env) (self : BittrexAutoTrader)
    (t : string) (s : state) (avg mx : pyfloat) (ticker units uuid o : pyval)
  : Prop :=
  exists hist items prices pmax res,
    answers E (calls s) hist /\
    _list_of_dict_filter_by hist "OrderType" t = Val items /\
    _numpy_loadtxt items ["Price"] = Val prices /\
    ndarray_max prices = Val pmax /\
    avg = round8 (ndarray_mean prices) /\
    mx = round8 pmax /\
    answers E (S (calls s)) ticker /\
    calc_units self ticker = Val units /\
    answers E (S (S (calls s))) res /\
    py_getitem res "uuid" = Val uuid /\
    answers E (S (S (S (calls s)))) o.

(** ** What one step may do, whatever the exchange answers *)

(** The message on standard error for the refusal of the n-th request. *)
Definition refusal (E : env) (n : nat) : event :=
  EvStderr ("Bittex response: " ++ message (exchange E n)).

(** The outcomes of [submit_order self t] from [s]: it completes with one
    more entry in the ledger and one order placed; or the process exits with
    status 1 on a refused request, the refusal being the last thing it
    writes; or an exception ends it.  In the last two cases the ledger and
    its cursor are as in [s], and at most one order was placed. *)
Definition submit_post (E : env) (t : string) (s : state)
    (r : outcome unit) : Prop :=
  match r with
  | Ok _ s' =>
      exists o evs,
        orders s' = (orders s ++ [o])%list /\ active s' = active s + 1 /\
        log s' = (log s ++ evs)%list /\ submitted evs = [side_of t]
  | Exit c s' =>
      c = 1 /\ orders s' = orders s /\ active s' = active s /\
      exists evs n,
        log s' = (log s ++ evs ++ [refusal E n])%list /\
        success (exchange E n) = false /\
        (submitted evs = [] \/ submitted evs = [side_of t])
  | Raise _ s' =>
      orders s' = orders s /\ active s' = active s /\
      exists evs,
        log s' = (log s ++ evs)%list /\
        (submitted evs = [] \/ submitted evs = [side_of t])
  end.

(** The loop polls from [s]: the ledger entry at [active - 1] has the
    identifier [u], the order fetched by it is open or not as [is_open]
    says, and [evs] are the events of the poll: the request and, for an open
    order, the sleep of 30 seconds. *)
Definition polled {RT : PyRuntime} (E : env) (self : BittrexAutoTrader)
    (s : state) (is_open : bool) (evs : list event) : Prop :=
  exists o u order v,
    py_list_index (orders s) (active s - 1) = Val o /\
    py_getitem o "OrderUuid" = Val u /\
    answers E (calls s) order /\
    py_getitem order "IsOpen" = Val v /\
    py_truthy v = is_open /\
    evs = signed_request (apiReq self) "account/getorder" [("uuid", u)]
                         (clock E (calls s))
          :: (if is_open then [EvSleep 30] else []).

(** The outcomes of the check for an open order. *)
Definition check_post {RT : PyRuntime} (E : env) (self : BittrexAutoTrader)
    (s : state) (r : outcome bool) : Prop :=
  match r with
  | Ok waiting s' =>
      orders s' = orders s /\ active s' = active s /\
      exists evs,
        log s' = (log s ++ evs)%list /\
        ((orders s = [] /\ waiting = false /\ evs = []) \/
         (orders s <> [] /\ polled E self s waiting evs))
  | Exit c s' =>
      c = 1 /\ orders s' = orders s /\ active s' = active s /\
      exists evs n,
        log s' = (log s ++ evs ++ [refusal E n])%list /\
        success (exchange E n) = false /\ submitted evs = []
  | Raise _ s' =>
      orders s' = orders s /\ active s' = active s /\
      exists evs, log s' = (log s ++ evs)%list /\ submitted evs = []
  end.

(** The events [evs] of a pass that ends the process place no order, or
    they place one, of the flipped side, and then the ledger was empty or the
    poll of this pass found the order closed. *)
Definition placed_after {RT : PyRuntime} (E : env) (self : BittrexAutoTrader)
    (lt : option string) (s : state) (evs : list event) : Prop :=
  submitted evs = [] \/
  (submitted evs = [flip_trade lt] /\
   (orders s = [] \/ exists evs1, polled E self s false evs1)).

(** The outcomes of one pass of the loop entered with [last_trade = lt]:
    it waits on an open order and leaves everything else as it was; or it
    finds no open order and completes one submission of the flipped side; or
    the process ends, the ledger untouched by this pass. *)
Definition iter_post {RT : PyRuntime} (E : env) (self : BittrexAutoTrader)
    (lt : option string) (s : state) (r : outcome (option string)) : Prop :=
  match r with
  | Ok lt' s' =>
      (lt' = lt /\ orders s' = orders s /\ active s' = active s /\
       orders s <> [] /\
       exists evs, log s' = (log s ++ evs)%list /\ polled E self s true evs)
      \/
      (lt' = Some (flip_trade lt) /\
       exists o evs1 evs2,
         orders s' = (orders s ++ [o])%list /\ active s' = active s + 1 /\
         log s' = (log s ++ evs1 ++ evs2)%list /\
         submitted evs2 = [flip_trade lt] /\
         ((orders s = [] /\ evs1 = []) \/
          (orders s <> [] /\ polled E self s false evs1)))
  | Exit c s' =>
      c = 1 /\ orders s' = orders s /\ active s' = active s /\
      exists evs n,
        log s' = (log s ++ evs ++ [refusal E n])%list /\
        success (exchange E n) = false /\
        placed_after E self lt s evs
  | Raise _ s' =>
      orders s' = orders s /\ active s' = active s /\
      exists evs,
        log s' = (log s ++ evs)%list /\ placed_after E self lt s evs
  end.

(** The n-th request is answered with an order that is open. *)
Definition open_at (E : env) (n : nat) : Prop :=
  exists order v,
    answers E n order /\ py_getitem order "IsOpen" = Val v /\
    py_truthy v = true.

(** The events of [n] polls in a row that find the order [u] open, the
    first one being request number [c]. *)
Fixpoint open_polls {RT : PyRuntime} (E : env) (self : BittrexAutoTrader)
    (u : pyval) (c n : nat) : list event :=
  match n with
  | O => []
  | S n' =>
      signed_request (apiReq self) "account/getorder" [("uuid", u)]
                     (clock E c)
      :: EvSleep 30 :: open_polls E self u (S c) n'
  end.

(** ** Concrete data *)

Definition replied (v : pyval) : envelope :=
  {| success := true; message := ""; result := v |}.

Definition refused (msg : string) : envelope :=
  {| success := false; message := msg; result := PNone |}.

Definition demo_trade (p : Q) (t : string) : pyval :=
  PDict [("Price", PFloat (F64 p)); ("OrderType", PStr t)].

(** The history [{price:1.0,BUY}, {price:3.0,BUY}, {price:2.0,SELL}]. *)
Definition demo_history : pyval :=
  PList [demo_trade 1 "BUY"; demo_trade 3 "BUY"; demo_trade 2 "SELL"].

Definition demo_records : list TradeRecord :=
  [{| price := F64 1; side := "BUY" |}; {| price := F64 3; side := "BUY" |};
   {| price := F64 2; side := "SELL" |}].

(** The ticker [{bid: 0.05, ask: 0.051}], last trade at 0.05. *)
Definition demo_ticker : pyval :=
  PDict [("Bid", PFloat (F64 (5 # 100)));
         ("Ask", PFloat (F64 (51 # 1000)));
         ("Last", PFloat (F64 (5 # 100)))].

(** A ticker whose last price, 0.0001, puts 0.0005 / last at 5 units. *)
Definition cheap_ticker : pyval :=
  PDict [("Bid", PFloat (F64 (1 # 10000)));
         ("Ask", PFloat (F64 (1 # 10000)));
         ("Last", PFloat (F64 (1 # 10000)))].

Definition demo_order (uuid : string) (is_open : bool) : pyval :=
  PDict [("OrderUuid", PStr uuid); ("IsOpen", PBool is_open)].

Definition demo_clock (n : nat) : Q :=
  (inject_Z (1500000000 + Z.of_nat n) + (1 # 2))%Q.

(** A session: a first order goes through, is found open once and then
    closed, a second order goes through, and the next request is refused. *)
Definition demo_env : env :=
  {| exchange := fun n =>
       match n with
       | 0 => replied demo_history
       | 1 => replied demo_ticker
       | 2 => replied (PDict [("uuid", PStr "u1")])
       | 3 => replied (demo_order "u1" true)
       | 4 => replied (demo_order "u1" true)
       | 5 => replied (demo_order "u1" false)
       | 6 => replied demo_history
       | 7 => replied demo_ticker
       | 8 => replied (PDict [("uuid", PStr "u2")])
       | 9 => replied (demo_order "u2" true)
       | _ => refused "INSUFFICIENT_FUNDS"
       end%nat;
     clock := demo_clock |}.

(** The same market at a last price of 0.0001. *)
Definition cheap_env : env :=
  {| exchange := fun n =>
       match n with
       | 0 => replied demo_history
       | 1 => replied cheap_ticker
       | 2 => replied (PDict [("uuid", PStr "u1")])
       | _ => replied (demo_order "u1" true)
       end%nat;
     clock := demo_clock |}.

(** A market whose recent trades are all buys. *)
Definition buys_only_env : env :=
  {| exchange := fun n =>
       match n with
       | 0 => replied (PList [demo_trade 1 "BUY"; demo_trade 3 "BUY"])
       | _ => replied demo_ticker
       end%nat;
     clock := demo_clock |}.

(** An exchange that refuses the order itself. *)
Definition refusing_env : env :=
  {| exchange := fun n =>
       match n with
       | 0 => replied demo_history
       | 1 => replied demo_ticker
       | _ => refused "INSUFFICIENT_FUNDS"
       end%nat;
     clock := demo_clock |}.

(** The configuration as [main] hands it over: every option a string. *)
Definition demo_settings : Settings :=
  main_settings "KEY" "SECRET" "BTC-LTC" "1" "0.02/0.01".

(** The same with the share size as a float, as the docstring of
    [__init__] describes it. *)
Definition float_settings : Settings :=
  {| cfg_apikey := "KEY"; cfg_secret := "SECRET"; cfg_market := "BTC-LTC";
     cfg_shares := PFloat (F64 1); cfg_spread := "0.02/0.01" |}.

(** The trader of the session above once its first order is in the
    ledger. *)
Definition demo_after_first : state :=
  {| orders := [demo_order "u1" true]; active := 1; calls := 4; log := [] |}.

(** ** What the loop does, event by event *)

(** The events the trader can produce: the two public requests about its
    market, the request that places an order, the request that fetches one,
    the message of a refusal, the sleep of 30 seconds and the table. *)
Inductive loop_event {RT : PyRuntime} (E : env) (self : BittrexAutoTrader)
  : event -> Prop :=
| LE_history :
    loop_event E self
      (public_request "public/getmarkethistory"
                      [("market", PStr (market self))])
| LE_ticker :
    loop_event E self
      (public_request "public/getticker" [("market", PStr (market self))])
| LE_order t units price now :
    loop_event E self
      (signed_request (apiReq self) (order_method t)
                      [("market", PStr (market self)); ("quantity", units);
                       ("rate", PFloat price)] now)
| LE_poll uuid now :
    loop_event E self
      (signed_request (apiReq self) "account/getorder" [("uuid", uuid)] now)
| LE_refusal n :
    success (exchange E n) = false -> loop_event E self (refusal E n)
| LE_sleep : loop_event E self (EvSleep 30)
| LE_print t avg mx ref price :
    loop_event E self
      (EvPrint [t; str_replace "BTC-" "" (market self)]
               (table_rows t avg mx ref price)).

(** From [s] on, the computation adds to the log only events that satisfy
    [P]. *)
Definition emits {A} (P : event -> Prop) (s : state) (r : outcome A) : Prop :=
  exists evs, log (final r) = (log s ++ evs)%list /\ Forall P evs.

(** The URLs of the requests in a log. *)
Fixpoint request_urls (l : list event) : list string :=
  match l with
  | [] => []
  | EvRequest url _ :: l' => url :: request_urls l'
  | _ :: l' => request_urls l'
  end.

(** The five endpoints the loop uses. *)
Definition loop_endpoints : list string :=
  ["public/getmarkethistory"; "public/getticker"; "market/buylimit";
   "market/selllimit"; "account/getorder"].

(** The URL addresses one of the endpoints of [l]. *)
Definition addresses (l : list string) (url : string) : bool :=
  existsb (fun m => starts_with (BASE_URL ++ m ++ "?") url) l.

(** A request as the loop signs it or leaves it unsigned: no header at all,
    or the one header [apisign] with the digest of the secret over the URL
    of that same request. *)
Definition signed_or_public {RT : PyRuntime} (secret : string) (e : event)
  : Prop :=
  match e with
  | EvRequest url headers =>
      (headers = [] /\ starts_with (BASE_URL ++ "public/") url = true) \/
      (headers = [("apisign", hmac_sha512_hexdigest secret url)] /\
       starts_with (BASE_URL ++ "public/") url = false)
  | _ => True
  end.

(** The payload [o] is what some request was answered with, successfully. *)
Definition answered (E : env) (o : pyval) : Prop :=
  exists k, answers E k o.

(** ** The list helpers, in closed form *)

Definition is_dictb (v : pyval) : bool :=
  match v with
  | PDict _ => true
  | _ => false
  end.

(** The item is a dict whose [key] holds the string [value]. *)
Definition has_value (key value : string) (item : pyval) : bool :=
  match item with
  | PDict d =>
      match dict_get key d with
      | Some v => py_eq_str v value
      | None => false
      end
  | _ => false
  end.

(** The cell of a dict item under the column [k]: its value, or the empty
    string when the item has no such key. *)
Definition csv_cell (item : pyval) (k : string) : pyval :=
  match item with
  | PDict d =>
      match dict_get k d with
      | Some v => v
      | None => PStr ""
      end
  | _ => PStr ""
  end.

(** A history with one trade whose price is null. *)
Definition null_price_env : env :=
  {| exchange := fun n =>
       match n with
       | 0 => replied (PList [demo_trade 1 "SELL";
                              PDict [("Price", PNone);
                                     ("OrderType", PStr "SELL")]])
       | _ => replied demo_ticker
       end%nat;
     clock := demo_clock |}.

(** The string has no slash. *)
Fixpoint no_slash (s : string) : bool :=
  match s with
  | EmptyString => true
  | String c s' => negb (Ascii.eqb c "/") && no_slash s'
  end.

(** A market that has not traded yet: the ticker's last price is null. *)
Definition null_last_env : env :=
  {| exchange := fun n =>
       match n with
       | 0 => replied demo_history
       | _ => replied (PDict [("Bid", PFloat (F64 (5 # 100)));
                              ("Ask", PFloat (F64 (51 # 1000)));
                              ("Last", PNone)])
       end%nat;
     clock := demo_clock |}.

(** ** The moving average, lines 254-268 *)

(** [numpy.ones((n,)) / n] for an int [n]: [n] entries, each the float
    1.0 / n.  A negative dimension raises ValueError; at [n = 0] the array
    has no entry and nothing is divided. *)
Definition numpy_ones_over (n : Z) : exc (list pyfloat) :=
  if (n <? 0)%Z then Err "ValueError"
  else Val (repeat (fquot (F64 1) (F64 (inject_Z n))) (Z.to_nat n)).

Section MovingAverage.

Context {RT : PyRuntime}.

(** [numpy.correlate(a, v, 'valid')] for [len(a) >= len(v) >= 1]: entry [k]
    is the inner product of [v] with the window of [a] that starts at
    [k]. *)
Definition correlate_valid (a v : list pyfloat) : list pyfloat :=
  map (fun k => numpy_dot (firstn (List.length v) (skipn k a)) v)
      (seq 0 (List.length a - List.length v + 1)).

(** [numpy.convolve(a, v, mode='valid')]: the longer array is taken as the
    data, an empty array on either side raises ValueError, and the result is
    the correlation with the reversed kernel. *)
Definition numpy_convolve_valid (a v : list pyfloat) : exc (list pyfloat) :=
  let (a, v) :=
    if (List.length a <? List.length v)%nat then (v, a) else (a, v) in
  match a, v with
  | [], _ => Err "ValueError"
  | _, [] => Err "ValueError"
  | _ :: _, _ :: _ => Val (correlate_valid a (rev v))
  end.

Definition _numpy_calc_sma (a : list pyfloat) (n : Z) : exc (list pyfloat) :=
  exc_bind (numpy_ones_over n) (fun v => numpy_convolve_valid a v).

End MovingAverage.

(** A ticker whose bid, 0.0101055, less 1 percent falls next to the middle
    between two multiples of 10^-8. *)
Definition tie_ticker : pyval :=
  PDict [("Bid", PFloat (F64 (101055 # 10000000)));
         ("Ask", PFloat (F64 (101055 # 10000000)));
         ("Last", PFloat (F64 (101055 # 10000000)))].

(** A market whose last three trades, all buys, went at 0.000000205. *)
Definition level_trade : pyval := demo_trade (205 # 1000000000) "BUY".

Definition level_records : list TradeRecord :=
  [{| price := F64 (205 # 1000000000); side := "BUY" |};
   {| price := F64 (205 # 1000000000); side := "BUY" |};
   {| price := F64 (205 # 1000000000); side := "BUY" |}].

Definition level_history : pyval :=
  PList [level_trade; level_trade; level_trade].

Definition level_env : env :=
  {| exchange := fun _ => replied level_history; clock := demo_clock |}.

(** ** The order of the floats *)

(** The order of the floats that are not NaN, by a key: the infinities at
    the ends, the zeros together in the middle, and a finite float by its
    sign, exponent and mantissa. *)
Definition float_key (x : pyfloat) : Z * Z * Z :=
  match x with
  | S754_nan => (0, 0, 0)
  | S754_zero _ => (0, 0, 0)
  | S754_infinity s => (if s then -2 else 2, 0, 0)
  | S754_finite s m e =>
      if s then (-1, - e, - Zpos m) else (1, e, Zpos m)
  end.

Definition key_le (a b : Z * Z * Z) : Prop :=
  let '(a1, a2, a3) := a in
  let '(b1, b2, b3) := b in
  a1 < b1 \/ (a1 = b1 /\ (a2 < b2 \/ (a2 = b2 /\ a3 <= b3))).

(** * Properties *)

(** ** The monad *)

Lemma bind_ok {A B} (m : M A) (f : A -> M B) s a s' :
  m s = Ok a s' -> bind m f s = f a s'.
Proof. intros H. unfold bind. now rewrite H. Qed.

Lemma bind_exit {A B} (m : M A) (f : A -> M B) s c s' :
  m s = Exit c s' -> bind m f s = Exit c s'.
Proof. intros H. unfold bind. now rewrite H. Qed.

Lemma bind_raise {A B} (m : M A) (f : A -> M B) s e s' :
  m s = Raise e s' -> bind m f s = Raise e s'.
Proof. intros H. unfold bind. now rewrite H. Qed.

Lemma lift_val {A} (m : exc A) a s : m = Val a -> lift m s = Ok a s.
Proof. intros ->. reflexivity. Qed.

Lemma lift_err {A} (m : exc A) e s : m = Err e -> lift m s = Raise e s.
Proof. intros ->. reflexivity. Qed.

(** ** [get] *)

Section GetFacts.

Context {RT : PyRuntime}.
Variable E : env.

(** With a dict for [params], [get] sends exactly one request, and the
    envelope decides between the payload and the exit. *)
Lemma get_dict self method d signed s :
  get E self method (DictObj d) None signed s =
  let req := request_of self method d signed (clock E (calls s)) in
  let res := exchange E (calls s) in
  let s1 := exchanged req s in
  if success res then Ok (result res) s1
  else Exit 1 (log_add (EvStderr ("Bittex response: " ++ message res)) s1).
Proof.
  unfold get, request_of, signed_request, public_request, signed_url,
    signed_items.
  destruct signed; cbn [bind ret time_time requests_get sent negb];
    destruct (success (exchange E (calls s))); reflexivity.
Qed.

(** Without one, the default [dict] is a type: signing fails on the item
    assignment, and an unsigned call on [iteritems]; nothing is sent. *)
Lemma get_default self method signed s :
  get E self method DictType None signed s = Raise "TypeError" s.
Proof. unfold get. destruct signed; reflexivity. Qed.

Lemma get_answers self method d signed s v :
  answers E (calls s) v ->
  get E self method (DictObj d) None signed s =
  Ok v (exchanged (request_of self method d signed (clock E (calls s))) s).
Proof.
  intros [Hs Hv]. rewrite get_dict. cbn zeta. now rewrite Hs, Hv.
Qed.

Lemma get_refused self method d signed s :
  success (exchange E (calls s)) = false ->
  get E self method (DictObj d) None signed s =
  Exit 1 (log_add (EvStderr ("Bittex response: "
                             ++ message (exchange E (calls s))))
                  (exchanged (request_of self method d signed
                                         (clock E (calls s))) s)).
Proof. intros Hs. rewrite get_dict. cbn zeta. now rewrite Hs. Qed.

Lemma call_get self op :
  call E self op =
  get E self (method_path op)
      (match named_params op with
       | Some d => DictObj d
       | None => DictType
       end)
      None (authenticated op).
Proof. destruct op; reflexivity. Qed.

End GetFacts.

Lemma string_app_assoc (a b c : string) : (a ++ b) ++ c = a ++ b ++ c.
Proof. induction a as [|x a IH]; simpl; [reflexivity | now rewrite IH]. Qed.

Lemma dict_set_in {V} (k : string) (v : V) d : In (k, v) (dict_set k v d).
Proof.
  induction d as [|[k' v'] d IH]; simpl.
  - now left.
  - destruct (String.eqb k k'); simpl; auto.
Qed.

Lemma dict_set_other {V} (k k' : string) (v v' : V) d :
  In (k', v') d -> k' <> k -> In (k', v') (dict_set k v d).
Proof.
  intros Hin Hne. induction d as [|[k0 v0] d IH]; simpl in *.
  - contradiction.
  - destruct (String.eqb k k0) eqn:Hk.
    + apply String.eqb_eq in Hk. subst k0.
      destruct Hin as [Heq | Hin]; [congruence | now right].
    + destruct Hin as [Heq | Hin]; [now left | right; auto].
Qed.

Section RequestConstruction.

Context {RT : PyRuntime}.
Variable E : env.

(** What a signed request carries: the key, the nonce and the caller's own
    parameters, in some order. *)
Lemma signed_items_spec self d now :
  In ("apikey", PStr (apikey self)) (signed_items self d now) /\
  In ("nonce", PStr (str_int (py_int now))) (signed_items self d now) /\
  (forall k v, In (k, v) d -> k <> "apikey" -> k <> "nonce" ->
               In (k, v) (signed_items self d now)).
Proof.
  unfold signed_items, iteritems.
  repeat split; intros;
    eapply Permutation_in;
    try (apply Permutation_sym; apply iteritems_perm).
  - apply dict_set_other; [apply dict_set_in | discriminate].
  - apply dict_set_in.
  - apply dict_set_other; [apply dict_set_other|]; assumption.
Qed.

(** X15.  Every authenticated operation that passes named parameters sends,
    as its first event, the request built from them: the URL is the base
    endpoint, the method path, a question mark and the query string of the
    parameters with the key and the nonce, and the [apisign] header is the
    digest of the secret over that very URL. *)
Lemma signed_call_request self op d s :
  authenticated op = true ->
  named_params op = Some d ->
  let now := clock E (calls s) in
  let items := signed_items self d now in
  let url := BASE_URL ++ method_path op ++ "?" ++ join "&" (query_str items) in
  In ("apikey", PStr (apikey self)) items /\
  In ("nonce", PStr (str_int (py_int now))) items /\
  exists rest,
    log (final (call E self op s)) =
    (log s ++ EvRequest url
                        [("apisign", hmac_sha512_hexdigest (secret self) url)]
           :: rest)%list.
Proof.
  intros Hauth Hd now items url.
  destruct (signed_items_spec self d now) as (Hk & Hn & _).
  repeat split; try assumption.
  rewrite call_get, Hd, Hauth, get_dict. cbn zeta.
  unfold request_of, signed_request, signed_url, make_url, _sign.
  fold now. fold items. rewrite string_app_assoc. fold url.
  destruct (success (exchange E (calls s))); simpl.
  - exists []. reflexivity.
  - eexists. rewrite <- app_assoc. reflexivity.
Qed.

(** C2, at the operation that breaks it: [account_balances] is an
    authenticated operation, yet it builds no request.  It passes no
    parameters, [params] is then the type [dict], and the injection of
    [apikey] raises TypeError before any URL is formed or signed; the state,
    with its log of requests, is unchanged. *)
Theorem account_balances_builds_no_request :
  forall (self : BittrexApiRequest) (s : state),
    authenticated AccountBalances = true /\
    account_balances E self s = Raise "TypeError" s /\
    log (final (account_balances E self s)) = log s.
Proof.
  intros self s. unfold account_balances.
  rewrite get_default. repeat split.
Qed.

(** C3, at the four operations without named parameters: each raises
    TypeError during parameter assembly and leaves the state as it was, so no
    URL is built and no HTTP GET is issued. *)
Theorem no_parameter_operations_raise :
  forall (self : BittrexApiRequest) (s : state),
    public_markets E self s = Raise "TypeError" s /\
    public_currencies E self s = Raise "TypeError" s /\
    public_market_summaries E self s = Raise "TypeError" s /\
    account_balances E self s = Raise "TypeError" s.
Proof.
  intros self s.
  unfold public_markets, public_currencies, public_market_summaries,
    account_balances.
  rewrite !get_default. repeat split.
Qed.

(** These four are all the operations that pass no dict. *)
Lemma call_without_parameters self op s :
  named_params op = None -> call E self op s = Raise "TypeError" s.
Proof. intros Hop. rewrite call_get, Hop. apply get_default. Qed.

End RequestConstruction.

(** ** Binary64: the order *)

Lemma fle_key (a b : pyfloat) :
  fle a b = true <->
  is_nan a = false /\ is_nan b = false /\ key_le (float_key a) (float_key b).
Proof.
  unfold fle, SFleb, SFcompare, key_le, float_key, is_nan.
  destruct a as [sa|sa| |sa ma ea], b as [sb|sb| |sb mb eb];
    try destruct sa; try destruct sb;
    try (split; [intros; repeat split; try reflexivity; lia
                | intros (? & ? & ?); (reflexivity || discriminate || lia)]).
  all: change (Pos.compare_cont Eq ma mb) with (Pos.compare ma mb);
    destruct (Z.compare_spec ea eb); destruct (Pos.compare_spec ma mb);
    cbn [CompOpp];
    (split; [intros; repeat split; try reflexivity; try discriminate; lia
            | intros (? & ? & ?); (reflexivity || discriminate || lia)]).
Qed.

Lemma key_le_refl (a : Z * Z * Z) : key_le a a.
Proof. destruct a as [[a1 a2] a3]. unfold key_le. lia. Qed.

Lemma key_le_trans (a b c : Z * Z * Z) :
  key_le a b -> key_le b c -> key_le a c.
Proof.
  destruct a as [[a1 a2] a3], b as [[b1 b2] b3], c as [[c1 c2] c3].
  unfold key_le. lia.
Qed.

Lemma key_le_total (a b : Z * Z * Z) : key_le a b \/ key_le b a.
Proof.
  destruct a as [[a1 a2] a3], b as [[b1 b2] b3]. unfold key_le. lia.
Qed.

Lemma fle_refl (a : pyfloat) : is_nan a = false -> fle a a = true.
Proof.
  intros H. apply fle_key. repeat split; try assumption. apply key_le_refl.
Qed.

Lemma fle_trans (a b c : pyfloat) :
  fle a b = true -> fle b c = true -> fle a c = true.
Proof.
  intros H1 H2. apply fle_key in H1 as (Ha & Hb & H1).
  apply fle_key in H2 as (_ & Hc & H2). apply fle_key.
  repeat split; try assumption. now apply key_le_trans with (float_key b).
Qed.

Lemma fle_total (a b : pyfloat) :
  is_nan a = false -> is_nan b = false -> fle a b = false -> fle b a = true.
Proof.
  intros Ha Hb H. apply fle_key. repeat split; try assumption.
  destruct (key_le_total (float_key a) (float_key b)) as [Hab | Hba];
    [|exact Hba].
  assert (fle a b = true) by (apply fle_key; auto). congruence.
Qed.

Lemma flt_fle (a b : pyfloat) : flt a b = true -> fle a b = true.
Proof.
  unfold flt, fle, SFltb, SFleb.
  destruct (SFcompare a b) as [[| |]|]; congruence.
Qed.

Lemma flt_not_nan (a b : pyfloat) :
  flt a b = true -> is_nan a = false /\ is_nan b = false.
Proof.
  intros H. apply flt_fle, fle_key in H. tauto.
Qed.

Lemma flt_false_fle (a b : pyfloat) :
  is_nan a = false -> is_nan b = false -> flt a b = false -> fle b a = true.
Proof.
  intros Ha Hb H. destruct (fle b a) eqn:Hba; [reflexivity|].
  pose proof (fle_total b a Hb Ha Hba) as Hab.
  (* a <= b and not b <= a: a < b *)
  exfalso. revert H Hab Hba. unfold flt, fle, SFltb, SFleb.
  assert (Hs : SFcompare b a = option_map CompOpp (SFcompare a b)).
  { unfold SFcompare.
    destruct a as [sa|sa| |sa ma ea], b as [sb|sb| |sb mb eb];
      try destruct sa; try destruct sb; try reflexivity.
    all: cbn [option_map]; f_equal;
      rewrite (Z.compare_antisym ea eb);
      change (Pos.compare_cont Eq mb ma) with (Pos.compare mb ma);
      change (Pos.compare_cont Eq ma mb) with (Pos.compare ma mb);
      rewrite (Pos.compare_antisym ma mb);
      destruct (Z.compare ea eb), (Pos.compare ma mb); reflexivity. }
  rewrite Hs. destruct (SFcompare a b) as [[| |]|]; cbn; congruence.
Qed.

(** The running maximum is one of the elements, and none that is a number
    exceeds it. *)
Lemma fmax_cases (a b : pyfloat) : fmax a b = a \/ fmax a b = b.
Proof. unfold fmax. destruct (fle b a || is_nan a); auto. Qed.

Lemma fold_fmax_in (xs : list pyfloat) (x : pyfloat) :
  In (fold_left fmax xs x) (x :: xs).
Proof.
  revert x. induction xs as [|y xs IH]; intros x; [now left|].
  cbn [fold_left]. destruct (IH (fmax x y)) as [H | H].
  - rewrite <- H. destruct (fmax_cases x y) as [-> | ->];
      [now left | right; now left].
  - right. now right.
Qed.

Lemma fold_fmax_ge (xs : list pyfloat) (x : pyfloat) :
  forallb (fun f => negb (is_nan f)) (x :: xs) = true ->
  forall y, In y (x :: xs) -> fle y (fold_left fmax xs x) = true.
Proof.
  revert x. induction xs as [|z xs IH]; intros x Hn y Hy.
  - destruct Hy as [Hy | []]. subst y. cbn [forallb] in Hn.
    rewrite andb_true_r in Hn. apply negb_true_iff in Hn.
    cbn [fold_left]. now apply fle_refl.
  - cbn [forallb] in Hn.
    apply andb_true_iff in Hn as [Hx Hn].
    apply andb_true_iff in Hn as [Hz Hn].
    apply negb_true_iff in Hx, Hz.
    cbn [fold_left].
    assert (Hm : is_nan (fmax x z) = false)
      by (destruct (fmax_cases x z) as [-> | ->]; assumption).
    assert (Hxm : fle x (fmax x z) = true /\ fle z (fmax x z) = true).
    { unfold fmax. rewrite Hx, orb_false_r.
      destruct (fle z x) eqn:Hzx.
      - split; [now apply fle_refl | exact Hzx].
      - split; [now apply fle_total | now apply fle_refl]. }
    assert (Hn' : forallb (fun f => negb (is_nan f)) (fmax x z :: xs) = true).
    { cbn [forallb]. now rewrite Hm, Hn. }
    destruct Hy as [Hy | [Hy | Hy]]; try subst y.
    + apply fle_trans with (fmax x z); [apply Hxm|].
      apply IH; [exact Hn' | now left].
    + apply fle_trans with (fmax x z); [apply Hxm|].
      apply IH; [exact Hn' | now left].
    + apply IH; [exact Hn' | now right].
Qed.

(** ** Sums *)

Lemma fadd_zero_l (x : pyfloat) :
  x <> S754_zero true -> fadd (S754_zero false) x = x.
Proof. destruct x as [[|]| | |]; intros H; try reflexivity. now elim H. Qed.

Lemma fadd_zero_r (x : pyfloat) :
  x <> S754_zero true -> fadd x (S754_zero false) = x.
Proof.
  destruct x as [[|]|[|]| |]; intros H; try reflexivity. now elim H.
Qed.

Lemma tree_sum_nil (t : sum_tree) :
  st_leaves t = [] -> st_value t = S754_zero false.
Proof.
  induction t as [|x|l IHl r IHr]; cbn [st_leaves st_value]; intros H.
  - reflexivity.
  - discriminate.
  - apply app_eq_nil in H as [Hl Hr]. now rewrite IHl, IHr.
Qed.

Lemma tree_sum_one (t : sum_tree) (x : pyfloat) :
  x <> S754_zero true -> st_leaves t = [x] -> st_value t = x.
Proof.
  intros Hx. induction t as [|y|l IHl r IHr]; cbn [st_leaves st_value];
    intros H.
  - discriminate.
  - now injection H.
  - destruct (st_leaves l) as [|a [|b l']] eqn:Hl; cbn [app] in H.
    + rewrite (tree_sum_nil l Hl), (IHr H). now apply fadd_zero_l.
    + injection H as -> Hr. rewrite (IHl eq_refl).
      rewrite (tree_sum_nil r Hr). now apply fadd_zero_r.
    + discriminate.
Qed.

(** Whatever the order and the bracketing, two numbers have one sum. *)
Lemma tree_sum_two (t : sum_tree) (x y : pyfloat) :
  x <> S754_zero true -> y <> S754_zero true ->
  fadd x y <> S754_zero true -> fadd y x = fadd x y ->
  Permutation (st_leaves t) [x; y] -> st_value t = fadd x y.
Proof.
  intros Hx Hy Hxy Hc.
  induction t as [|z|l IHl r IHr]; cbn [st_leaves st_value]; intros H.
  - apply Permutation_length in H. discriminate.
  - apply Permutation_length in H. discriminate.
  - destruct (st_leaves l) as [|a [|b [|c l']]] eqn:Hl; cbn [app] in H.
    + rewrite (tree_sum_nil l Hl), (IHr H). now apply fadd_zero_l.
    + destruct (st_leaves r) as [|b [|c r']] eqn:Hr;
        try (apply Permutation_length in H; discriminate).
      apply Permutation_length_2 in H as [[-> ->] | [-> ->]].
      * now rewrite (tree_sum_one l x Hx Hl), (tree_sum_one r y Hy Hr).
      * now rewrite (tree_sum_one l y Hy Hl), (tree_sum_one r x Hx Hr).
    + destruct (st_leaves r) as [|c r'] eqn:Hr;
        [|apply Permutation_length in H; discriminate].
      rewrite app_nil_r in H || idtac.
      rewrite (IHl H), (tree_sum_nil r Hr). now apply fadd_zero_r.
    + apply Permutation_length in H. cbn in H.
      rewrite length_app in H. cbn in H. lia.
Qed.

(** And so have three equal numbers. *)
Lemma tree_sum_three (t : sum_tree) (x : pyfloat) :
  x <> S754_zero true -> fadd x x <> S754_zero true ->
  fadd (fadd x x) x <> S754_zero true ->
  fadd x (fadd x x) = fadd (fadd x x) x ->
  st_leaves t = [x; x; x] -> st_value t = fadd (fadd x x) x.
Proof.
  intros Hx Hxx Hxxx Hc.
  induction t as [|z|l IHl r IHr]; cbn [st_leaves st_value]; intros H;
    try discriminate.
  destruct (st_leaves l) as [|a [|b [|c l']]] eqn:Hl; cbn [app] in H.
  - rewrite (tree_sum_nil l Hl), (IHr H). now apply fadd_zero_l.
  - injection H as -> Hr.
    rewrite (tree_sum_one l x Hx Hl).
    rewrite (tree_sum_two r x x Hx Hx Hxx eq_refl)
      by (rewrite Hr; apply Permutation_refl).
    exact Hc.
  - injection H as -> -> Hr.
    rewrite (tree_sum_two l x x Hx Hx Hxx eq_refl)
      by (rewrite Hl; apply Permutation_refl).
    now rewrite (tree_sum_one r x Hx Hr).
  - injection H as -> -> -> Hr.
    destruct l'; [|discriminate].
    destruct (st_leaves r) eqn:Hr'; [|discriminate].
    rewrite (IHl eq_refl), (tree_sum_nil r Hr'). now apply fadd_zero_r.
Qed.

Lemma Permutation_all_equal {A} (x : A) (l : list A) (n : nat) :
  Permutation l (repeat x n) -> l = repeat x n.
Proof.
  intros H.
  assert (Hall : forall y, In y l -> y = x).
  { intros y Hy. apply (Permutation_in _ H) in Hy.
    now apply repeat_spec in Hy. }
  apply Permutation_length in H. rewrite repeat_length in H. subst n.
  induction l as [|y l IH]; [reflexivity|].
  cbn [List.length repeat]. f_equal.
  - apply Hall. now left.
  - apply IH. intros z Hz. apply Hall. now right.
Qed.

Lemma numpy_sum_three {RT : PyRuntime} (x : pyfloat) :
  x <> S754_zero true -> fadd x x <> S754_zero true ->
  fadd (fadd x x) x <> S754_zero true ->
  fadd x (fadd x x) = fadd (fadd x x) x ->
  numpy_sum [x; x; x] = fadd (fadd x x) x.
Proof.
  intros Hx Hxx Hxxx Hc.
  destruct (numpy_sum_tree [x; x; x]) as (t & Hp & ->).
  apply tree_sum_three; try assumption.
  now apply (Permutation_all_equal x _ 3).
Qed.

Lemma numpy_sum_one {RT : PyRuntime} (x : pyfloat) :
  x <> S754_zero true -> numpy_sum [x] = x.
Proof.
  intros Hx. destruct (numpy_sum_tree [x]) as (t & Hp & ->).
  apply tree_sum_one; [exact Hx|]. now apply Permutation_length_1_inv.
Qed.

Lemma numpy_sum_two {RT : PyRuntime} (x y : pyfloat) :
  x <> S754_zero true -> y <> S754_zero true ->
  fadd x y <> S754_zero true -> fadd y x = fadd x y ->
  numpy_sum [x; y] = fadd x y.
Proof.
  intros Hx Hy Hxy Hc. destruct (numpy_sum_tree [x; y]) as (t & Hp & ->).
  now apply tree_sum_two.
Qed.

(** ** What division and rounding return *)

Lemma iter_pos_invariant {A} (P : A -> Prop) (f : A -> A) :
  (forall x, P x -> P (f x)) ->
  forall n x, P x -> P (iter_pos f n x).
Proof.
  intros Hf. induction n as [n IH|n IH|]; intros x Hx; cbn [iter_pos].
  - apply IH, IH, Hf, Hx.
  - apply IH, IH, Hx.
  - apply Hf, Hx.
Qed.

Lemma shr_1_nonneg (r : shr_record) : 0 <= shr_m r -> 0 <= shr_m (shr_1 r).
Proof.
  destruct r as [m r s]. cbn [shr_m shr_1].
  destruct m as [|[p|p|]|[p|p|]]; cbn [shr_m]; lia.
Qed.

Lemma shr_fexp_nonneg (m e : Z) (l : location) :
  0 <= m -> 0 <= shr_m (fst (shr_fexp prec emax m e l)).
Proof.
  intros Hm. unfold shr_fexp, shr.
  assert (H0 : 0 <= shr_m (shr_record_of_loc m l))
    by (destruct l as [|[| |]]; exact Hm).
  destruct (fexp prec emax (Zdigits2 m + e) - e) as [|p|p]; cbn [fst];
    try exact H0.
  apply (iter_pos_invariant (fun r => 0 <= shr_m r)); [|exact H0].
  apply shr_1_nonneg.
Qed.

Lemma round_nearest_even_nonneg (m : Z) (l : location) :
  0 <= m -> 0 <= round_nearest_even m l.
Proof.
  intros Hm. unfold round_nearest_even.
  destruct l as [|[| |]]; try destruct (Z.even m); lia.
Qed.

Lemma binary_round_aux_not_nan (s : bool) (m e : Z) (l : location) :
  0 <= m -> is_nan (binary_round_aux prec emax s m e l) = false.
Proof.
  intros Hm. unfold binary_round_aux.
  pose proof (shr_fexp_nonneg m e l Hm) as H1.
  destruct (shr_fexp prec emax m e l) as [r1 e1]. cbn [fst] in H1.
  pose proof (shr_fexp_nonneg _ e1 loc_Exact
                (round_nearest_even_nonneg _ (loc_of_shr_record r1) H1))
    as H2.
  destruct (shr_fexp prec emax
              (round_nearest_even (shr_m r1) (loc_of_shr_record r1)) e1
              loc_Exact) as [r2 e2].
  cbn [fst] in H2.
  destruct (shr_m r2) as [|p|p]; [reflexivity| |lia].
  destruct (e2 <=? emax - prec); reflexivity.
Qed.

(** A finite float divided by a float that is neither zero nor NaN is a
    number. *)
Lemma fquot_not_nan (s : bool) (m : positive) (e : Z) (b : pyfloat) :
  is_nan b = false -> is_zero b = false ->
  is_nan (fquot (S754_finite s m e) b) = false.
Proof.
  intros Hn Hz. destruct b as [sb|sb| |sb mb eb]; try discriminate;
    [reflexivity|].
  unfold fquot, SFdiv.
  destruct (SFdiv_core_binary prec emax (Z.pos m) e (Z.pos mb) eb)
    as [[mz ez] lz] eqn:Hd.
  apply binary_round_aux_not_nan.
  unfold SFdiv_core_binary in Hd.
  set (m' := match _ - _ - _ with
             | Z.pos _ => _ | 0 => _ | Z.neg _ => _ end) in Hd.
  assert (Hm' : 0 <= m').
  { subst m'. destruct (_ - _ - _); try lia. apply Z.shiftl_nonneg. lia. }
  pose proof (Z_div_mod m' (Z.pos mb) eq_refl) as Hq.
  destruct (Z.div_eucl m' (Z.pos mb)) as [q r].
  injection Hd as <- _ _. destruct Hq as [Hq Hr]. nia.
Qed.

(** What [round] returns for a number: the float nearest to a whole number
    of units of 10^-8, a zero with a minus sign, or the infinity it was
    given. *)
Lemma round8_decimal8 (x : pyfloat) :
  decimal8 (round8 x) \/ round8 x = x.
Proof.
  destruct x as [s|s| |s m e]; [now right | now right | now right |].
  left. unfold round8.
  destruct (round_half_away _) as [|p|p].
  - destruct s; [now right | left; now exists 0].
  - left. now exists (Z.pos p).
  - left. now exists (Z.neg p).
Qed.

(** ** The statistics of the trade history *)

Lemma dict_get_filter_key {V} (k : string) (d : list (string * V)) :
  dict_get k (filter (fun kv => existsb (String.eqb (fst kv)) [k]) d) =
  dict_get k d.
Proof.
  induction d as [|[k' v] d IH]; simpl; [reflexivity|].
  rewrite orb_false_r, (String.eqb_sym k' k).
  destruct (String.eqb k k') eqn:Hk; simpl.
  - now rewrite Hk.
  - exact IH.
Qed.

Lemma filter_items_trades (l : list pyval) (rs : list TradeRecord) t :
  Forall2 is_trade l rs ->
  exists items,
    filter_items l "OrderType" t = Val items /\
    Forall2 is_trade items (filter (fun r => String.eqb (side r) t) rs).
Proof.
  induction 1 as [|v r l rs (d & -> & Hp & Ht) _ (items & Hf & Hi)].
  - exists []. split; [reflexivity | constructor].
  - cbn [filter_items filter]. rewrite Ht, Hf. cbn [py_eq_str exc_bind].
    destruct (String.eqb (side r) t).
    + eexists. split; [reflexivity|].
      constructor; [exists d; auto | assumption].
    + eexists. split; [reflexivity | assumption].
Qed.

Section Statistics.

Context {RT : PyRuntime}.

Lemma concat_singletons {A} (l : list A) :
  List.concat (map (fun x => [x]) l) = l.
Proof.
  induction l as [|z l IH]; [reflexivity|].
  cbn [map List.concat app]. now rewrite IH.
Qed.

Lemma loadtxt_array_column (l : list pyfloat) :
  data (loadtxt_array 1 (map (fun x => [x]) l)) = l.
Proof.
  destruct l as [|x [|y l]]; try reflexivity.
  change (data (loadtxt_array 1 (map (fun x => [x]) (x :: y :: l))))
    with (List.concat (map (fun x => [x]) (x :: y :: l))).
  apply concat_singletons.
Qed.

(** The array of the prices of a list of trades: one element per trade, in
    their order. *)
Lemma loadtxt_trades (items : list pyval) (rs : list TradeRecord) :
  Forall2 is_trade items rs ->
  exists arr,
    _numpy_loadtxt items ["Price"] = Val arr /\ data arr = map price rs.
Proof.
  intros H.
  assert (Hr : exists rows,
             _list_of_dict_to_csv items ["Price"] = Val rows /\
             loadtxt_rows rows = Val (map (fun x => [x]) (map price rs))).
  { induction H as [|v r l rs (d & -> & Hp & Ht) _ (rows & Hc & Hl)].
    - exists []. split; reflexivity.
    - eexists. cbn [_list_of_dict_to_csv map].
      rewrite dict_get_filter_key, Hp, Hc. cbn [exc_bind].
      split; [reflexivity|].
      cbn [loadtxt_rows loadtxt_cells loadtxt_cell exc_bind].
      now rewrite Hl. }
  destruct Hr as (rows & Hc & Hl).
  eexists. unfold _numpy_loadtxt. rewrite Hc. cbn [exc_bind].
  rewrite Hl. cbn [exc_bind List.length]. split; [reflexivity|].
  apply loadtxt_array_column.
Qed.

End Statistics.

(** ** A submission that goes through *)

Ltac ok_get H := erewrite bind_ok by (apply get_answers; exact H).
Ltac ok_lift H := erewrite bind_ok by (apply lift_val; exact H).

Section SubmitOk.

Context {RT : PyRuntime}.
Variable E : env.

Lemma market_totals_ok self t s hist items prices pmax :
  answers E (calls s) hist ->
  _list_of_dict_filter_by hist "OrderType" t = Val items ->
  _numpy_loadtxt items ["Price"] = Val prices ->
  ndarray_max prices = Val pmax ->
  market_totals E self t s =
  Ok (round8 (ndarray_mean prices), round8 pmax)
     (exchanged (public_request "public/getmarkethistory"
                                [("market", PStr (market self))]) s).
Proof.
  intros Hh Hf Hl Hm. unfold market_totals, public_market_history.
  ok_get Hh.
  ok_lift Hf.
  ok_lift Hl.
  ok_lift Hm.
  reflexivity.
Qed.

Lemma submit_order_ok self t s hist items prices pmax ticker units
      ref price res uuid o :
  answers E (calls s) hist ->
  _list_of_dict_filter_by hist "OrderType" t = Val items ->
  _numpy_loadtxt items ["Price"] = Val prices ->
  ndarray_max prices = Val pmax ->
  answers E (S (calls s)) ticker ->
  calc_units self ticker = Val units ->
  calc_price self t ticker = Val (ref, price) ->
  answers E (S (S (calls s))) res ->
  py_getitem res "uuid" = Val uuid ->
  answers E (S (S (S (calls s)))) o ->
  submit_order E self t s =
  Ok tt {| orders := orders s ++ [o];
           active := active s + 1;
           calls := S (S (S (S (calls s))));
           log := log s ++
                  submit_events E self t (calls s)
                                (round8 (ndarray_mean prices)) (round8 pmax)
                                units ref price uuid |}.
Proof.
  intros Hh Hf Hl Hm Ht Hu Hp Hr Hi Ho. unfold submit_order.
  rewrite (bind_ok _ _ _ _ _ (market_totals_ok _ _ _ _ _ _ _ Hh Hf Hl Hm)).
  unfold public_ticker.
  ok_get Ht.
  ok_lift Hu.
  unfold calc_price in Hp. unfold submit_events, order_method, table_rows.
  destruct (String.eqb t "BUY").
  - erewrite bind_ok.
    2:{ ok_lift Hp.
        unfold market_buy_limit.
        ok_get Hr.
        ok_lift Hi.
        reflexivity. }
    unfold account_order.
    ok_get Ho.
    unfold bind, orders_append, active_incr, emit, log_add, exchanged,
      request_of.
    cbn [orders active calls log fst snd]. rewrite <- !app_assoc.
    reflexivity.
  - erewrite bind_ok.
    2:{ ok_lift Hp.
        unfold market_sell_limit.
        ok_get Hr.
        ok_lift Hi.
        reflexivity. }
    unfold account_order.
    ok_get Ho.
    unfold bind, orders_append, active_incr, emit, log_add, exchanged,
      request_of.
    cbn [orders active calls log fst snd]. rewrite <- !app_assoc.
    reflexivity.
Qed.

End SubmitOk.

Lemma submit_order_goes_through {RT : PyRuntime} E self t s avg mx ticker
      units uuid o ref price :
  goes_through E self t s avg mx ticker units uuid o ->
  calc_price self t ticker = Val (ref, price) ->
  submit_order E self t s =
  Ok tt {| orders := orders s ++ [o];
           active := active s + 1;
           calls := S (S (S (S (calls s))));
           log := log s ++ submit_events E self t (calls s) avg mx units
                                         ref price uuid |}.
Proof.
  intros (hist & items & prices & pmax & res & Hh & Hf & Hl & Hm & -> & ->
          & Ht & Hu & Hr & Hi & Ho) Hp.
  eapply submit_order_ok; eassumption.
Qed.

(** ** The price of an order *)

Lemma calc_bid_spec {RT : PyRuntime} self ticker vb bid smd md :
  py_getitem ticker "Bid" = Val vb ->
  py_float vb = Val bid ->
  py_list_index (spread self) 1 = Val smd ->
  float_of_string smd = Some md ->
  calc_bid self ticker = Val (bid, round8 (fsub bid (fmul bid md))).
Proof.
  intros H1 H2 H3 H4. unfold calc_bid.
  rewrite H1. cbn [exc_bind]. rewrite H2. cbn [exc_bind].
  rewrite H3. cbn [exc_bind py_float]. now rewrite H4.
Qed.

Lemma calc_ask_spec {RT : PyRuntime} self ticker va ask smu mu :
  py_getitem ticker "Ask" = Val va ->
  py_float va = Val ask ->
  py_list_index (spread self) 0 = Val smu ->
  float_of_string smu = Some mu ->
  calc_ask self ticker = Val (ask, round8 (fadd ask (fmul ask mu))).
Proof.
  intros H1 H2 H3 H4. unfold calc_ask.
  rewrite H1. cbn [exc_bind]. rewrite H2. cbn [exc_bind].
  rewrite H3. cbn [exc_bind py_float]. now rewrite H4.
Qed.

(** C4, as the code has it.  Whenever a submission goes through, the limit
    price it sends as [rate] (and prints) is, for a BUY, the float
    round(bid - bid * markdown, 8), and for a SELL the float
    round(ask + ask * markup, 8): the product, the difference or sum and the
    rounding are binary64 operations, markdown and markup being the second
    and the first part of the configured spread as [float] reads them.  For
    the ticker {bid 0.05, ask 0.051} and the spread 0.02/0.01 the BUY price
    is 0.0495 and the SELL price is 0.05202. *)
Theorem submit_order_limit_price :
  (forall (RT : PyRuntime) E self s avg mx ticker units uuid o vb bid smd md,
      goes_through E self "BUY" s avg mx ticker units uuid o ->
      py_getitem ticker "Bid" = Val vb ->
      py_float vb = Val bid ->
      py_list_index (spread self) 1 = Val smd ->
      float_of_string smd = Some md ->
      submit_order E self "BUY" s =
      Ok tt {| orders := orders s ++ [o];
               active := active s + 1;
               calls := S (S (S (S (calls s))));
               log := log s ++
                      submit_events E self "BUY" (calls s) avg mx units bid
                        (round8 (fsub bid (fmul bid md))) uuid |}) /\
  (forall (RT : PyRuntime) E self s avg mx ticker units uuid o va ask smu mu,
      goes_through E self "SELL" s avg mx ticker units uuid o ->
      py_getitem ticker "Ask" = Val va ->
      py_float va = Val ask ->
      py_list_index (spread self) 0 = Val smu ->
      float_of_string smu = Some mu ->
      submit_order E self "SELL" s =
      Ok tt {| orders := orders s ++ [o];
               active := active s + 1;
               calls := S (S (S (S (calls s))));
               log := log s ++
                      submit_events E self "SELL" (calls s) avg mx units ask
                        (round8 (fadd ask (fmul ask mu))) uuid |}) /\
  calc_bid (RT := TestRuntime) (new_trader demo_settings) demo_ticker =
    Val (F64 (5 # 100), F64 (4950000 # 100000000)) /\
  calc_ask (RT := TestRuntime) (new_trader demo_settings) demo_ticker =
    Val (F64 (51 # 1000), F64 (5202000 # 100000000)).
Proof.
  split; [|split; [|split]].
  - intros RT E self s avg mx ticker units uuid o vb bid smd md Hg H1 H2 H3 H4.
    eapply submit_order_goes_through; [exact Hg|].
    unfold calc_price. cbn [String.eqb Ascii.eqb Bool.eqb].
    eapply calc_bid_spec; eassumption.
  - intros RT E self s avg mx ticker units uuid o va ask smu mu Hg H1 H2 H3 H4.
    eapply submit_order_goes_through; [exact Hg|].
    unfold calc_price. cbn [String.eqb Ascii.eqb Bool.eqb].
    eapply calc_ask_spec; eassumption.
  - vm_compute. reflexivity.
  - vm_compute. reflexivity.
Qed.

Lemma demo_buy_goes_through :
  goes_through (RT := TestRuntime) demo_env (new_trader demo_settings) "BUY"
               start (F64 (200000000 # 100000000))
               (F64 (300000000 # 100000000)) demo_ticker (PStr "1")
               (PStr "u1") (demo_order "u1" true).
Proof.
  exists demo_history, [demo_trade 1 "BUY"; demo_trade 3 "BUY"],
    {| shape := [2%nat]; data := [F64 1; F64 3] |}, (F64 3),
    (PDict [("uuid", PStr "u1")]).
  repeat split; vm_compute; reflexivity.
Qed.

Lemma demo_sell_goes_through :
  goes_through (RT := TestRuntime) demo_env (new_trader demo_settings) "SELL"
               start (F64 (200000000 # 100000000))
               (F64 (200000000 # 100000000)) demo_ticker (PStr "1")
               (PStr "u1") (demo_order "u1" true).
Proof.
  exists demo_history, [demo_trade 2 "SELL"],
    {| shape := []; data := [F64 2] |}, (F64 2),
    (PDict [("uuid", PStr "u1")]).
  repeat split; vm_compute; reflexivity.
Qed.

Lemma submit_order_limit_price_witness :
  submit_order (RT := TestRuntime) demo_env (new_trader demo_settings)
               "BUY" start =
  Ok tt {| orders := [demo_order "u1" true];
           active := 1;
           calls := 4;
           log := submit_events demo_env (new_trader demo_settings) "BUY" 0
                    (F64 (200000000 # 100000000))
                    (F64 (300000000 # 100000000)) (PStr "1")
                    (F64 (5 # 100))
                    (round8 (fsub (F64 (5 # 100))
                                  (fmul (F64 (5 # 100)) (F64 (1 # 100)))))
                    (PStr "u1") |}.
Proof.
  apply (proj1 submit_order_limit_price TestRuntime demo_env
               (new_trader demo_settings) start _ _ demo_ticker (PStr "1")
               (PStr "u1") (demo_order "u1" true)
               (PFloat (F64 (5 # 100))) (F64 (5 # 100)) "0.01"
               (F64 (1 # 100))).
  - exact demo_buy_goes_through.
  - reflexivity.
  - reflexivity.
  - reflexivity.
  - reflexivity.
Defined.

(** C4 as stated fails.  At a bid of 0.0101055 and a markdown of 0.01 the
    order is priced at 0.01000445.  The product bid * (1 - markdown) of
    these two numbers lies strictly between 0.010004435 and 0.010004445, so
    rounded to 8 places it is 0.01000444, whichever way ties go; and the
    same product computed in floats and rounded is 0.01000444 too. *)
Lemma limit_price_not_rounded_product :
  calc_bid (RT := TestRuntime) (new_trader demo_settings) tie_ticker =
    Val (F64 (101055 # 10000000), F64 (1000445 # 100000000)) /\
  round8 (fmul (F64 (101055 # 10000000)) (fsub (F64 1) (F64 (1 # 100)))) =
    F64 (1000444 # 100000000) /\
  (inject_Z 1000444 - (1 # 2) <
   value (F64 (101055 # 10000000)) * (1 - value (F64 (1 # 100)))
   * (100000000 # 1))%Q /\
  (value (F64 (101055 # 10000000)) * (1 - value (F64 (1 # 100)))
   * (100000000 # 1) <
   inject_Z 1000444 + (1 # 2))%Q /\
  F64 (1000445 # 100000000) <> F64 (1000444 # 100000000).
Proof.
  split; [|split; [|split; [|split]]].
  - vm_compute. reflexivity.
  - vm_compute. reflexivity.
  - vm_compute. reflexivity.
  - vm_compute. reflexivity.
  - vm_compute. discriminate.
Qed.

(** ** The units of an order *)

(** X16.  With a share size that is a float, as the docstring of
    [__init__] has it, and a ticker whose last price is above zero, the
    units are the larger of 0.0005 / last and the share size: one of the
    two, and not below either. *)
Lemma calc_units_float {RT : PyRuntime} self ticker (last sh : pyfloat) :
  py_getitem ticker "Last" = Val (PFloat last) ->
  flt (F64 0) last = true ->
  shares self = PFloat sh ->
  is_nan sh = false ->
  exists q,
    calc_units self ticker = Val (PFloat q) /\
    fle sh q = true /\ fle (fquot (F64 (5 # 10000)) last) q = true /\
    (q = sh \/ q = fquot (F64 (5 # 10000)) last).
Proof.
  intros Hl Hpos Hs Hsh. unfold calc_units.
  rewrite Hl. cbn [exc_bind py_float]. unfold fdiv.
  destruct (flt_not_nan _ _ Hpos) as [_ Hln].
  assert (Hz : is_zero last = false)
    by (destruct last as [[|]| | |]; try reflexivity; discriminate Hpos).
  rewrite Hz. cbn [exc_bind]. rewrite Hs. cbn [py_float_lt].
  assert (Hq : is_nan (fquot (F64 (5 # 10000)) last) = false).
  { assert (Hc : exists s m e, F64 (5 # 10000) = S754_finite s m e)
      by (vm_compute; eauto).
    destruct Hc as (s & m & e & ->). now apply fquot_not_nan. }
  destruct (flt (fquot (F64 (5 # 10000)) last) sh) eqn:Hc.
  - exists sh. split; [reflexivity|]. split; [now apply fle_refl|].
    split; [now apply flt_fle | now left].
  - eexists. split; [reflexivity|].
    split; [now apply flt_false_fle|].
    split; [now apply fle_refl | now right].
Qed.

(** C5, where the code departs from it.  [main] hands every option over as
    a string, and Python 2 finds any float smaller than any string: the test
    [total_units < self.shares] always succeeds, and the units are the
    configured string whatever 0.0005 / last is.  At a last price of 0.0001
    and a share size of "1" the order goes out with quantity 1, although
    0.0005 / last is 5. *)
Theorem calc_units_string_shares :
  (forall (RT : PyRuntime) apikey secret market shares spread ticker,
      calc_units (new_trader (main_settings apikey secret market shares
                                            spread)) ticker =
      exc_bind (py_getitem ticker "Last") (fun last =>
      exc_bind (py_float last) (fun last =>
      exc_bind (fdiv (F64 (5 # 10000)) last) (fun _ =>
      Val (PStr shares))))) /\
  calc_units (RT := TestRuntime) (new_trader demo_settings) cheap_ticker =
    Val (PStr "1") /\
  fdiv (F64 (5 # 10000)) (F64 (1 # 10000)) = Val (F64 (50000 # 10000)) /\
  run (RT := TestRuntime) cheap_env 1 demo_settings =
    Ok (Some "SELL")
       {| orders := [demo_order "u1" true];
          active := 1;
          calls := 4;
          log := submit_events cheap_env (new_trader demo_settings) "SELL" 0
                   (F64 (200000000 # 100000000))
                   (F64 (200000000 # 100000000)) (PStr "1")
                   (F64 (1 # 10000)) (F64 (10200 # 100000000))
                   (PStr "u1") |}.
Proof.
  split; [|split; [|split]].
  - intros. reflexivity.
  - vm_compute. reflexivity.
  - vm_compute. reflexivity.
  - vm_compute. reflexivity.
Qed.

(** ** The statistics of a submission *)

(** C6, as the code has it.  For a history of trades of which at least one
    has the requested side, [submit_order] takes exactly the trades of that
    side and computes, in binary64, numpy's mean of their prices (numpy's
    sum of them, divided by their number) and the largest of their prices,
    and puts each through [round(x, 8)].  The largest is one of those
    prices, and when none of them is NaN none exceeds it; either result is
    the float nearest to a multiple of 10^-8, unless [round] left it as it
    was.  For the history [(1.0, BUY), (3.0, BUY), (2.0, SELL)] the results
    are (2.0, 3.0) for BUY and (2.0, 2.0) for SELL; for three BUY trades at
    0.000000205 each they are a mean of 0.00000021 and a maximum of
    0.0000002, the mean above the maximum; all this in whatever order numpy
    adds. *)
Theorem market_totals_statistics :
  (forall (RT : PyRuntime) E self t s hist records p ps,
      answers E (calls s) (PList hist) ->
      Forall2 is_trade hist records ->
      side_prices records t = p :: ps ->
      market_totals E self t s =
      Ok (round8 (fquot (numpy_sum (p :: ps))
                        (F64 (inject_Z (Z.of_nat (List.length (p :: ps)))))),
          round8 (fold_left fmax ps p))
         (exchanged (public_request "public/getmarkethistory"
                                    [("market", PStr (market self))]) s) /\
      In (fold_left fmax ps p) (p :: ps) /\
      (forallb (fun f => negb (is_nan f)) (p :: ps) = true ->
       forall x, In x (p :: ps) -> fle x (fold_left fmax ps p) = true) /\
      (forall x, decimal8 (round8 x) \/ round8 x = x)) /\
  (forall (RT : PyRuntime) E self s,
      answers E (calls s) demo_history ->
      market_totals E self "BUY" s =
      Ok (F64 (200000000 # 100000000), F64 (300000000 # 100000000))
         (exchanged (public_request "public/getmarkethistory"
                                    [("market", PStr (market self))]) s)) /\
  (forall (RT : PyRuntime) E self s,
      answers E (calls s) demo_history ->
      market_totals E self "SELL" s =
      Ok (F64 (200000000 # 100000000), F64 (200000000 # 100000000))
         (exchanged (public_request "public/getmarkethistory"
                                    [("market", PStr (market self))]) s)) /\
  (forall (RT : PyRuntime) E self s,
      answers E (calls s) level_history ->
      market_totals E self "BUY" s =
      Ok (F64 (21 # 100000000), F64 (20 # 100000000))
         (exchanged (public_request "public/getmarkethistory"
                                    [("market", PStr (market self))]) s) /\
      flt (F64 (20 # 100000000)) (F64 (21 # 100000000)) = true).
Proof.
  assert (G : forall (RT : PyRuntime) E self t s hist records p ps,
      answers E (calls s) (PList hist) ->
      Forall2 is_trade hist records ->
      side_prices records t = p :: ps ->
      market_totals E self t s =
      Ok (round8 (fquot (numpy_sum (p :: ps))
                        (F64 (inject_Z (Z.of_nat (List.length (p :: ps)))))),
          round8 (fold_left fmax ps p))
         (exchanged (public_request "public/getmarkethistory"
                                    [("market", PStr (market self))]) s)).
  { intros RT E self t s hist records p ps Ha Ht Hs.
    destruct (filter_items_trades hist records t Ht) as (items & Hf & Hi).
    destruct (loadtxt_trades items _ Hi) as (arr & Hl & Hd).
    fold (side_prices records t) in Hd. rewrite Hs in Hd.
    assert (Hmean : ndarray_mean arr =
                    fquot (numpy_sum (p :: ps))
                          (F64 (inject_Z (Z.of_nat (List.length (p :: ps))))))
      by (unfold ndarray_mean; now rewrite Hd).
    rewrite <- Hmean.
    eapply market_totals_ok; [exact Ha | exact Hf | exact Hl |].
    unfold ndarray_max. now rewrite Hd. }
  assert (D : Forall2 is_trade
                [demo_trade 1 "BUY"; demo_trade 3 "BUY"; demo_trade 2 "SELL"]
                demo_records).
  { repeat constructor; eexists; repeat split. }
  split; [|split; [|split]].
  - intros RT E self t s hist records p ps Ha Ht Hs.
    split; [now apply (G RT E self t s hist records)|].
    split; [apply fold_fmax_in|].
    split; [apply fold_fmax_ge | apply round8_decimal8].
  - intros RT E self s Ha.
    rewrite (G RT E self "BUY" s _ demo_records (F64 1) [F64 3] Ha D eq_refl).
    rewrite numpy_sum_two.
    + vm_compute. reflexivity.
    + vm_compute. discriminate.
    + vm_compute. discriminate.
    + vm_compute. discriminate.
    + vm_compute. reflexivity.
  - intros RT E self s Ha.
    rewrite (G RT E self "SELL" s _ demo_records (F64 2) [] Ha D eq_refl).
    rewrite numpy_sum_one.
    + vm_compute. reflexivity.
    + vm_compute. discriminate.
  - intros RT E self s Ha. split; [|vm_compute; reflexivity].
    assert (L : Forall2 is_trade [level_trade; level_trade; level_trade]
                        level_records).
    { repeat constructor; eexists; repeat split. }
    rewrite (G RT E self "BUY" s _ level_records
               (F64 (205 # 1000000000))
               [F64 (205 # 1000000000); F64 (205 # 1000000000)]
               Ha L eq_refl).
    rewrite numpy_sum_three.
    + vm_compute. reflexivity.
    + vm_compute. discriminate.
    + vm_compute. discriminate.
    + vm_compute. discriminate.
    + vm_compute. reflexivity.
Qed.

Lemma market_totals_statistics_witness :
  answers demo_env (calls start) demo_history /\
  market_totals (RT := TestRuntime) demo_env (new_trader demo_settings)
                "BUY" start =
  Ok (F64 (200000000 # 100000000), F64 (300000000 # 100000000))
     (exchanged (public_request "public/getmarkethistory"
                                [("market", PStr "BTC-LTC")]) start).
Proof.
  split.
  - split; reflexivity.
  - apply (proj1 (proj2 market_totals_statistics) TestRuntime demo_env
                 (new_trader demo_settings) start).
    split; reflexivity.
Defined.

(** C6 as stated fails.  For three BUY trades at 0.000000205 each, the
    statistics of a BUY are a mean of 0.00000021 and a maximum of
    0.0000002: the mean is above the maximum.  The arithmetic mean of the
    three prices is the price itself, which rounds to 0.0000002, and that
    is what [compute] of the specification returns for both. *)
Lemma mean_above_max :
  market_totals (RT := TestRuntime) level_env (new_trader demo_settings)
                "BUY" start =
  Ok (F64 (21 # 100000000), F64 (20 # 100000000))
     (exchanged (public_request "public/getmarkethistory"
                                [("market", PStr "BTC-LTC")]) start) /\
  flt (F64 (20 # 100000000)) (F64 (21 # 100000000)) = true /\
  spec_compute level_records "BUY" =
    Some (20 # 100000000, 20 # 100000000)%Q.
Proof.
  split; [|split]; vm_compute; reflexivity.
Qed.

(** ** Which events place an order *)

Lemma submitted_app (l1 l2 : list event) :
  submitted (l1 ++ l2) = (submitted l1 ++ submitted l2)%list.
Proof.
  induction l1 as [|e l1 IH]; simpl; [reflexivity|].
  destruct (order_side e); simpl; now rewrite IH.
Qed.

Section OrderSide.

Context {RT : PyRuntime}.

Lemma order_side_public_history d :
  order_side (public_request "public/getmarkethistory" d) = None.
Proof. reflexivity. Qed.

Lemma order_side_public_ticker d :
  order_side (public_request "public/getticker" d) = None.
Proof. reflexivity. Qed.

Lemma order_side_getorder self d now :
  order_side (signed_request self "account/getorder" d now) = None.
Proof. reflexivity. Qed.

Lemma order_side_order self t d now :
  order_side (signed_request self (order_method t) d now) = Some (side_of t).
Proof.
  unfold order_method, side_of. destruct (String.eqb t "BUY"); reflexivity.
Qed.

End OrderSide.

(** ** An empty sample *)

(** C7, as the code has it.  When no trade of the history has the requested
    side, the statistics fail, not with an error of their own but with the
    ValueError that numpy's [max] raises on an empty array (the mean before
    it is NaN, with a warning only).  Nothing catches it: the submission
    stops after the history request, no ticker is fetched, no order is
    priced or placed, and the ledger and its cursor are as before. *)
Theorem empty_sample_aborts :
  forall (RT : PyRuntime) E self t s hist,
    answers E (calls s) hist ->
    _list_of_dict_filter_by hist "OrderType" t = Val [] ->
    (exists arr,
        _numpy_loadtxt [] ["Price"] = Val arr /\
        ndarray_mean arr = NaN /\ ndarray_max arr = Err "ValueError") /\
    submit_order E self t s =
    Raise "ValueError"
          (exchanged (public_request "public/getmarkethistory"
                                     [("market", PStr (market self))]) s) /\
    orders (final (submit_order E self t s)) = orders s /\
    active (final (submit_order E self t s)) = active s /\
    submitted (log (final (submit_order E self t s))) = submitted (log s).
Proof.
  intros RT E self t s hist Ha Hf.
  assert (H : submit_order E self t s =
              Raise "ValueError"
                    (exchanged (public_request "public/getmarkethistory"
                                  [("market", PStr (market self))]) s)).
  { unfold submit_order, market_totals, public_market_history.
    apply bind_raise.
    ok_get Ha. ok_lift Hf. reflexivity. }
  split; [eexists; repeat split; reflexivity|]. split; [exact H|]. rewrite H.
  cbn [final exchanged orders active log]. repeat split.
  rewrite submitted_app. cbn [submitted].
  rewrite order_side_public_history. apply app_nil_r.
Qed.

Lemma empty_sample_aborts_witness :
  answers buys_only_env (calls start)
          (PList [demo_trade 1 "BUY"; demo_trade 3 "BUY"]) /\
  submit_order (RT := TestRuntime) buys_only_env (new_trader demo_settings)
               "SELL" start =
  Raise "ValueError"
        (exchanged (public_request "public/getmarkethistory"
                                   [("market", PStr "BTC-LTC")]) start).
Proof.
  split.
  - split; reflexivity.
  - apply (empty_sample_aborts TestRuntime buys_only_env
             (new_trader demo_settings) "SELL" start
             (PList [demo_trade 1 "BUY"; demo_trade 3 "BUY"])).
    + split; reflexivity.
    + reflexivity.
Defined.

(** C7 as stated fails: with a history of buys only, a SELL does not end in
    an InsufficientDataError. *)
Lemma empty_sample_no_named_error :
  ~ exists s',
      submit_order (RT := TestRuntime) buys_only_env
                   (new_trader demo_settings) "SELL" start =
      Raise "InsufficientDataError" s'.
Proof. intros [s' H]. vm_compute in H. discriminate H. Qed.

(** ** Every outcome of a step *)

Lemma bind_post {A B} (m : M A) (f : A -> M B) (s : state)
      (P : outcome B -> Prop) :
  (forall a s', m s = Ok a s' -> P (f a s')) ->
  (forall c s', m s = Exit c s' -> P (Exit c s')) ->
  (forall e s', m s = Raise e s' -> P (Raise e s')) ->
  P (bind m f s).
Proof.
  intros Hok Hex Hra. unfold bind. destruct (m s); auto.
Qed.

Lemma lift_post {A B} (m : exc A) (f : A -> M B) (s : state)
      (P : outcome B -> Prop) :
  (forall a, m = Val a -> P (f a s)) ->
  (forall e, m = Err e -> P (Raise e s)) ->
  P (bind (lift m) f s).
Proof.
  intros Hok Hra. destruct m; cbn; auto.
Qed.

Lemma get_post {RT : PyRuntime} {B} E self method d signed (f : pyval -> M B)
      (s : state) (P : outcome B -> Prop) :
  (forall v, answers E (calls s) v ->
     P (f v (exchanged (request_of self method d signed
                                   (clock E (calls s))) s))) ->
  (success (exchange E (calls s)) = false ->
     P (Exit 1 (log_add (refusal E (calls s))
                        (exchanged (request_of self method d signed
                                               (clock E (calls s))) s)))) ->
  P (bind (get E self method (DictObj d) None signed) f s).
Proof.
  intros Hok Hex. unfold bind. rewrite get_dict. cbn zeta.
  destruct (success (exchange E (calls s))) eqn:Hs.
  - apply Hok. now split.
  - now apply Hex.
Qed.

Lemma bind_assoc {A B C} (m : M A) (f : A -> M B) (g : B -> M C) s :
  bind (bind m f) g s = bind m (fun x => bind (f x) g) s.
Proof. unfold bind. destruct (m s); reflexivity. Qed.

Ltac fin_log :=
  cbn [final log log_add exchanged orders active calls];
  rewrite <- ?app_assoc; cbn [app]; reflexivity.

Ltac side_known :=
  unfold side_of;
  match goal with
  | H : String.eqb _ "BUY" = _ |- _ => rewrite H
  end.

Ltac placed :=
  first [left; reflexivity | right; reflexivity
        | right; side_known; reflexivity].

Ltac close_exit Hs :=
  cbn [submit_post];
  split; [reflexivity|]; split; [reflexivity|]; split; [reflexivity|];
  first
    [ eexists [_], _; split; [fin_log | split; [exact Hs | placed]]
    | eexists [_; _], _; split; [fin_log | split; [exact Hs | placed]]
    | eexists [_; _; _], _; split; [fin_log | split; [exact Hs | placed]]
    | eexists [_; _; _; _], _; split; [fin_log | split; [exact Hs | placed]] ].

Ltac close_raise :=
  cbn [submit_post];
  split; [reflexivity|]; split; [reflexivity|];
  eexists; split; [fin_log | placed].

Ltac norm := cbv beta; rewrite ?bind_assoc; cbv beta.

Ltac step_get v H :=
  norm; apply get_post; [intros v H | intros H; close_exit H].
Ltac step_lift v H :=
  norm; apply lift_post; [intros v H | intros ? _; close_raise].

Lemma submit_order_any {RT : PyRuntime} E self t s :
  submit_post E t s (submit_order E self t s).
Proof.
  unfold submit_order, market_totals, public_market_history, public_ticker.
  step_get hist Hh.
  step_lift items Hf.
  step_lift prices Hl.
  step_lift pmax Hm.
  norm. cbn [ret bind].
  step_get ticker Ht.
  step_lift units Hu.
  destruct (String.eqb t "BUY") eqn:Hside.
  - step_lift bid Hb.
    unfold market_buy_limit.
    step_get res Hr.
    step_lift uuid Hi.
    norm. cbn [ret bind snd fst]. unfold account_order.
    step_get o Ho.
    cbn. exists o. eexists. split; [reflexivity|]. split; [reflexivity|].
    split; [fin_log | side_known; reflexivity].
  - step_lift ask Hb.
    unfold market_sell_limit.
    step_get res Hr.
    step_lift uuid Hi.
    norm. cbn [ret bind snd fst]. unfold account_order.
    step_get o Ho.
    cbn. exists o. eexists. split; [reflexivity|]. split; [reflexivity|].
    split; [fin_log | side_known; reflexivity].
Qed.

Lemma polled_submitted {RT : PyRuntime} E self s w evs :
  polled E self s w evs -> submitted evs = [].
Proof.
  intros (o & u & order & v & _ & _ & _ & _ & _ & ->).
  destruct w; reflexivity.
Qed.

Lemma side_of_flip (lt : option string) :
  side_of (flip_trade lt) = flip_trade lt.
Proof.
  destruct lt as [t|]; cbn; [|reflexivity].
  destruct (String.eqb t "SELL"); reflexivity.
Qed.

Lemma check_open_any {RT : PyRuntime} E self s :
  check_post E self s (check_open E self s).
Proof.
  unfold check_open. cbn [bind get_orders].
  destruct (orders s) as [|o0 os] eqn:Hos.
  - cbn. repeat split. exists []. split; [now rewrite app_nil_r|].
    left. repeat split. exact Hos.
  - cbn [bind get_active]. rewrite <- Hos.
    assert (Hne : orders s <> []) by (rewrite Hos; discriminate).
    clear Hos o0 os.
    apply lift_post.
    2:{ intros e _. cbn. repeat split. exists [].
        split; [now rewrite app_nil_r | reflexivity]. }
    intros o Hidx.
    apply lift_post.
    2:{ intros e _. cbn. repeat split. exists [].
        split; [now rewrite app_nil_r | reflexivity]. }
    intros u Hu. unfold account_order.
    apply get_post.
    2:{ intros Hs. cbn. repeat split. eexists [_], _.
        split; [fin_log | split; [exact Hs | reflexivity]]. }
    intros order Ho.
    apply lift_post.
    2:{ intros e _. cbn. repeat split. eexists.
        split; [fin_log | reflexivity]. }
    intros v Hv.
    destruct (py_truthy v) eqn:Htr.
    + cbn. repeat split. eexists. split; [fin_log|].
      right. split; [exact Hne|].
      exists o, u, order, v.
      split; [exact Hidx|]. split; [exact Hu|]. split; [exact Ho|].
      split; [exact Hv|]. split; [exact Htr | reflexivity].
    + cbn. repeat split. eexists. split; [fin_log|].
      right. split; [exact Hne|].
      exists o, u, order, v.
      split; [exact Hidx|]. split; [exact Hu|]. split; [exact Ho|].
      split; [exact Hv|]. split; [exact Htr | reflexivity].
Qed.

Lemma init_iter_any {RT : PyRuntime} E self lt s :
  iter_post E self lt s (init_iter E self lt s).
Proof.
  unfold init_iter.
  pose proof (check_open_any E self s) as Hc.
  unfold bind at 1.
  destruct (check_open E self s) as [w s1 | c s1 | e s1];
    cbn [check_post] in Hc.
  - destruct Hc as (Ho & Ha & evs & Hl & Hcase).
    assert (Hnone : submitted evs = []).
    { destruct Hcase as [(_ & _ & ->) | (_ & Hp)]; [reflexivity|].
      eapply polled_submitted, Hp. }
    destruct w.
    + cbn [ret iter_post]. left.
      destruct Hcase as [(_ & Hf & _) | (Hne & Hp)]; [discriminate|].
      repeat split; auto. exists evs; auto.
    + pose proof (submit_order_any E self (flip_trade lt) s1) as Hs.
      unfold bind.
      destruct (submit_order E self (flip_trade lt) s1)
        as [[] s2 | c s2 | e s2]; cbn [submit_post] in Hs;
        rewrite side_of_flip in Hs.
      * destruct Hs as (o & evs2 & Ho2 & Ha2 & Hl2 & Hsub).
        cbn [ret iter_post]. right. split; [reflexivity|].
        exists o, evs, evs2.
        rewrite Ho2, Ho, Ha2, Ha, Hl2, Hl, app_assoc.
        repeat split; auto.
        destruct Hcase as [(He & _ & Hev) | (Hne & Hp)]; [left | right];
          auto.
      * destruct Hs as (-> & Ho2 & Ha2 & evs2 & n & Hl2 & Hsf & Hsub).
        cbn [iter_post]. split; [reflexivity|].
        split; [congruence|]. split; [congruence|].
        exists (evs ++ evs2)%list, n. split.
        { rewrite Hl2, Hl, <- !app_assoc. reflexivity. }
        split; [exact Hsf|].
        unfold placed_after. rewrite submitted_app, Hnone.
        destruct Hsub as [Hsub | Hsub]; [now left | right].
        split; [exact Hsub|].
        destruct Hcase as [(He & _) | (_ & Hp)]; [now left | right; eauto].
      * destruct Hs as (Ho2 & Ha2 & evs2 & Hl2 & Hsub).
        cbn [iter_post].
        split; [congruence|]. split; [congruence|].
        exists (evs ++ evs2)%list. split.
        { rewrite Hl2, Hl, <- !app_assoc. reflexivity. }
        unfold placed_after. rewrite submitted_app, Hnone.
        destruct Hsub as [Hsub | Hsub]; [now left | right].
        split; [exact Hsub|].
        destruct Hcase as [(He & _) | (_ & Hp)]; [now left | right; eauto].
  - destruct Hc as (-> & Ho & Ha & evs & n & Hl & Hsf & Hsub).
    cbn [iter_post]. repeat split; auto.
    exists evs, n. repeat split; auto. now left.
  - destruct Hc as (Ho & Ha & evs & Hl & Hsub).
    cbn [iter_post]. repeat split; auto.
    exists evs. repeat split; auto. now left.
Qed.

(** ** The loop *)

(** What every pass preserves holds after any number of passes. *)
Lemma init_loop_invariant {RT : PyRuntime} E self
      (I : option string -> state -> Prop) (F : state -> Prop) :
  (forall lt s, I lt s ->
     match init_iter E self lt s with
     | Ok lt' s' => I lt' s'
     | Exit _ s' => F s'
     | Raise _ s' => F s'
     end) ->
  forall n lt s, I lt s ->
    match init_loop E n self lt s with
    | Ok lt' s' => I lt' s'
    | Exit _ s' => F s'
    | Raise _ s' => F s'
    end.
Proof.
  intros Hstep. induction n as [|n IH]; intros lt s HI.
  - exact HI.
  - cbn [init_loop]. unfold bind. specialize (Hstep lt s HI).
    destruct (init_iter E self lt s) as [lt' s' | c s' | e s'];
      [apply IH | |]; exact Hstep.
Qed.

Lemma alternating_snoc (first : string) (n : nat) :
  alternating first (S n) =
  (alternating first n ++ [nth_side first n])%list.
Proof.
  revert first. induction n as [|n IH]; intros first; [reflexivity|].
  change (alternating first (S (S n)))
    with (first :: alternating (flip_trade (Some first)) (S n)).
  rewrite IH. reflexivity.
Qed.

Lemma nth_side_flip (first : string) (n : nat) :
  flip_trade (Some (nth_side first n)) = nth_side first (S n).
Proof.
  revert first. induction n as [|n IH]; intros first; [reflexivity|].
  cbn [nth_side] in *. apply IH.
Qed.

Lemma alternates_extend (l : list string) (lt : option string) :
  l = alternating "SELL" (List.length l) ->
  flip_trade lt = nth_side "SELL" (List.length l) ->
  (l ++ [flip_trade lt])%list =
    alternating "SELL" (List.length (l ++ [flip_trade lt])%list) /\
  flip_trade (Some (flip_trade lt)) =
    nth_side "SELL" (List.length (l ++ [flip_trade lt])%list).
Proof.
  intros Hl Hf. rewrite length_app. cbn [List.length].
  rewrite Nat.add_1_r. split.
  - rewrite alternating_snoc, <- Hf. f_equal. exact Hl.
  - rewrite Hf. apply nth_side_flip.
Qed.

(** C1, as the code has it.  [last_trade] starts as [None], which the flip
    of line 125 turns into SELL: in every run, however long and whatever the
    exchange answers, the orders placed are SELL, BUY, SELL, ... in strict
    alternation, the first one a SELL. *)
Theorem orders_alternate_from_sell :
  alternating "SELL" 3 = ["SELL"; "BUY"; "SELL"] /\
  forall (RT : PyRuntime) E n settings,
    alternates_from "SELL" (submitted (log (final (run E n settings)))).
Proof.
  split; [reflexivity|].
  intros RT E n settings. unfold run, init.
  pose proof
    (init_loop_invariant E (new_trader settings)
       (fun lt s =>
          submitted (log s) =
            alternating "SELL" (List.length (submitted (log s))) /\
          flip_trade lt = nth_side "SELL" (List.length (submitted (log s))))
       (fun s => alternates_from "SELL" (submitted (log s)))) as H.
  match type of H with
  | ?A -> _ => assert (Hstep : A)
  end.
  { clear H. intros lt s [Hl Hf].
    pose proof (init_iter_any E (new_trader settings) lt s) as H.
    destruct (init_iter E (new_trader settings) lt s) as [lt' s'|c s'|e s'];
      cbn [iter_post] in H.
    - destruct H as [(-> & _ & _ & _ & evs & Hlog & Hp)
                    | (-> & o & evs1 & evs2 & _ & _ & Hlog & Hsub & Hcase)].
      + rewrite Hlog, submitted_app, (polled_submitted _ _ _ _ _ Hp),
          app_nil_r. now split.
      + assert (H1 : submitted evs1 = []).
        { destruct Hcase as [(_ & ->) | (_ & Hp)]; [reflexivity|].
          eapply polled_submitted, Hp. }
        rewrite Hlog, !submitted_app, H1, Hsub. cbn [app].
        now apply alternates_extend.
    - destruct H as (_ & _ & _ & evs & k & Hlog & _ & [Hn | [Hp _]]);
        unfold alternates_from;
        rewrite Hlog, !submitted_app; cbn [submitted order_side refusal].
      + rewrite Hn, !app_nil_r. exact Hl.
      + rewrite Hp, app_nil_r. now apply alternates_extend.
    - destruct H as (_ & _ & evs & Hlog & [Hn | [Hp _]]);
        unfold alternates_from; rewrite Hlog, !submitted_app.
      + rewrite Hn, !app_nil_r. exact Hl.
      + rewrite Hp. now apply alternates_extend. }
  specialize (H Hstep n None start).
  destruct (init_loop E n (new_trader settings) None start); cbn [final].
  - apply H. split; reflexivity.
  - apply H. split; reflexivity.
  - apply H. split; reflexivity.
Qed.

(** C1 as stated fails: the first order of a session is a SELL, so the
    orders do not alternate from BUY. *)
Lemma first_order_is_not_a_buy :
  submitted (log (final (run (RT := TestRuntime) demo_env 1 demo_settings)))
    = ["SELL"] /\
  ~ alternates_from "BUY"
      (submitted
         (log (final (run (RT := TestRuntime) demo_env 1 demo_settings)))).
Proof.
  split; [vm_compute; reflexivity|].
  intros H. vm_compute in H. discriminate H.
Qed.

(** ** A refused request *)

(** C8.  A response with success=false makes [get] write the server's
    message on standard error and exit with status 1.  Nothing catches the
    exit: a submission or a pass of the loop in which it happens ends the
    process there, no later pass runs, and the ledger and its cursor are as
    they were when the submission or the pass began, so the refused call
    leaves no entry.  With the order itself refused for INSUFFICIENT_FUNDS,
    the session ends with status 1 and an empty ledger. *)
Theorem refused_response_is_fatal :
  (forall (RT : PyRuntime) E self method d signed s,
      success (exchange E (calls s)) = false ->
      get E self method (DictObj d) None signed s =
      Exit 1 (log_add (EvStderr ("Bittex response: "
                                 ++ message (exchange E (calls s))))
                      (exchanged (request_of self method d signed
                                             (clock E (calls s))) s))) /\
  (forall (RT : PyRuntime) E self t s c s',
      submit_order E self t s = Exit c s' ->
      c = 1 /\ orders s' = orders s /\ active s' = active s /\
      exists evs n,
        log s' = (log s ++ evs ++ [refusal E n])%list /\
        success (exchange E n) = false) /\
  (forall (RT : PyRuntime) E self lt s c s',
      init_iter E self lt s = Exit c s' ->
      c = 1 /\ orders s' = orders s /\ active s' = active s /\
      (exists evs n,
          log s' = (log s ++ evs ++ [refusal E n])%list /\
          success (exchange E n) = false) /\
      forall n, init_loop E (S n) self lt s = Exit c s') /\
  run (RT := TestRuntime) refusing_env 1 demo_settings =
  Exit 1
       {| orders := [];
          active := 0;
          calls := 3;
          log := [public_request "public/getmarkethistory"
                                 [("market", PStr "BTC-LTC")];
                  public_request "public/getticker"
                                 [("market", PStr "BTC-LTC")];
                  signed_request
                    {| apikey := "KEY"; secret := "SECRET" |}
                    "market/selllimit"
                    [("market", PStr "BTC-LTC"); ("quantity", PStr "1");
                     ("rate", PFloat (F64 (5202000 # 100000000)))]
                    (demo_clock 2);
                  EvStderr "Bittex response: INSUFFICIENT_FUNDS"] |}.
Proof.
  split; [|split; [|split]].
  - intros RT E self method d signed s Hs. now apply get_refused.
  - intros RT E self t s c s' H.
    pose proof (submit_order_any E self t s) as Hp. rewrite H in Hp.
    destruct Hp as (-> & Ho & Ha & evs & n & Hl & Hs & _).
    repeat split; auto. exists evs, n. now split.
  - intros RT E self lt s c s' H.
    pose proof (init_iter_any E self lt s) as Hp. rewrite H in Hp.
    destruct Hp as (-> & Ho & Ha & evs & n & Hl & Hs & _).
    repeat split; auto.
    + exists evs, n. now split.
    + intros k. cbn [init_loop]. now apply bind_exit.
  - vm_compute. reflexivity.
Qed.

Lemma refused_response_is_fatal_witness :
  success (exchange refusing_env 2) = false /\
  get (RT := TestRuntime) refusing_env
      {| apikey := "KEY"; secret := "SECRET" |} "market/selllimit"
      (DictObj [("market", PStr "BTC-LTC")]) None true
      {| orders := []; active := 0; calls := 2; log := [] |} =
  Exit 1
       {| orders := []; active := 0; calls := 3;
          log := [signed_request {| apikey := "KEY"; secret := "SECRET" |}
                                 "market/selllimit"
                                 [("market", PStr "BTC-LTC")] (demo_clock 2);
                  EvStderr "Bittex response: INSUFFICIENT_FUNDS"] |}.
Proof.
  split; [reflexivity|].
  apply (proj1 refused_response_is_fatal TestRuntime refusing_env
               {| apikey := "KEY"; secret := "SECRET" |} "market/selllimit"
               [("market", PStr "BTC-LTC")] true
               {| orders := []; active := 0; calls := 2; log := [] |}).
  reflexivity.
Defined.

(** ** Waiting on an open order *)

Lemma check_open_polled {RT : PyRuntime} E self s w evs :
  polled E self s w evs ->
  check_open E self s =
  Ok w {| orders := orders s; active := active s;
          calls := S (calls s); log := log s ++ evs |}.
Proof.
  intros (o & u & order & v & Hidx & Hu & Ho & Hv & Htr & ->).
  assert (Hm : forall (x y : M bool),
             match orders s with [] => x | _ :: _ => y end = y).
  { intros x y. destruct (orders s) as [|o0 os]; [|reflexivity].
    exfalso. unfold py_list_index in Hidx.
    cbn [List.length Z.of_nat] in Hidx.
    set (j := if active s - 1 <? 0 then active s - 1 + 0 else active s - 1)
      in Hidx.
    destruct ((j <? 0) || (0 <=? j)) eqn:Hb; [discriminate|].
    apply orb_false_iff in Hb as [H1 H2].
    apply Z.ltb_ge in H1. apply Z.leb_gt in H2. lia. }
  unfold check_open. cbn [bind get_orders]. rewrite Hm.
  cbn [bind get_active].
  ok_lift Hidx. ok_lift Hu. unfold account_order. ok_get Ho. ok_lift Hv.
  rewrite Htr.
  destruct w; unfold bind, _wait, emit, ret, log_add, exchanged, request_of;
    cbn [orders active calls log]; rewrite <- ?app_assoc; reflexivity.
Qed.

Lemma init_iter_waiting {RT : PyRuntime} E self lt s evs :
  polled E self s true evs ->
  init_iter E self lt s =
  Ok lt {| orders := orders s; active := active s;
           calls := S (calls s); log := log s ++ evs |}.
Proof.
  intros Hp. unfold init_iter.
  rewrite (bind_ok _ _ _ _ _ (check_open_polled _ _ _ _ _ Hp)).
  reflexivity.
Qed.

Lemma init_loop_waiting {RT : PyRuntime} E self lt u n :
  forall s o,
    py_list_index (orders s) (active s - 1) = Val o ->
    py_getitem o "OrderUuid" = Val u ->
    (forall k, (k < n)%nat -> open_at E (k + calls s)) ->
    init_loop E n self lt s =
    Ok lt {| orders := orders s; active := active s;
             calls := n + calls s;
             log := log s ++ open_polls E self u (calls s) n |}.
Proof.
  induction n as [|n IH]; intros s o Hidx Hu Hopen.
  - cbn. rewrite app_nil_r. destruct s; reflexivity.
  - cbn [init_loop].
    destruct (Hopen O ltac:(lia)) as (order & v & Ho & Hv & Htr).
    erewrite bind_ok.
    2:{ apply init_iter_waiting. exists o, u, order, v.
        repeat split; try eassumption; apply Ho. }
    erewrite IH.
    + cbn [orders active calls log open_polls].
      rewrite <- app_assoc, Nat.add_succ_r. reflexivity.
    + exact Hidx.
    + exact Hu.
    + intros k Hk. cbn [calls]. rewrite Nat.add_succ_r.
      apply (Hopen (S k)). lia.
Qed.

Lemma open_polls_quiet {RT : PyRuntime} E self u c n :
  submitted (open_polls E self u c n) = [] /\
  sleeps (open_polls E self u c n) = repeat 30 n.
Proof.
  revert c. induction n as [|n IH]; intros c; [split; reflexivity|].
  destruct (IH (S c)) as [H1 H2].
  cbn [open_polls]. split.
  - cbn [submitted]. rewrite order_side_getorder. cbn [order_side]. exact H1.
  - cbn [sleeps signed_request repeat]. now rewrite H2.
Qed.

Lemma submitted_submit_events {RT : PyRuntime} E self t n avg mx units
      ref price uuid :
  submitted (submit_events E self t n avg mx units ref price uuid) =
  [side_of t].
Proof.
  unfold submit_events. cbn [submitted].
  rewrite order_side_public_history, order_side_public_ticker,
    order_side_order, order_side_getorder.
  reflexivity.
Qed.

(** C9.  While the poll of the ledger's last order finds it open, a pass of
    the loop places no order, sleeps 30 seconds and polls again, for any
    number [n] of polls.  When a poll finds the order closed and the exchange
    answers the submission, the same pass places exactly one order and adds
    it to the ledger.  And whatever the exchange answers, a pass places at
    most one order, and none unless the ledger is empty or its poll found the
    last order closed: no order is placed while the previous one polls as
    open. *)
Theorem open_order_blocks_submission :
  (forall (RT : PyRuntime) E self lt u n s o,
      py_list_index (orders s) (active s - 1) = Val o ->
      py_getitem o "OrderUuid" = Val u ->
      (forall k, (k < n)%nat -> open_at E (k + calls s)) ->
      init_loop E n self lt s =
      Ok lt {| orders := orders s; active := active s;
               calls := n + calls s;
               log := log s ++ open_polls E self u (calls s) n |} /\
      submitted (open_polls E self u (calls s) n) = [] /\
      sleeps (open_polls E self u (calls s) n) = repeat 30 n) /\
  (forall (RT : PyRuntime) E self lt s evs1 avg mx ticker units uuid o'
          ref price,
      polled E self s false evs1 ->
      goes_through E self (flip_trade lt)
                   {| orders := orders s; active := active s;
                      calls := S (calls s); log := log s ++ evs1 |}
                   avg mx ticker units uuid o' ->
      calc_price self (flip_trade lt) ticker = Val (ref, price) ->
      init_iter E self lt s =
      Ok (Some (flip_trade lt))
         {| orders := orders s ++ [o'];
            active := active s + 1;
            calls := 5 + calls s;
            log := (log s ++ evs1) ++
                   submit_events E self (flip_trade lt) (S (calls s))
                                 avg mx units ref price uuid |} /\
      submitted (evs1 ++ submit_events E self (flip_trade lt) (S (calls s))
                                       avg mx units ref price uuid) =
      [flip_trade lt]) /\
  (forall (RT : PyRuntime) E self lt s,
      exists evs,
        log (final (init_iter E self lt s)) = (log s ++ evs)%list /\
        (submitted evs = [] \/
         (submitted evs = [flip_trade lt] /\
          (orders s = [] \/ exists evs1, polled E self s false evs1)))).
Proof.
  split; [|split].
  - intros RT E self lt u n s o Hidx Hu Hopen. split.
    + eapply init_loop_waiting; eassumption.
    + apply open_polls_quiet.
  - intros RT E self lt s evs1 avg mx ticker units uuid o' ref price
           Hp Hg Hc.
    split.
    + unfold init_iter.
      rewrite (bind_ok _ _ _ _ _ (check_open_polled _ _ _ _ _ Hp)).
      rewrite (bind_ok _ _ _ _ _
                 (submit_order_goes_through _ _ _ _ _ _ _ _ _ _ _ _ Hg Hc)).
      reflexivity.
    + rewrite submitted_app, (polled_submitted _ _ _ _ _ Hp),
        submitted_submit_events.
      cbn [app]. now rewrite side_of_flip.
  - intros RT E self lt s.
    pose proof (init_iter_any E self lt s) as H.
    destruct (init_iter E self lt s) as [lt' s'|c s'|e s'];
      cbn [iter_post final] in *.
    + destruct H as [(_ & _ & _ & _ & evs & Hlog & Hp)
                    | (_ & o & evs1 & evs2 & _ & _ & Hlog & Hsub & Hcase)].
      * exists evs. split; [exact Hlog|]. left.
        eapply polled_submitted, Hp.
      * exists (evs1 ++ evs2)%list. split; [exact Hlog|]. right.
        rewrite submitted_app, Hsub.
        destruct Hcase as [(He & ->) | (_ & Hp)].
        -- split; [reflexivity | now left].
        -- rewrite (polled_submitted _ _ _ _ _ Hp).
           split; [reflexivity | right; eauto].
    + destruct H as (_ & _ & _ & evs & n & Hlog & _ & Hpl).
      exists (evs ++ [refusal E n])%list. split; [exact Hlog|].
      rewrite submitted_app. cbn [submitted refusal order_side].
      rewrite app_nil_r. exact Hpl.
    + destruct H as (_ & _ & evs & Hlog & Hpl).
      exists evs. split; [exact Hlog | exact Hpl].
Qed.

Lemma open_order_blocks_submission_witness :
  open_at demo_env 4 /\
  init_loop (RT := TestRuntime) demo_env 1 (new_trader demo_settings)
            (Some "SELL") demo_after_first =
  Ok (Some "SELL")
     {| orders := [demo_order "u1" true]; active := 1; calls := 5;
        log := [signed_request {| apikey := "KEY"; secret := "SECRET" |}
                               "account/getorder" [("uuid", PStr "u1")]
                               (demo_clock 4);
                EvSleep 30] |}.
Proof.
  assert (H : open_at demo_env 4).
  { exists (demo_order "u1" true), (PBool true).
    repeat split; reflexivity. }
  split; [exact H|].
  apply (proj1 open_order_blocks_submission TestRuntime demo_env
               (new_trader demo_settings) (Some "SELL") (PStr "u1") 1%nat
               demo_after_first (demo_order "u1" true)).
  - reflexivity.
  - reflexivity.
  - intros k Hk. assert (k = 0)%nat as -> by lia. exact H.
Defined.

(** ** The ledger and its cursor *)

Lemma py_list_index_last {A} (l : list A) (d : A) :
  l <> [] ->
  py_list_index l (Z.of_nat (List.length l) - 1) = Val (last l d).
Proof.
  intros Hne. destruct (exists_last Hne) as (l' & x & ->).
  rewrite last_last. unfold py_list_index. rewrite length_app.
  cbn [List.length]. rewrite Nat.add_1_r, Nat2Z.inj_succ.
  replace (Z.succ (Z.of_nat (List.length l')) - 1)
    with (Z.of_nat (List.length l')) by lia.
  assert (H1 : (Z.of_nat (List.length l') <? 0) = false)
    by (apply Z.ltb_ge; lia).
  assert (H2 : (Z.succ (Z.of_nat (List.length l'))
                <=? Z.of_nat (List.length l')) = false)
    by (apply Z.leb_gt; lia).
  rewrite H1. cbn [orb]. rewrite H1, H2. cbn [orb].
  rewrite Nat2Z.id, nth_error_app2, Nat.sub_diag by lia.
  reflexivity.
Qed.

Lemma init_loop_add {RT : PyRuntime} E self n k :
  forall lt s,
    init_loop E (n + k) self lt s =
    match init_loop E n self lt s with
    | Ok lt' s' => init_loop E k self lt' s'
    | Exit c s' => Exit c s'
    | Raise e s' => Raise e s'
    end.
Proof.
  induction n as [|n IH]; intros lt s; [reflexivity|].
  cbn [Nat.add init_loop]. unfold bind.
  destruct (init_iter E self lt s) as [lt' s'|c s'|e s']; auto.
Qed.

Lemma init_loop_grows {RT : PyRuntime} E self n :
  forall lt s,
    exists more,
      orders (final (init_loop E n self lt s)) = (orders s ++ more)%list.
Proof.
  induction n as [|n IH]; intros lt s.
  - exists []. cbn. now rewrite app_nil_r.
  - cbn [init_loop]. unfold bind.
    pose proof (init_iter_any E self lt s) as H.
    destruct (init_iter E self lt s) as [lt' s'|c s'|e s'];
      cbn [iter_post final] in *.
    + destruct (IH lt' s') as (more & Hm). rewrite Hm.
      destruct H as [(_ & -> & _) | (_ & o & _ & _ & -> & _)].
      * now exists more.
      * exists (o :: more). now rewrite <- app_assoc.
    + destruct H as (_ & -> & _). exists []. now rewrite app_nil_r.
    + destruct H as (-> & _). exists []. now rewrite app_nil_r.
Qed.

(** C10.  After construction the ledger is empty and the cursor is 0; in
    every state a run reaches, the cursor equals the length of the ledger,
    and the entry the loop polls, at [active - 1], is the last one of the
    ledger; a completed [submit_order] appends exactly one entry and moves
    the cursor onto it; and a longer run only ever extends the ledger of a
    shorter one, so nothing is removed or overwritten. *)
Theorem ledger_cursor_invariant :
  (orders start = [] /\ active start = 0) /\
  (forall (RT : PyRuntime) E n settings,
      let s := final (run E n settings) in
      active s = Z.of_nat (List.length (orders s)) /\
      (orders s <> [] ->
       py_list_index (orders s) (active s - 1) =
       Val (last (orders s) PNone))) /\
  (forall (RT : PyRuntime) E self t s s',
      active s = Z.of_nat (List.length (orders s)) ->
      submit_order E self t s = Ok tt s' ->
      exists o,
        orders s' = (orders s ++ [o])%list /\
        active s' = Z.of_nat (List.length (orders s')) /\
        py_list_index (orders s') (active s' - 1) = Val o) /\
  (forall (RT : PyRuntime) E n k settings,
      exists more,
        orders (final (run E (n + k) settings)) =
        (orders (final (run E n settings)) ++ more)%list).
Proof.
  split; [split; reflexivity|]. split; [|split].
  - intros RT E n settings s.
    assert (Hinv : active s = Z.of_nat (List.length (orders s))).
    { subst s. unfold run, init.
      pose proof
        (init_loop_invariant E (new_trader settings)
           (fun _ s => active s = Z.of_nat (List.length (orders s)))
           (fun s => active s = Z.of_nat (List.length (orders s)))) as H.
      match type of H with
      | ?A -> _ => assert (Hstep : A)
      end.
      { clear H. intros lt s Hs.
        pose proof (init_iter_any E (new_trader settings) lt s) as H.
        destruct (init_iter E (new_trader settings) lt s)
          as [lt' s'|c s'|e s']; cbn [iter_post] in H.
        - destruct H as [(_ & -> & -> & _)
                        | (_ & o & _ & _ & -> & -> & _)]; [exact Hs|].
          rewrite length_app. cbn [List.length]. lia.
        - destruct H as (_ & -> & -> & _). exact Hs.
        - destruct H as (-> & -> & _). exact Hs. }
      specialize (H Hstep n None start eq_refl).
      destruct (init_loop E n (new_trader settings) None start);
        exact H. }
    split; [exact Hinv|].
    intros Hne. rewrite Hinv. now apply py_list_index_last.
  - intros RT E self t s s' Hs H.
    pose proof (submit_order_any E self t s) as Hp. rewrite H in Hp.
    destruct Hp as (o & evs & Ho & Ha & _).
    exists o. split; [exact Ho|].
    assert (Hlen : active s' = Z.of_nat (List.length (orders s'))).
    { rewrite Ha, Ho, Hs, length_app. cbn [List.length]. lia. }
    split; [exact Hlen|].
    rewrite Hlen, (py_list_index_last _ PNone).
    + rewrite Ho. now rewrite last_last.
    + rewrite Ho. intros Hnil. now apply app_eq_nil in Hnil as [_ Hnil].
  - intros RT E n k settings. unfold run, init. rewrite init_loop_add.
    destruct (init_loop E n (new_trader settings) None start)
      as [lt' s'|c s'|e s']; cbn [final].
    + apply init_loop_grows.
    + exists []. now rewrite app_nil_r.
    + exists []. now rewrite app_nil_r.
Qed.

Lemma ledger_cursor_invariant_witness :
  submit_order (RT := TestRuntime) demo_env (new_trader demo_settings)
               "SELL" start =
  Ok tt (final (run (RT := TestRuntime) demo_env 1 demo_settings)) /\
  exists o,
    orders (final (run (RT := TestRuntime) demo_env 1 demo_settings)) =
      [o] /\
    active (final (run (RT := TestRuntime) demo_env 1 demo_settings)) = 1 /\
    py_list_index
      (orders (final (run (RT := TestRuntime) demo_env 1 demo_settings)))
      (active (final (run (RT := TestRuntime) demo_env 1 demo_settings)) - 1)
    = Val o.
Proof.
  split; [reflexivity|].
  destruct (proj1 (proj2 (proj2 ledger_cursor_invariant))
              TestRuntime demo_env (new_trader demo_settings) "SELL" start
              (final (run (RT := TestRuntime) demo_env 1 demo_settings))
              eq_refl eq_refl) as (o & Ho & Ha & Hi).
  exists o. split; [exact Ho|]. split; [reflexivity | exact Hi].
Defined.

(** ** The events of a run *)

Lemma emits_here {A} (P : event -> Prop) (s : state) (r : outcome A) :
  final r = s -> emits P s r.
Proof.
  intros <-. exists []. split; [now rewrite app_nil_r | constructor].
Qed.

Lemma emits_trans {A B} (P : event -> Prop) (s : state) (r1 : outcome A)
      (r2 : outcome B) :
  emits P s r1 -> emits P (final r1) r2 -> emits P s r2.
Proof.
  intros (e1 & H1 & F1) (e2 & H2 & F2). exists (e1 ++ e2)%list. split.
  - now rewrite H2, H1, app_assoc.
  - apply Forall_app. now split.
Qed.

Lemma emits_bind {A B} (P : event -> Prop) (m : M A) (f : A -> M B) s :
  emits P s (m s) ->
  (forall a s', m s = Ok a s' -> emits P s' (f a s')) ->
  emits P s (bind m f s).
Proof.
  intros Hm Hf. unfold bind.
  destruct (m s) as [a s'|c s'|e s'] eqn:Hr.
  - eapply emits_trans; [exact Hm|]. now apply Hf.
  - exact Hm.
  - exact Hm.
Qed.

Lemma emits_lift {A} (P : event -> Prop) (m : exc A) s :
  emits P s (lift m s).
Proof. destruct m; now apply emits_here. Qed.

Lemma emits_get {RT : PyRuntime} (P : event -> Prop) E self method d signed
      s :
  P (request_of self method d signed (clock E (calls s))) ->
  (success (exchange E (calls s)) = false -> P (refusal E (calls s))) ->
  emits P s (get E self method (DictObj d) None signed s).
Proof.
  intros Hreq Href. rewrite get_dict. cbn zeta.
  destruct (success (exchange E (calls s))).
  - eexists. split; [reflexivity|]. now repeat constructor.
  - eexists. split; [fin_log|]. repeat constructor; auto.
Qed.

Lemma order_rows_print {RT : PyRuntime} E self t totals ticker units s3
      rows_uuid s4 :
  (if String.eqb t "BUY" then
     bid <- lift (calc_bid self ticker) ;;
     res <- market_buy_limit E (apiReq self) (PStr (market self))
                             units (PFloat (snd bid)) ;;
     uuid <- lift (py_getitem res "uuid") ;;
     ret ([("Avg", fst totals); ("Max", snd totals);
           ("Ask", fst bid); ("Bid", snd bid)], uuid)
   else
     ask <- lift (calc_ask self ticker) ;;
     res <- market_sell_limit E (apiReq self) (PStr (market self))
                              units (PFloat (snd ask)) ;;
     uuid <- lift (py_getitem res "uuid") ;;
     ret ([("Avg", fst totals); ("Max", snd totals);
           ("Bid", fst ask); ("Ask", snd ask)], uuid)) s3 =
  Ok rows_uuid s4 ->
  loop_event E self
    (EvPrint [t; str_replace "BTC-" "" (market self)] (fst rows_uuid)).
Proof.
  intros Hrows. unfold bind in Hrows.
  destruct (String.eqb t "BUY") eqn:Hside.
  - destruct (lift (calc_bid self ticker) s3) as [bid sa| |];
      try discriminate.
    destruct (market_buy_limit E (apiReq self) (PStr (market self)) units
                               (PFloat (snd bid)) sa) as [res sb| |];
      try discriminate.
    destruct (lift (py_getitem res "uuid") sb) as [uuid sc| |];
      try discriminate.
    injection Hrows as <- _. cbn [fst].
    pose proof (LE_print E self t (fst totals) (snd totals) (fst bid)
                         (snd bid)) as H.
    unfold table_rows in H. now rewrite Hside in H.
  - destruct (lift (calc_ask self ticker) s3) as [ask sa| |];
      try discriminate.
    destruct (market_sell_limit E (apiReq self) (PStr (market self)) units
                                (PFloat (snd ask)) sa) as [res sb| |];
      try discriminate.
    destruct (lift (py_getitem res "uuid") sb) as [uuid sc| |];
      try discriminate.
    injection Hrows as <- _. cbn [fst].
    pose proof (LE_print E self t (fst totals) (snd totals) (fst ask)
                         (snd ask)) as H.
    unfold table_rows in H. now rewrite Hside in H.
Qed.

Lemma submit_order_emits {RT : PyRuntime} E self t s :
  emits (loop_event E self) s (submit_order E self t s).
Proof.
  assert (Hr : forall n, success (exchange E n) = false ->
                         loop_event E self (refusal E n))
    by (intros; now constructor).
  unfold submit_order.
  apply emits_bind.
  { unfold market_totals, public_market_history.
    apply emits_bind; [apply emits_get; [constructor | apply Hr]|].
    intros hist s1 _.
    repeat (apply emits_bind; [apply emits_lift | intros ? ? _]).
    now apply emits_here. }
  intros totals s1 _. unfold public_ticker.
  apply emits_bind; [apply emits_get; [constructor | apply Hr]|].
  intros ticker s2 _.
  apply emits_bind; [apply emits_lift|]. intros units s3 _.
  apply emits_bind.
  { destruct (String.eqb t "BUY") eqn:Hside.
    - apply emits_bind; [apply emits_lift|]. intros bid s4 _.
      apply emits_bind.
      + unfold market_buy_limit. apply emits_get; [|apply Hr].
        apply (LE_order E self "BUY").
      + intros res s5 _.
        apply emits_bind; [apply emits_lift|]. intros uuid s6 _.
        now apply emits_here.
    - apply emits_bind; [apply emits_lift|]. intros ask s4 _.
      apply emits_bind.
      + unfold market_sell_limit. apply emits_get; [|apply Hr].
        apply (LE_order E self "SELL").
      + intros res s5 _.
        apply emits_bind; [apply emits_lift|]. intros uuid s6 _.
        now apply emits_here. }
  intros rows_uuid s4 Hrows.
  apply order_rows_print in Hrows.
  apply emits_bind.
  { unfold account_order. apply emits_get; [constructor | apply Hr]. }
  intros order s5 _.
  unfold bind, orders_append, active_incr, emit, log_add. cbn [final log].
  exists [EvPrint [t; str_replace "BTC-" "" (market self)] (fst rows_uuid)].
  split; [reflexivity | now repeat constructor].
Qed.

Lemma check_open_emits {RT : PyRuntime} E self s :
  emits (loop_event E self) s (check_open E self s).
Proof.
  unfold check_open. cbn [bind get_orders].
  destruct (orders s) as [|o0 os]; [now apply emits_here|].
  cbn [bind get_active].
  apply emits_bind; [apply emits_lift|]. intros o s1 _.
  apply emits_bind; [apply emits_lift|]. intros u s2 _.
  apply emits_bind.
  { unfold account_order. apply emits_get; [constructor|].
    intros Hs. now constructor. }
  intros order s3 _.
  apply emits_bind; [apply emits_lift|]. intros v s4 _.
  destruct (py_truthy v); [|now apply emits_here].
  unfold bind, _wait, emit, ret, log_add. cbn [final log].
  exists [EvSleep 30]. split; [reflexivity | repeat constructor].
Qed.

Lemma init_iter_emits {RT : PyRuntime} E self lt s :
  emits (loop_event E self) s (init_iter E self lt s).
Proof.
  unfold init_iter.
  apply emits_bind; [apply check_open_emits|].
  intros [|] s1 _; [now apply emits_here|].
  apply emits_bind; [apply submit_order_emits|].
  intros _ s2 _. now apply emits_here.
Qed.

Lemma init_loop_emits {RT : PyRuntime} E self n :
  forall lt s, emits (loop_event E self) s (init_loop E n self lt s).
Proof.
  induction n as [|n IH]; intros lt s; [now apply emits_here|].
  cbn [init_loop]. apply emits_bind; [apply init_iter_emits|].
  intros lt' s' _. apply IH.
Qed.

Lemma loop_event_addresses {RT : PyRuntime} E self url headers :
  loop_event E self (EvRequest url headers) ->
  addresses loop_endpoints url = true.
Proof.
  intros H.
  inversion H; subst;
    first [ reflexivity
          | unfold order_method; destruct (String.eqb t "BUY");
            reflexivity ].
Qed.

Lemma loop_event_signed {RT : PyRuntime} E self e :
  loop_event E self e -> signed_or_public (secret (apiReq self)) e.
Proof.
  intros H. destruct H; cbn [signed_or_public refusal]; auto.
  - left. split; reflexivity.
  - left. split; reflexivity.
  - right. split; [reflexivity|].
    unfold order_method. destruct (String.eqb t "BUY"); reflexivity.
  - right. split; reflexivity.
Qed.

Lemma loop_event_sleeps {RT : PyRuntime} E self l :
  Forall (loop_event E self) l -> Forall (fun n => n = 30) (sleeps l).
Proof.
  induction 1 as [|e l He _ IH]; [constructor|].
  destruct He; cbn [sleeps public_request signed_request refusal]; auto.
Qed.

Lemma loop_event_urls {RT : PyRuntime} E self l :
  Forall (loop_event E self) l ->
  Forall (fun url => addresses loop_endpoints url = true) (request_urls l).
Proof.
  induction 1 as [|e l He _ IH]; [constructor|].
  destruct e as [url h| | |]; cbn [request_urls]; auto.
  constructor; [|exact IH]. eapply loop_event_addresses, He.
Qed.

Lemma run_loop_events {RT : PyRuntime} E n settings :
  Forall (loop_event E (new_trader settings))
         (log (final (run E n settings))).
Proof.
  unfold run, init.
  destruct (init_loop_emits E (new_trader settings) n None start)
    as (evs & Hl & Hf).
  now rewrite Hl.
Qed.

(** X1.  Whatever the exchange answers and however long the trader runs,
    everything it does is one of seven things: the two public requests
    about its market, a buy-limit or sell-limit request, a get-order
    request, the message of a refused request, a sleep of 30 seconds, the
    table of a submission.  So every request goes to one of five endpoints
    under the base URL (the trader never cancels and never withdraws), and
    no sleep has another length. *)
Theorem run_events :
  forall (RT : PyRuntime) E n settings,
    let l := log (final (run E n settings)) in
    Forall (loop_event E (new_trader settings)) l /\
    Forall (fun url => addresses loop_endpoints url = true)
           (request_urls l) /\
    Forall (fun seconds => seconds = 30) (sleeps l).
Proof.
  intros RT E n settings l.
  pose proof (run_loop_events E n settings) as H. fold l in H.
  split; [exact H|]. split.
  - eapply loop_event_urls, H.
  - eapply loop_event_sleeps, H.
Qed.

(** X2.  In every run, each request the trader sends is either a public one
    without any header, or carries exactly one header, [apisign], whose
    value is the HMAC-SHA512 digest of the configured secret over the URL of
    that very request: what is signed is what is sent. *)
Theorem run_requests_signed :
  forall (RT : PyRuntime) E n settings,
    Forall (signed_or_public (cfg_secret settings))
           (log (final (run E n settings))).
Proof.
  intros RT E n settings.
  eapply Forall_impl; [|apply run_loop_events].
  intros e He. apply (loop_event_signed _ _ _ He).
Qed.

(** ** How a run ends *)

Lemma init_loop_exit {RT : PyRuntime} E self n :
  forall lt s c s',
    init_loop E n self lt s = Exit c s' ->
    c = 1 /\
    exists l k,
      log s' = (l ++ [refusal E k])%list /\ success (exchange E k) = false.
Proof.
  induction n as [|n IH]; intros lt s c s' H; [discriminate|].
  cbn [init_loop] in H. unfold bind in H.
  pose proof (init_iter_any E self lt s) as Hp.
  destruct (init_iter E self lt s) as [lt1 s1|c1 s1|e1 s1];
    cbn [iter_post] in Hp.
  - eapply IH, H.
  - injection H as <- <-.
    destruct Hp as (-> & _ & _ & evs & k & Hl & Hs & _).
    split; [reflexivity|]. exists (log s ++ evs)%list, k.
    split; [now rewrite Hl, app_assoc | exact Hs].
  - discriminate.
Qed.

(** X3.  A run that exits does so with status 1, and the last thing it has
    done is to write the message of a request the exchange refused: the
    loop has no other way to exit. *)
Theorem run_exit_status :
  forall (RT : PyRuntime) E n settings c s,
    run E n settings = Exit c s ->
    c = 1 /\
    exists l k,
      log s = (l ++ [EvStderr ("Bittex response: "
                               ++ message (exchange E k))])%list /\
      success (exchange E k) = false.
Proof.
  intros RT E n settings c s H. unfold run, init in H.
  apply (init_loop_exit _ _ _ _ _ _ _ H).
Qed.

Lemma run_exit_status_witness :
  exists s,
    run (RT := TestRuntime) refusing_env 3 demo_settings = Exit 1 s /\
    exists l k,
      log s = (l ++ [EvStderr ("Bittex response: "
                               ++ message (exchange refusing_env k))])%list /\
      success (exchange refusing_env k) = false.
Proof.
  eexists. split; [reflexivity|].
  apply (run_exit_status TestRuntime refusing_env 3 demo_settings 1).
  reflexivity.
Defined.

(** ** Where the ledger's entries come from *)

Lemma submit_order_appends_answer {RT : PyRuntime} E self t s s' :
  submit_order E self t s = Ok tt s' ->
  exists o,
    orders s' = (orders s ++ [o])%list /\
    answers E (S (S (S (calls s)))) o /\
    calls s' = S (S (S (S (calls s)))).
Proof.
  set (Q := fun r : outcome unit =>
              match r with
              | Ok _ s' =>
                  exists o,
                    orders s' = (orders s ++ [o])%list /\
                    answers E (S (S (S (calls s)))) o /\
                    calls s' = S (S (S (S (calls s))))
              | _ => True
              end).
  assert (H : Q (submit_order E self t s)).
  { unfold submit_order, market_totals, public_market_history,
      public_ticker.
    norm. apply get_post; [intros hist Hh | intros _; exact I].
    norm. apply lift_post; [intros items Hf | intros ? _; exact I].
    norm. apply lift_post; [intros prices Hl | intros ? _; exact I].
    norm. apply lift_post; [intros pmax Hm | intros ? _; exact I].
    norm. cbn [ret bind].
    norm. apply get_post; [intros ticker Ht | intros _; exact I].
    norm. apply lift_post; [intros units Hu | intros ? _; exact I].
    destruct (String.eqb t "BUY").
    - norm. apply lift_post; [intros bid Hb | intros ? _; exact I].
      unfold market_buy_limit.
      norm. apply get_post; [intros res Hr | intros _; exact I].
      norm. apply lift_post; [intros uuid Hi | intros ? _; exact I].
      norm. cbn [ret bind snd fst]. unfold account_order.
      norm. apply get_post; [intros o Ho | intros _; exact I].
      cbn. exists o. repeat split; apply Ho.
    - norm. apply lift_post; [intros ask Hb | intros ? _; exact I].
      unfold market_sell_limit.
      norm. apply get_post; [intros res Hr | intros _; exact I].
      norm. apply lift_post; [intros uuid Hi | intros ? _; exact I].
      norm. cbn [ret bind snd fst]. unfold account_order.
      norm. apply get_post; [intros o Ho | intros _; exact I].
      cbn. exists o. repeat split; apply Ho. }
  intros Hs. rewrite Hs in H. exact H.
Qed.

Lemma init_iter_ledger {RT : PyRuntime} E self lt s :
  Forall (answered E) (orders s) ->
  Forall (answered E) (orders (final (init_iter E self lt s))).
Proof.
  intros Hf. unfold init_iter.
  pose proof (check_open_any E self s) as Hc. unfold bind at 1.
  destruct (check_open E self s) as [w s1|c s1|e s1];
    cbn [check_post] in Hc.
  - destruct Hc as (Ho & _).
    destruct w; [cbn; now rewrite Ho|].
    pose proof (submit_order_any E self (flip_trade lt) s1) as Hp.
    unfold bind.
    destruct (submit_order E self (flip_trade lt) s1) as [[] s2|c s2|e s2]
      eqn:Hsub; cbn [submit_post] in Hp.
    + destruct (submit_order_appends_answer _ _ _ _ _ Hsub)
        as (o & Ho2 & Ha & _).
      cbn [ret final]. rewrite Ho2, Ho. apply Forall_app. split; [exact Hf|].
      repeat constructor. now exists (S (S (S (calls s1)))).
    + destruct Hp as (_ & Ho2 & _). cbn [final]. now rewrite Ho2, Ho.
    + destruct Hp as (Ho2 & _). cbn [final]. now rewrite Ho2, Ho.
  - destruct Hc as (_ & Ho & _). cbn [final]. now rewrite Ho.
  - destruct Hc as (Ho & _). cbn [final]. now rewrite Ho.
Qed.

(** X4.  A completed [submit_order] makes exactly four requests, and the
    entry it appends to the ledger is the payload answered to the fourth,
    the get-order request; so in every run every entry of the ledger is a
    payload that the exchange answered with success: the trader never
    writes an order record of its own. *)
Theorem ledger_entries_are_answers :
  (forall (RT : PyRuntime) E self t s s',
      submit_order E self t s = Ok tt s' ->
      exists o,
        orders s' = (orders s ++ [o])%list /\
        answers E (S (S (S (calls s)))) o /\
        calls s' = S (S (S (S (calls s))))) /\
  (forall (RT : PyRuntime) E n settings,
      Forall (answered E) (orders (final (run E n settings)))).
Proof.
  split.
  - intros RT E self t s s'. apply submit_order_appends_answer.
  - intros RT E n settings. unfold run, init.
    pose proof
      (init_loop_invariant E (new_trader settings)
         (fun _ s => Forall (answered E) (orders s))
         (fun s => Forall (answered E) (orders s))) as H.
    match type of H with
    | ?A -> _ => assert (Hstep : A)
    end.
    { clear H. intros lt s Hs.
      pose proof (init_iter_ledger E (new_trader settings) lt s Hs) as H.
      destruct (init_iter E (new_trader settings) lt s); exact H. }
    specialize (H Hstep n None start (Forall_nil _)).
    destruct (init_loop E n (new_trader settings) None start); exact H.
Qed.

Lemma ledger_entries_are_answers_witness :
  exists o,
    orders (final (run (RT := TestRuntime) demo_env 1 demo_settings)) =
      [o] /\
    answers demo_env 3 o.
Proof.
  destruct (proj1 ledger_entries_are_answers TestRuntime demo_env
                  (new_trader demo_settings) "SELL" start
                  (final (run (RT := TestRuntime) demo_env 1 demo_settings))
                  eq_refl) as (o & Ho & Ha & _).
  exists o. split; [exact Ho | exact Ha].
Defined.

(** ** The list helpers *)

Lemma filter_items_closed (l : list pyval) (key value : string) :
  filter_items l key value =
  if forallb is_dictb l then Val (filter (has_value key value) l)
  else Err "AttributeError".
Proof.
  induction l as [|item l IH]; [reflexivity|].
  cbn [filter_items forallb filter].
  destruct item; cbn [is_dictb has_value andb]; try reflexivity.
  rewrite IH. destruct (forallb is_dictb l); cbn [exc_bind]; [|reflexivity].
  destruct (dict_get key d) as [v|]; [|reflexivity].
  destruct (py_eq_str v value); reflexivity.
Qed.

Lemma has_value_dict key value item :
  has_value key value item = true -> is_dictb item = true.
Proof. destruct item; cbn; congruence. Qed.

Lemma has_value_unique key v1 v2 item :
  has_value key v1 item = true -> has_value key v2 item = true -> v1 = v2.
Proof.
  destruct item; cbn; try discriminate.
  destruct (dict_get key d) as [v|]; [|discriminate].
  destruct v; cbn; try discriminate.
  intros H1 H2. apply String.eqb_eq in H1, H2. congruence.
Qed.

Lemma filter_filter {A} (f : A -> bool) (l : list A) :
  filter f (filter f l) = filter f l.
Proof.
  induction l as [|x l IH]; [reflexivity|]. cbn [filter].
  destruct (f x) eqn:Hx; [|exact IH]. cbn [filter]. now rewrite Hx, IH.
Qed.

Lemma forallb_filter_dict key value l :
  forallb is_dictb (filter (has_value key value) l) = true.
Proof.
  apply forallb_forall. intros x Hx. apply filter_In in Hx as [_ Hx].
  eapply has_value_dict, Hx.
Qed.

(** X5.  On a list, [_list_of_dict_filter_by] either raises AttributeError,
    exactly when some element is not a dict (wherever it stands and
    whatever it holds), or returns, in their order, exactly the elements
    whose [key] holds the string [value]; an element without the key, or
    with another value there, is dropped without notice. *)
Theorem filter_by_on_lists :
  forall (l : list pyval) (key value : string),
    _list_of_dict_filter_by (PList l) key value =
    if forallb is_dictb l then Val (filter (has_value key value) l)
    else Err "AttributeError".
Proof. intros. apply filter_items_closed. Qed.

(** X6.  What [_list_of_dict_filter_by] returns is stable and exclusive:
    filtering the result again by the same key and value changes nothing,
    filtering it by the same key and any other value leaves nothing, and
    the result is never longer than a list it came from. *)
Theorem filter_by_idempotent :
  forall (data : pyval) (key value : string) (r : list pyval),
    _list_of_dict_filter_by data key value = Val r ->
    _list_of_dict_filter_by (PList r) key value = Val r /\
    (forall other, other <> value ->
                   _list_of_dict_filter_by (PList r) key other = Val []) /\
    (forall l, data = PList l -> (List.length r <= List.length l)%nat).
Proof.
  intros data key value r H.
  assert (Hr : r = [] \/ exists l, r = filter (has_value key value) l).
  { destruct data as [| | | |s0|l|d]; try discriminate.
    - destruct s0; [injection H as <-; now left | discriminate].
    - right. exists l. cbn [_list_of_dict_filter_by] in H.
      rewrite filter_items_closed in H.
      destruct (forallb is_dictb l); [now injection H | discriminate].
    - destruct d; [injection H as <-; now left | discriminate]. }
  split; [|split].
  - destruct Hr as [-> | (l & ->)]; [reflexivity|].
    cbn [_list_of_dict_filter_by].
    now rewrite filter_items_closed, forallb_filter_dict, filter_filter.
  - intros other Hne. destruct Hr as [-> | (l & ->)]; [reflexivity|].
    cbn [_list_of_dict_filter_by].
    rewrite filter_items_closed, forallb_filter_dict. f_equal. clear H.
    induction l as [|x l IH]; [reflexivity|]. cbn [filter].
    destruct (has_value key value x) eqn:Hx; [|exact IH].
    cbn [filter]. destruct (has_value key other x) eqn:Hy; [|exact IH].
    exfalso. apply Hne. eapply has_value_unique; eassumption.
  - intros l ->. cbn [_list_of_dict_filter_by] in H.
    rewrite filter_items_closed in H.
    destruct (forallb is_dictb l); [|discriminate].
    injection H as <-. apply filter_length_le.
Qed.

Lemma filter_by_idempotent_witness :
  _list_of_dict_filter_by demo_history "OrderType" "BUY" =
    Val [demo_trade 1 "BUY"; demo_trade 3 "BUY"] /\
  _list_of_dict_filter_by (PList [demo_trade 1 "BUY"; demo_trade 3 "BUY"])
                          "OrderType" "BUY" =
    Val [demo_trade 1 "BUY"; demo_trade 3 "BUY"].
Proof.
  split; [reflexivity|].
  apply (filter_by_idempotent demo_history "OrderType" "BUY"
           [demo_trade 1 "BUY"; demo_trade 3 "BUY"]).
  reflexivity.
Defined.

Lemma dict_get_filter_keys {V} (k : string) (keys : list string)
      (d : list (string * V)) :
  In k keys ->
  dict_get k (filter (fun kv => existsb (String.eqb (fst kv)) keys) d) =
  dict_get k d.
Proof.
  intros Hin. induction d as [|[k' v] d IH]; [reflexivity|].
  cbn [filter fst dict_get].
  destruct (String.eqb k k') eqn:Hk.
  - apply String.eqb_eq in Hk. subst k'.
    assert (He : existsb (String.eqb k) keys = true).
    { apply existsb_exists. exists k. split; [exact Hin|].
      apply String.eqb_refl. }
    rewrite He. cbn [dict_get]. now rewrite String.eqb_refl.
  - destruct (existsb (String.eqb k') keys); [|exact IH].
    cbn [dict_get]. now rewrite Hk.
Qed.

Lemma to_csv_closed :
  forall (data : list pyval) (keys : list string),
    _list_of_dict_to_csv data keys =
    if forallb is_dictb data
    then Val (map (fun item => map (csv_cell item) keys) data)
    else Err "AttributeError".
Proof.
  intros data keys. induction data as [|item data IH]; [reflexivity|].
  cbn [_list_of_dict_to_csv forallb map].
  destruct item; cbn [is_dictb andb]; try reflexivity.
  rewrite IH. destruct (forallb is_dictb data); cbn [exc_bind];
    [|reflexivity].
  do 2 f_equal. apply map_ext_in. intros k Hk. cbn [csv_cell].
  now rewrite dict_get_filter_keys.
Qed.

(** X7.  [_list_of_dict_to_csv] either raises AttributeError, exactly when
    some item is not a dict, or writes one row per item, each row with one
    cell per name of [keys] and in the order of [keys]: the item's value
    under that name, or the empty string when the item lacks it.  Fields of
    an item that [keys] does not name never reach the output. *)
Theorem csv_rows_closed :
  forall (data : list pyval) (keys : list string),
    _list_of_dict_to_csv data keys =
    if forallb is_dictb data
    then Val (map (fun item => map (csv_cell item) keys) data)
    else Err "AttributeError".
Proof. exact to_csv_closed. Qed.

(** ** Loading the prices *)

Lemma loadtxt_cells_error {RT : PyRuntime} (cells : list pyval) e :
  loadtxt_cells cells = Err e -> e = "ValueError".
Proof.
  induction cells as [|c cells IH]; [discriminate|].
  cbn [loadtxt_cells].
  destruct (loadtxt_cell c) as [f|e'] eqn:Hc; cbn [exc_bind].
  - destruct (loadtxt_cells cells); cbn [exc_bind]; [discriminate|].
    intros H. injection H as <-. now apply IH.
  - intros H. injection H as <-.
    destruct c as [| | |f|str| |]; cbn [loadtxt_cell] in Hc;
      try discriminate; try (now injection Hc).
    destruct (float_of_string str); [discriminate | now injection Hc].
Qed.

Lemma loadtxt_cells_bad {RT : PyRuntime} (cells : list pyval) :
  In PNone cells -> loadtxt_cells cells = Err "ValueError".
Proof.
  induction cells as [|c cells IH]; [contradiction|].
  intros [-> | Hin]; [reflexivity|].
  cbn [loadtxt_cells]. rewrite (IH Hin).
  destruct c as [| | |f|str| |]; cbn [loadtxt_cell exc_bind];
    try reflexivity.
  destruct (float_of_string str); reflexivity.
Qed.

Lemma loadtxt_rows_bad {RT : PyRuntime} (rows : list (list pyval)) r :
  In r rows -> In PNone r -> loadtxt_rows rows = Err "ValueError".
Proof.
  intros Hr Hn. induction rows as [|r' rows IH]; [contradiction|].
  cbn [loadtxt_rows]. destruct Hr as [-> | Hr].
  - now rewrite (loadtxt_cells_bad r Hn).
  - rewrite (IH Hr).
    destruct (loadtxt_cells r') as [fs|e] eqn:Hc; cbn [exc_bind];
      [reflexivity|].
    now rewrite (loadtxt_cells_error r' e Hc).
Qed.

Lemma filter_by_dicts data key value r :
  _list_of_dict_filter_by data key value = Val r ->
  forallb is_dictb r = true.
Proof.
  intros H. destruct data as [| | | |s0|l|d]; try discriminate.
  - destruct s0; [now injection H as <- | discriminate].
  - cbn [_list_of_dict_filter_by] in H. rewrite filter_items_closed in H.
    destruct (forallb is_dictb l); [|discriminate].
    injection H as <-. apply forallb_filter_dict.
  - destruct d; [now injection H as <- | discriminate].
Qed.

(** X9.  One trade of the requested side whose price is null is enough to
    stop a submission: [numpy.loadtxt] cannot read the cell, ValueError
    goes uncaught, and after the history request nothing more happens: no
    ticker is fetched, no order is placed, the ledger is unchanged. *)
Theorem null_price_aborts :
  forall (RT : PyRuntime) E self t s hist items d,
    answers E (calls s) hist ->
    _list_of_dict_filter_by hist "OrderType" t = Val items ->
    In (PDict d) items ->
    dict_get "Price" d = Some PNone ->
    submit_order E self t s =
    Raise "ValueError"
          (exchanged (public_request "public/getmarkethistory"
                                     [("market", PStr (market self))]) s).
Proof.
  intros RT E self t s hist items d Ha Hf Hin Hp.
  assert (Hl : _numpy_loadtxt items ["Price"] = Err "ValueError").
  { unfold _numpy_loadtxt.
    rewrite to_csv_closed, (filter_by_dicts _ _ _ _ Hf). cbn [exc_bind].
    rewrite (loadtxt_rows_bad _ [PNone]); [reflexivity| |now left].
    apply in_map_iff. exists (PDict d). split; [|exact Hin].
    cbn [map csv_cell]. now rewrite Hp. }
  unfold submit_order, market_totals, public_market_history.
  apply bind_raise. ok_get Ha. ok_lift Hf.
  apply bind_raise. now apply lift_err.
Qed.

Lemma null_price_aborts_witness :
  submit_order (RT := TestRuntime) null_price_env (new_trader demo_settings)
               "SELL" start =
  Raise "ValueError"
        (exchanged (public_request "public/getmarkethistory"
                                   [("market", PStr "BTC-LTC")]) start).
Proof.
  apply (null_price_aborts TestRuntime null_price_env
           (new_trader demo_settings) "SELL" start
           (PList [demo_trade 1 "SELL";
                   PDict [("Price", PNone); ("OrderType", PStr "SELL")]])
           [demo_trade 1 "SELL";
            PDict [("Price", PNone); ("OrderType", PStr "SELL")]]
           [("Price", PNone); ("OrderType", PStr "SELL")]).
  - split; reflexivity.
  - reflexivity.
  - right. left. reflexivity.
  - reflexivity.
Defined.

(** ** A ticker without a usable last price *)

Lemma submit_order_units_error {RT : PyRuntime} E self t s hist items prices
      pmax ticker e :
  answers E (calls s) hist ->
  _list_of_dict_filter_by hist "OrderType" t = Val items ->
  _numpy_loadtxt items ["Price"] = Val prices ->
  ndarray_max prices = Val pmax ->
  answers E (S (calls s)) ticker ->
  calc_units self ticker = Err e ->
  submit_order E self t s =
  Raise e
        (exchanged (public_request "public/getticker"
                                   [("market", PStr (market self))])
           (exchanged (public_request "public/getmarkethistory"
                                      [("market", PStr (market self))]) s)).
Proof.
  intros Hh Hf Hl Hm Ht Hu. unfold submit_order.
  rewrite (bind_ok _ _ _ _ _ (market_totals_ok _ _ _ _ _ _ _ _ Hh Hf Hl Hm)).
  unfold public_ticker. ok_get Ht.
  apply bind_raise. now apply lift_err.
Qed.

(** X10.  Once the statistics are in, a ticker whose last price cannot be
    used stops the submission after its second request, before any order
    is priced or placed and with the ledger unchanged: a null last price
    (a market that has not traded) raises TypeError, a last price of zero
    raises ZeroDivisionError, and a ticker without the field raises
    KeyError. *)
Theorem unusable_last_price_aborts :
  forall (RT : PyRuntime) E self t s hist items prices pmax ticker,
    answers E (calls s) hist ->
    _list_of_dict_filter_by hist "OrderType" t = Val items ->
    _numpy_loadtxt items ["Price"] = Val prices ->
    ndarray_max prices = Val pmax ->
    answers E (S (calls s)) ticker ->
    let stopped :=
      exchanged (public_request "public/getticker"
                                [("market", PStr (market self))])
        (exchanged (public_request "public/getmarkethistory"
                                   [("market", PStr (market self))]) s) in
    (py_getitem ticker "Last" = Val PNone ->
     submit_order E self t s = Raise "TypeError" stopped) /\
    (forall z, py_getitem ticker "Last" = Val (PFloat z) ->
               is_zero z = true ->
               submit_order E self t s = Raise "ZeroDivisionError" stopped) /\
    (forall d, ticker = PDict d -> dict_get "Last" d = None ->
               submit_order E self t s = Raise "KeyError" stopped) /\
    orders stopped = orders s /\ active stopped = active s /\
    submitted (log stopped) = submitted (log s).
Proof.
  intros RT E self t s hist items prices pmax ticker Hh Hf Hl Hm Ht stopped.
  split; [|split; [|split]].
  - intros Hn. eapply submit_order_units_error; try eassumption.
    unfold calc_units. now rewrite Hn.
  - intros z Hq Hz. eapply submit_order_units_error; try eassumption.
    unfold calc_units. rewrite Hq. cbn [exc_bind py_float]. unfold fdiv.
    now rewrite Hz.
  - intros d -> Hd. eapply submit_order_units_error; try eassumption.
    unfold calc_units. cbn [py_getitem]. now rewrite Hd.
  - repeat split. subst stopped. cbn [log exchanged].
    rewrite !submitted_app. cbn [submitted].
    rewrite order_side_public_history, order_side_public_ticker.
    now rewrite !app_nil_r.
Qed.

Lemma unusable_last_price_aborts_witness :
  submit_order (RT := TestRuntime) null_last_env (new_trader demo_settings)
               "SELL" start =
  Raise "TypeError"
        (exchanged (public_request "public/getticker"
                                   [("market", PStr "BTC-LTC")])
           (exchanged (public_request "public/getmarkethistory"
                                      [("market", PStr "BTC-LTC")]) start)).
Proof.
  apply (unusable_last_price_aborts TestRuntime null_last_env
           (new_trader demo_settings) "SELL" start demo_history
           [demo_trade 2 "SELL"] {| shape := []; data := [F64 2] |} (F64 2)
           (PDict [("Bid", PFloat (F64 (5 # 100)));
                   ("Ask", PFloat (F64 (51 # 1000))); ("Last", PNone)])).
  - split; reflexivity.
  - reflexivity.
  - reflexivity.
  - reflexivity.
  - split; reflexivity.
  - reflexivity.
Defined.

(** ** The spread option *)

Lemma split_on_no_slash (s : string) :
  no_slash s = true -> split_on "/" s = [s].
Proof.
  induction s as [|c s IH]; [reflexivity|].
  cbn [no_slash split_on]. intros H. apply andb_true_iff in H as [Hc Hs].
  apply negb_true_iff in Hc. rewrite Hc, (IH Hs). reflexivity.
Qed.

Lemma split_on_slash (a b : string) :
  no_slash a = true ->
  split_on "/" (a ++ String "/" b) = a :: split_on "/" b.
Proof.
  induction a as [|c a IH]; [reflexivity|].
  cbn [no_slash append split_on]. intros H.
  apply andb_true_iff in H as [Hc Ha].
  apply negb_true_iff in Hc. rewrite Hc, (IH Ha). reflexivity.
Qed.

Lemma submit_order_price_error {RT : PyRuntime} E self t s hist items prices
      pmax ticker units e :
  answers E (calls s) hist ->
  _list_of_dict_filter_by hist "OrderType" t = Val items ->
  _numpy_loadtxt items ["Price"] = Val prices ->
  ndarray_max prices = Val pmax ->
  answers E (S (calls s)) ticker ->
  calc_units self ticker = Val units ->
  calc_price self t ticker = Err e ->
  submit_order E self t s =
  Raise e
        (exchanged (public_request "public/getticker"
                                   [("market", PStr (market self))])
           (exchanged (public_request "public/getmarkethistory"
                                      [("market", PStr (market self))]) s)).
Proof.
  intros Hh Hf Hl Hm Ht Hu Hp. unfold submit_order.
  rewrite (bind_ok _ _ _ _ _ (market_totals_ok _ _ _ _ _ _ _ _ Hh Hf Hl Hm)).
  unfold public_ticker. ok_get Ht. ok_lift Hu.
  unfold calc_price in Hp. apply bind_raise.
  destruct (String.eqb t "BUY"); apply bind_raise; now apply lift_err.
Qed.

(** X11.  A spread option of the form [a/b], neither part holding a slash,
    is taken apart by [__init__] into exactly those two parts, and
    [submit_order] uses the first as the markup of a SELL and the second as
    the markdown of a BUY: the SELL price is the ask plus the ask times
    [a], the BUY price is the bid minus the bid times [b], each rounded to
    8 places. *)
Theorem spread_option_parts :
  forall (RT : PyRuntime) settings a b ticker vb bid va ask mu md,
    cfg_spread settings = a ++ "/" ++ b ->
    no_slash a = true ->
    no_slash b = true ->
    float_of_string a = Some mu ->
    float_of_string b = Some md ->
    py_getitem ticker "Bid" = Val vb -> py_float vb = Val bid ->
    py_getitem ticker "Ask" = Val va -> py_float va = Val ask ->
    spread (new_trader settings) = [a; b] /\
    calc_ask (new_trader settings) ticker =
      Val (ask, round8 (fadd ask (fmul ask mu))) /\
    calc_bid (new_trader settings) ticker =
      Val (bid, round8 (fsub bid (fmul bid md))).
Proof.
  intros RT settings a b ticker vb bid va ask mu md Hs Ha Hb Hmu Hmd
         Hvb Hbid Hva Hask.
  assert (Hsp : spread (new_trader settings) = [a; b]).
  { cbn [new_trader spread]. rewrite Hs.
    change (a ++ "/" ++ b) with (a ++ String "/" b).
    now rewrite (split_on_slash _ _ Ha), (split_on_no_slash _ Hb). }
  split; [exact Hsp|]. split.
  - unfold calc_ask. rewrite Hva. cbn [exc_bind]. rewrite Hask.
    cbn [exc_bind]. rewrite Hsp.
    change (py_list_index [a; b] 0) with (Val a).
    cbn [exc_bind py_float]. now rewrite Hmu.
  - unfold calc_bid. rewrite Hvb. cbn [exc_bind]. rewrite Hbid.
    cbn [exc_bind]. rewrite Hsp.
    change (py_list_index [a; b] 1) with (Val b).
    cbn [exc_bind py_float]. now rewrite Hmd.
Qed.

Lemma spread_option_parts_witness :
  spread (new_trader demo_settings) = ["0.02"; "0.01"] /\
  calc_ask (RT := TestRuntime) (new_trader demo_settings) demo_ticker =
    Val (F64 (51 # 1000),
         round8 (fadd (F64 (51 # 1000))
                      (fmul (F64 (51 # 1000)) (F64 (2 # 100))))) /\
  calc_bid (RT := TestRuntime) (new_trader demo_settings) demo_ticker =
    Val (F64 (5 # 100),
         round8 (fsub (F64 (5 # 100))
                      (fmul (F64 (5 # 100)) (F64 (1 # 100))))).
Proof.
  apply (spread_option_parts TestRuntime demo_settings "0.02" "0.01"
           demo_ticker (PFloat (F64 (5 # 100))) (F64 (5 # 100))
           (PFloat (F64 (51 # 1000))) (F64 (51 # 1000))
           (F64 (2 # 100)) (F64 (1 # 100)));
    reflexivity.
Defined.

(** X12.  A spread option without a slash leaves [self.spread] with one
    part only.  A SELL still goes by it (the whole option is the markup),
    but a BUY finds no second part: once the history and the ticker are
    in, [self.spread[1]] raises IndexError, the submission stops after its
    second request, and no order is placed. *)
Theorem spread_without_slash :
  forall (RT : PyRuntime) E settings s hist items prices pmax ticker units
         vb bid,
    no_slash (cfg_spread settings) = true ->
    answers E (calls s) hist ->
    _list_of_dict_filter_by hist "OrderType" "BUY" = Val items ->
    _numpy_loadtxt items ["Price"] = Val prices ->
    ndarray_max prices = Val pmax ->
    answers E (S (calls s)) ticker ->
    calc_units (new_trader settings) ticker = Val units ->
    py_getitem ticker "Bid" = Val vb -> py_float vb = Val bid ->
    spread (new_trader settings) = [cfg_spread settings] /\
    submit_order E (new_trader settings) "BUY" s =
    Raise "IndexError"
          (exchanged (public_request "public/getticker"
                                     [("market", PStr (cfg_market settings))])
             (exchanged (public_request "public/getmarkethistory"
                           [("market", PStr (cfg_market settings))]) s)) /\
    (forall va ask mu,
        py_getitem ticker "Ask" = Val va -> py_float va = Val ask ->
        float_of_string (cfg_spread settings) = Some mu ->
        calc_ask (new_trader settings) ticker =
        Val (ask, round8 (fadd ask (fmul ask mu)))).
Proof.
  intros RT E settings s hist items prices pmax ticker units vb bid
         Hns Hh Hf Hl Hm Ht Hu Hvb Hbid.
  assert (Hsp : spread (new_trader settings) = [cfg_spread settings]).
  { cbn [new_trader spread]. now apply split_on_no_slash. }
  split; [exact Hsp|]. split.
  - eapply (submit_order_price_error E (new_trader settings)); try eassumption.
    unfold calc_price. cbn [String.eqb Ascii.eqb Bool.eqb].
    unfold calc_bid. rewrite Hvb. cbn [exc_bind]. rewrite Hbid.
    cbn [exc_bind]. rewrite Hsp. reflexivity.
  - intros va ask mu Hva Hask Hmu.
    unfold calc_ask. rewrite Hva. cbn [exc_bind]. rewrite Hask.
    cbn [exc_bind]. rewrite Hsp.
    change (py_list_index [cfg_spread settings] 0)
      with (Val (cfg_spread settings)).
    cbn [exc_bind py_float]. now rewrite Hmu.
Qed.

Lemma spread_without_slash_witness :
  submit_order (RT := TestRuntime) demo_env
               (new_trader (main_settings "KEY" "SECRET" "BTC-LTC" "1"
                                          "0.02"))
               "BUY" start =
  Raise "IndexError"
        (exchanged (public_request "public/getticker"
                                   [("market", PStr "BTC-LTC")])
           (exchanged (public_request "public/getmarkethistory"
                                      [("market", PStr "BTC-LTC")]) start)).
Proof.
  apply (spread_without_slash TestRuntime demo_env
           (main_settings "KEY" "SECRET" "BTC-LTC" "1" "0.02") start
           demo_history [demo_trade 1 "BUY"; demo_trade 3 "BUY"]
           {| shape := [2%nat]; data := [F64 1; F64 3] |} (F64 3)
           demo_ticker (PStr "1")
           (PFloat (F64 (5 # 100))) (F64 (5 # 100)));
    try reflexivity; split; reflexivity.
Defined.

(** ** The nonce of a signed request *)

Lemma py_int_floor (q : Q) : (0 <= q)%Q -> py_int q = Qfloor q.
Proof.
  destruct q as [n d]. unfold Qle, py_int, Qfloor. cbn [Qnum Qden].
  intros H. apply Z.quot_div_nonneg; lia.
Qed.

Lemma str_int_inj (x y : Z) : str_int x = str_int y -> x = y.
Proof.
  unfold str_int. intros H.
  assert (Hnil : forall z, Z.to_int z <> Decimal.Pos Decimal.Nil /\
                           Z.to_int z <> Decimal.Neg Decimal.Nil).
  { intros [|p|p]; split; try discriminate; intros Hp; injection Hp;
      apply DecimalPos.Unsigned.to_uint_nonnil. }
  assert (Hi : Z.to_int x = Z.to_int y).
  { apply (f_equal NilZero.int_of_string) in H.
    rewrite !NilZero.isi in H by apply Hnil. congruence. }
  apply (f_equal Z.of_int) in Hi. now rewrite !DecimalZ.of_to in Hi.
Qed.

(** X14.  The nonce of a signed request is the whole second of the clock.
    For clock readings t1 <= t2 that are not negative, the nonce of t1 is the
    largest integer not above t1 and never exceeds the nonce of t2.  Two
    requests for the same method and parameters whose readings fall in the
    same whole second are the same request: same URL, same [apisign].  Once
    the next whole second is reached, the text of the nonce differs. *)
Theorem nonce_whole_seconds :
  forall (RT : PyRuntime) (self : BittrexApiRequest) (method : string)
         (d : list (string * pyval)) (t1 t2 : Q),
    (0 <= t1)%Q -> (t1 <= t2)%Q ->
    (inject_Z (py_int t1) <= t1)%Q /\
    (t1 < inject_Z (py_int t1) + 1)%Q /\
    (py_int t1 <= py_int t2)%Z /\
    ((t2 < inject_Z (py_int t1) + 1)%Q ->
       signed_request self method d t1 = signed_request self method d t2) /\
    ((inject_Z (py_int t1) + 1 <= t2)%Q ->
       str_int (py_int t1) <> str_int (py_int t2)).
Proof.
  intros RT self method d t1 t2 H0 H12.
  assert (H02 : (0 <= t2)%Q) by lra.
  rewrite (py_int_floor t1 H0), (py_int_floor t2 H02).
  pose proof (Qfloor_le t1) as F1. pose proof (Qlt_floor t1) as L1.
  pose proof (Qfloor_le t2) as F2. pose proof (Qlt_floor t2) as L2.
  rewrite inject_Z_plus in L1, L2. change (inject_Z 1) with 1%Q in L1, L2.
  pose proof (Qfloor_resp_le _ _ H12) as Hmono.
  split; [exact F1|]. split; [exact L1|]. split; [exact Hmono|]. split.
  - intros Hsame.
    assert (Hlt : (inject_Z (Qfloor t2) < inject_Z (Qfloor t1 + 1))%Q)
      by (rewrite inject_Z_plus; change (inject_Z 1) with 1%Q; lra).
    rewrite <- Zlt_Qlt in Hlt.
    assert (Heq : py_int t1 = py_int t2)
      by (rewrite (py_int_floor t1 H0), (py_int_floor t2 H02); lia).
    unfold signed_request, signed_url, signed_items. now rewrite Heq.
  - intros Hnext Hstr. apply str_int_inj in Hstr.
    rewrite <- Hstr in L2. lra.
Qed.

Lemma nonce_whole_seconds_witness :
  signed_request (RT := TestRuntime) {| apikey := "key"; secret := "secret" |}
                 "market/getopenorders" [("market", PStr "BTC-LTC")]
                 (6001 # 4) =
  signed_request (RT := TestRuntime) {| apikey := "key"; secret := "secret" |}
                 "market/getopenorders" [("market", PStr "BTC-LTC")]
                 (6003 # 4).
Proof.
  destruct (nonce_whole_seconds TestRuntime
              {| apikey := "key"; secret := "secret" |}
              "market/getopenorders" [("market", PStr "BTC-LTC")]
              (6001 # 4) (6003 # 4)) as (_ & _ & _ & Hs & _).
  - discriminate.
  - discriminate.
  - apply Hs. reflexivity.
Defined.


(** ** Closed instances of the request and the units lemmas *)

Lemma signed_call_request_witness :
  exists url rest,
    log (final (call (RT := TestRuntime) demo_env
                     {| apikey := "KEY"; secret := "SECRET" |}
                     (MarketOpenOrders (PStr "BTC-LTC")) start)) =
    EvRequest url
              [("apisign",
                hmac_sha512_hexdigest (PyRuntime := TestRuntime) "SECRET" url)]
      :: rest.
Proof.
  destruct (signed_call_request (RT := TestRuntime) demo_env
              {| apikey := "KEY"; secret := "SECRET" |}
              (MarketOpenOrders (PStr "BTC-LTC"))
              [("market", PStr "BTC-LTC")] start eq_refl eq_refl)
    as (_ & _ & rest & H).
  eexists _, rest. exact H.
Defined.

Lemma calc_units_float_witness :
  exists q,
    calc_units (RT := TestRuntime) (new_trader float_settings) cheap_ticker =
      Val (PFloat q) /\
    fle (F64 1) q = true /\
    fle (fquot (F64 (5 # 10000)) (F64 (1 # 10000))) q = true.
Proof.
  destruct (calc_units_float (RT := TestRuntime) (new_trader float_settings)
              cheap_ticker (F64 (1 # 10000)) (F64 1)
              eq_refl eq_refl eq_refl eq_refl)
    as (q & Hq & H1 & H2 & _).
  exists q. split; [exact Hq|]. split; [exact H1 | exact H2].
Defined.


(** ** The moving average *)

Lemma ones_over_positive (n : Z) :
  (1 <= n)%Z ->
  numpy_ones_over n =
  Val (repeat (fquot (F64 1) (F64 (inject_Z n))) (Z.to_nat n)).
Proof.
  intros H. unfold numpy_ones_over.
  destruct (n <? 0)%Z eqn:Hn; [lia | reflexivity].
Qed.

Lemma convolve_valid_shape {RT : PyRuntime} (a v : list pyfloat) :
  a <> [] -> v <> [] ->
  exists out,
    numpy_convolve_valid a v = Val out /\
    List.length out =
      (Nat.max (List.length a) (List.length v)
       - Nat.min (List.length a) (List.length v) + 1)%nat.
Proof.
  intros Ha Hv. unfold numpy_convolve_valid.
  destruct (List.length a <? List.length v)%nat eqn:Hc.
  - apply Nat.ltb_lt in Hc.
    destruct v as [|y v]; [contradiction|].
    destruct a as [|x a]; [contradiction|].
    eexists. split; [reflexivity|].
    unfold correlate_valid. rewrite length_map, length_seq, length_rev.
    lia.
  - apply Nat.ltb_ge in Hc.
    destruct a as [|x a]; [contradiction|].
    destruct v as [|y v]; [contradiction|].
    eexists. split; [reflexivity|].
    unfold correlate_valid. rewrite length_map, length_seq, length_rev.
    lia.
Qed.

(** X19.  The moving average fails exactly when the window is not positive
    or the data is empty, and then with ValueError.  Otherwise it returns an
    array whose length is the larger of len(a) and n, less the smaller,
    plus one. *)
Theorem calc_sma_errors {RT : PyRuntime} (a : list pyfloat) (n : Z) :
  (_numpy_calc_sma a n = Err "ValueError" <-> (n <= 0)%Z \/ a = []) /\
  ((1 <= n)%Z -> a <> [] ->
   exists out,
     _numpy_calc_sma a n = Val out /\
     List.length out =
       (Nat.max (List.length a) (Z.to_nat n)
        - Nat.min (List.length a) (Z.to_nat n) + 1)%nat).
Proof.
  assert (Hok : (1 <= n)%Z -> a <> [] ->
                exists out,
                  _numpy_calc_sma a n = Val out /\
                  List.length out =
                    (Nat.max (List.length a) (Z.to_nat n)
                     - Nat.min (List.length a) (Z.to_nat n) + 1)%nat).
  { intros Hn Ha. unfold _numpy_calc_sma.
    rewrite (ones_over_positive n Hn). cbn [exc_bind].
    destruct (convolve_valid_shape a
                (repeat (fquot (F64 1) (F64 (inject_Z n))) (Z.to_nat n)) Ha)
      as (out & Hout & Hl).
    - destruct (Z.to_nat n) eqn:HN; [lia | discriminate].
    - exists out. split; [exact Hout|].
      now rewrite repeat_length in Hl. }
  split; [|exact Hok]. split.
  - intros Herr.
    destruct (Z_le_gt_dec n 0) as [Hn | Hn]; [now left|].
    destruct a as [|x a]; [now right|].
    destruct Hok as (out & Hout & _); [lia | discriminate|].
    congruence.
  - intros [Hn | ->].
    + unfold _numpy_calc_sma, numpy_ones_over.
      destruct (n <? 0)%Z eqn:Hneg; [reflexivity|].
      assert (n = 0%Z) as -> by lia. cbn [exc_bind Z.to_nat repeat].
      unfold numpy_convolve_valid. cbn [List.length Nat.ltb Nat.leb].
      destruct a; reflexivity.
    + destruct (Z_le_gt_dec n 0) as [Hn | Hn].
      * unfold _numpy_calc_sma, numpy_ones_over.
        destruct (n <? 0)%Z eqn:Hneg; [reflexivity|].
        assert (n = 0%Z) as -> by lia. reflexivity.
      * unfold _numpy_calc_sma.
        rewrite (ones_over_positive n) by lia. cbn [exc_bind].
        destruct (Z.to_nat n) eqn:HN; [lia|]. reflexivity.
Qed.


(** ** Public operations *)

(** X20.  An operation that is not authenticated and passes named parameters
    sends exactly one request, to the base endpoint, the method path, a
    question mark and the query string of its own parameters only, with no
    header at all; and the credentials of the client play no part in it: a
    client with any other key and secret behaves the same. *)
Theorem public_call_request :
  forall (RT : PyRuntime) (E : env) (self : BittrexApiRequest)
         (op : operation) (d : list (string * pyval)) (s : state),
    authenticated op = false ->
    named_params op = Some d ->
    (exists rest,
        log (final (call E self op s)) =
        (log s
           ++ EvRequest (BASE_URL ++ method_path op ++ "?"
                           ++ join "&" (query_str (iteritems d))) []
           :: rest)%list /\
        forall url headers, ~ In (EvRequest url headers) rest) /\
    calls (final (call E self op s)) = S (calls s) /\
    forall other : BittrexApiRequest, call E other op s = call E self op s.
Proof.
  intros RT E self op d s Hauth Hd.
  assert (Hcall : forall c : BittrexApiRequest,
             call E c op s =
             let res := exchange E (calls s) in
             let s1 := exchanged (public_request (method_path op) d) s in
             if success res then Ok (result res) s1
             else Exit 1 (log_add (EvStderr ("Bittex response: "
                                             ++ message res)) s1)).
  { intros c. rewrite call_get, Hd, Hauth, get_dict. reflexivity. }
  split; [|split].
  - rewrite Hcall. cbn zeta.
    unfold public_request, make_url. rewrite string_app_assoc.
    destruct (success (exchange E (calls s))); simpl.
    + exists []. split; [reflexivity|]. intros url headers [].
    + eexists. rewrite <- app_assoc. split; [reflexivity|].
      intros url headers [H | []]. discriminate H.
  - rewrite Hcall. cbn zeta.
    destruct (success (exchange E (calls s))); reflexivity.
  - intros other. now rewrite !Hcall.
Qed.

Lemma public_call_request_witness :
  call (RT := TestRuntime) demo_env {| apikey := "other"; secret := "none" |}
       (PublicTicker (PStr "BTC-LTC")) start =
  call (RT := TestRuntime) demo_env {| apikey := "KEY"; secret := "SECRET" |}
       (PublicTicker (PStr "BTC-LTC")) start.
Proof.
  destruct (public_call_request TestRuntime demo_env
              {| apikey := "KEY"; secret := "SECRET" |}
              (PublicTicker (PStr "BTC-LTC")) [("market", PStr "BTC-LTC")]
              start eq_refl eq_refl) as (_ & _ & H).
  apply H.
Defined.
